(** * Oracle pipeline: a shallow embedding of the sports and reddit oracles
    and of the payment-gated request handler.

    Sources embedded here:
    - [src/unnamed/part_000]  the sports oracle with its safety rails
      (module [Sports]);
    - [src/oracle.js]         the sports oracle without them: its
      [askOracle] (module [Oracle]);
    - [src/reddit-oracle.js]  the reddit oracle (module [Reddit]);
    - [src/server.mjs]        [handleOracleRequest] (module [Server])
      and the routes of [handleRequest] (module [Router]);
    - [src/meta-evolution.js] the observation log, [findMostCommon],
      [processRedditResult] and the milestones of [logRevenueMilestone]
      (module [MetaEvolution]).

    The JavaScript runtime pieces the sources rely on (strings, regular
    expressions, [Date], [parseInt], [encodeURIComponent]) are modelled in
    module [JS].  Strings are sequences of code units below 256, which is
    what [Stdlib.Strings.String] offers; every pattern and keyword of the
    sources is ASCII.  Time is a clock in the world of each module:
    synchronous code takes no time, an awaited timer or network call
    moves the clock on.  The statements and their proofs follow the
    modules. *)

From Stdlib Require Import ZArith QArith List String Ascii Bool Lia.
From Stdlib Require Import DecimalString.
Import ListNotations.

Set Implicit Arguments.

(* ------------------------------------------------------------------ *)
(** * The JavaScript runtime, as far as the sources use it             *)
(* ------------------------------------------------------------------ *)

Module JS.

Local Open Scope string_scope.

(** ** Characters *)

Definition code (c : ascii) : nat := nat_of_ascii c.

Definition in_range (lo hi c : ascii) : bool :=
  (code lo <=? code c)%nat && (code c <=? code hi)%nat.

Definition isDigit (c : ascii) : bool := in_range "0" "9" c.
Definition isUpper (c : ascii) : bool := in_range "A" "Z" c.
Definition isLower (c : ascii) : bool := in_range "a" "z" c.

(** [\w] *)
Definition isWordChar (c : ascii) : bool :=
  isLower c || isUpper c || isDigit c || Ascii.eqb c "_".

(** [\s] restricted to code units below 256: TAB, LF, VT, FF, CR, SP, NBSP. *)
Definition isSpace (c : ascii) : bool :=
  let n := code c in
  ((9 <=? n) && (n <=? 13) || (n =? 32) || (n =? 160))%nat.

(** ASCII case folding, as used by the [i] flag: [Canonicalize] never maps
    a code unit above 127 onto an ASCII one. *)
Definition asciiUpper (c : ascii) : ascii :=
  if isLower c then ascii_of_nat (code c - 32) else c.

(** [String.prototype.toLowerCase] on one code unit below 256. *)
Definition lowerChar (c : ascii) : ascii :=
  let n := code c in
  if isUpper c then ascii_of_nat (n + 32)
  else if ((192 <=? n) && (n <=? 222) && negb (n =? 215))%nat
       then ascii_of_nat (n + 32)
       else c.

(** ** Strings *)

Fixpoint toLowerCase (s : string) : string :=
  match s with
  | EmptyString => EmptyString
  | String c s' => String (lowerChar c) (toLowerCase s')
  end.

(** [s.includes(sub)] *)
Fixpoint includes (sub s : string) : bool :=
  prefix sub s ||
  match s with
  | EmptyString => false
  | String _ s' => includes sub s'
  end.

Fixpoint trimStart (s : string) : string :=
  match s with
  | String c s' => if isSpace c then trimStart s' else s
  | EmptyString => EmptyString
  end.

Fixpoint rev_string (s acc : string) : string :=
  match s with
  | EmptyString => acc
  | String c s' => rev_string s' (String c acc)
  end.

Definition trimEnd (s : string) : string :=
  rev_string (trimStart (rev_string s EmptyString)) EmptyString.

Definition trim (s : string) : string := trimEnd (trimStart s).

(** [s.replace(pat, by)] with a string pattern: the first occurrence only. *)
Fixpoint replaceFirst (pat by_ s : string) : string :=
  if prefix pat s
  then by_ ++ substring (length pat) (length s - length pat) s
  else match s with
       | EmptyString => EmptyString
       | String c s' => String c (replaceFirst pat by_ s')
       end.

(** The double quote character. *)
Definition dquote : ascii := ascii_of_nat 34.

(** Truthiness of a string value. *)
Definition truthy (s : string) : bool :=
  match s with EmptyString => false | _ => true end.

(** A value that is a string, [null] or [undefined]. *)
Inductive value : Type :=
| VNull
| VUndefined
| VStr (s : string).

Definition value_truthy (v : value) : bool :=
  match v with VStr s => truthy s | _ => false end.

(** The text of a value that is a string. *)
Definition value_text (v : value) : string :=
  match v with VStr s => s | VNull => "null" | VUndefined => "undefined" end.

(** ** Numbers as decimal text *)

Definition showN (n : N) : string := NilZero.string_of_uint (N.to_uint n).

Definition showZ (z : Z) : string :=
  match z with
  | Zneg p => "-" ++ showN (Npos p)
  | _ => showN (Z.to_N z)
  end.

Fixpoint zeros (n : nat) : string :=
  match n with
  | O => EmptyString
  | S n' => String "0" (zeros n')
  end.

(** [s.padStart(width, '0')] *)
Definition padLeft (width : nat) (s : string) : string :=
  zeros (width - length s) ++ s.

Definition digitVal (c : ascii) : Z := Z.of_nat (code c - 48).

(** The value of a run of decimal digits read from the left, with the rest. *)
Fixpoint readDigits (s : string) (acc : option Z) : option Z :=
  match s with
  | String c s' =>
      if isDigit c
      then readDigits s' (Some (10 * match acc with Some a => a | None => 0 end
                                + digitVal c)%Z)
      else acc
  | EmptyString => acc
  end.

(** [parseInt(s, 10)]; [None] is [NaN]. *)
Definition parseInt10 (s : string) : option Z :=
  match trimStart s with
  | String "-" s' => option_map Z.opp (readDigits s' None)
  | String "+" s' => readDigits s' None
  | s' => readDigits s' None
  end.

Fixpoint allDigits (s : string) : bool :=
  match s with
  | EmptyString => true
  | String c s' => isDigit c && allDigits s'
  end.

(** ** [encodeURIComponent] (code units below 256, UTF-8 percent encoding) *)

Definition hexDigit (n : nat) : ascii :=
  if (n <? 10)%nat then ascii_of_nat (48 + n) else ascii_of_nat (55 + n).

Definition pct (n : nat) : string :=
  String "%" (String (hexDigit (n / 16)) (String (hexDigit (n mod 16)) EmptyString)).

Definition uriUnreserved (c : ascii) : bool :=
  isLower c || isUpper c || isDigit c ||
  existsb (Ascii.eqb c) ["-"; "_"; "."; "!"; "~"; "*"; "'"; "("; ")"]%char.

Fixpoint encodeURIComponent (s : string) : string :=
  match s with
  | EmptyString => EmptyString
  | String c s' =>
      let n := code c in
      (if uriUnreserved c then String c EmptyString
       else if (n <? 128)%nat then pct n
            else pct (192 + n / 64) ++ pct (128 + n mod 64))
      ++ encodeURIComponent s'
  end.

(** ** Regular expressions: a backtracking matcher

    The matcher follows the ECMAScript priorities: alternatives left to
    right, quantifiers greedy, and an iteration of a starred group that
    consumes nothing is not taken.  Positions are indices into the whole
    input so that [\b] can look at the previous character. *)

Inductive regex : Type :=
| Eps
| Cls (p : ascii -> bool)
| Seq (r1 r2 : regex)
| Alt (r1 r2 : regex)
| Star (r : regex)
| Grp (i : nat) (r : regex)
| WordB.

Definition Caps := list (nat * string).

Fixpoint cap (i : nat) (cs : Caps) : option string :=
  match cs with
  | [] => None
  | (j, s) :: cs' => if (i =? j)%nat then Some s else cap i cs'
  end.

Definition wordAt (inp : string) (pos : nat) : bool :=
  match get pos inp with Some c => isWordChar c | None => false end.

Definition atBoundary (inp : string) (pos : nat) : bool :=
  xorb (match pos with O => false | S p => wordAt inp p end) (wordAt inp pos).

Section Matcher.
Variable A : Type.

(** The iterations of a starred group: [step] matches the group once.
    An iteration must move forward, so [fuel], which starts above the
    number of characters left, is never used up ([starLoop_fuel] below). *)
Fixpoint starLoop
         (step : nat -> Caps -> (nat -> Caps -> option A) -> option A)
         (k : nat -> Caps -> option A)
         (fuel pos : nat) (cs : Caps) {struct fuel} : option A :=
  match fuel with
  | O => k pos cs
  | S fuel' =>
      match step pos cs
              (fun pos' cs' =>
                 if (pos <? pos')%nat then starLoop step k fuel' pos' cs'
                 else None) with
      | Some a => Some a
      | None => k pos cs
      end
  end.

Fixpoint run (r : regex) (inp : string) (pos : nat) (cs : Caps)
         (k : nat -> Caps -> option A) {struct r} : option A :=
  match r with
  | Eps => k pos cs
  | Cls p =>
      match get pos inp with
      | Some c => if p c then k (S pos) cs else None
      | None => None
      end
  | Seq r1 r2 => run r1 inp pos cs (fun pos' cs' => run r2 inp pos' cs' k)
  | Alt r1 r2 =>
      match run r1 inp pos cs k with
      | Some a => Some a
      | None => run r2 inp pos cs k
      end
  | Star r1 =>
      starLoop (fun pos' cs' k' => run r1 inp pos' cs' k') k
               (S (length inp - pos)) pos cs
  | Grp i r1 =>
      run r1 inp pos cs
          (fun pos' cs' =>
             k pos' ((i, substring pos (pos' - pos) inp) :: cs'))
  | WordB => if atBoundary inp pos then k pos cs else None
  end.
End Matcher.

(** The least number of characters a match of [r] consumes. *)
Fixpoint minLen (r : regex) : nat :=
  match r with
  | Cls _ => 1
  | Seq r1 r2 => minLen r1 + minLen r2
  | Alt r1 r2 => Nat.min (minLen r1) (minLen r2)
  | Grp _ r1 => minLen r1
  | Eps | Star _ | WordB => 0
  end.

Record Match : Type :=
  { m_index : nat; m_end : nat; m_caps : Caps }.

Definition group (i : nat) (m : Match) : option string := cap i (m_caps m).

(** Leftmost match starting at [start] or later; [n] counts the start
    positions still to try after [start]. *)
Fixpoint scan (n : nat) (r : regex) (inp : string) (start : nat)
  : option Match :=
  match run r inp start [] (fun e cs => Some (e, cs)) with
  | Some (e, cs) => Some {| m_index := start; m_end := e; m_caps := cs |}
  | None =>
      match n with
      | O => None
      | S n' => scan n' r inp (S start)
      end
  end.

(** [re.exec(inp)] with [re.lastIndex = lastIndex]. *)
Definition execAt (r : regex) (inp : string) (lastIndex : nat)
  : option Match :=
  if (lastIndex <=? length inp)%nat
  then scan (length inp - lastIndex) r inp lastIndex
  else None.

(** [inp.match(re)] for a pattern without the [g] flag. *)
Definition matchRe (r : regex) (inp : string) : option Match :=
  execAt r inp 0.

(** Pattern building blocks.  [ci] is the [i] flag. *)
Definition chr (ci : bool) (x : ascii) : regex :=
  Cls (fun c => if ci then Ascii.eqb (asciiUpper c) (asciiUpper x)
                else Ascii.eqb c x).

Fixpoint lit (ci : bool) (s : string) : regex :=
  match s with
  | EmptyString => Eps
  | String c EmptyString => chr ci c
  | String c s' => Seq (chr ci c) (lit ci s')
  end.

Definition plus (r : regex) : regex := Seq r (Star r).
Definition opt (r : regex) : regex := Alt r Eps.

Fixpoint rep (n : nat) (r : regex) : regex :=
  match n with
  | O => Eps
  | S n' => Seq r (rep n' r)
  end.

(** [r{0,n}], greedy. *)
Fixpoint upto (n : nat) (r : regex) : regex :=
  match n with
  | O => Eps
  | S n' => opt (Seq r (upto n' r))
  end.

Fixpoint seqs (rs : list regex) : regex :=
  match rs with
  | [] => Eps
  | [r] => r
  | r :: rs' => Seq r (seqs rs')
  end.

Fixpoint alts (rs : list regex) : regex :=
  match rs with
  | [] => Cls (fun _ => false)
  | [r] => r
  | r :: rs' => Alt r (alts rs')
  end.

Definition digit : regex := Cls isDigit.
Definition wordc : regex := Cls isWordChar.
Definition space : regex := Cls isSpace.
(** [[a-z0-9]] under the [i] flag *)
Definition alnum_ci : regex :=
  Cls (fun c => isLower c || isUpper c || isDigit c).

(** ** [Date]

    A [Date] is its time value: milliseconds since the epoch, UTC.  Local
    time is UTC shifted by a fixed offset [tz] in minutes. *)

Local Open Scope Z_scope.

Definition msPerDay : Z := 86400000.

(** Proleptic Gregorian calendar: day number since 1970-01-01 to
    (year, month, day) and back. *)
Definition civilFromDays (z : Z) : Z * Z * Z :=
  let z := z + 719468 in
  let era := z / 146097 in
  let doe := z - era * 146097 in
  let yoe := (doe - doe / 1460 + doe / 36524 - doe / 146096) / 365 in
  let doy := doe - (365 * yoe + yoe / 4 - yoe / 100) in
  let mp := (5 * doy + 2) / 153 in
  let d := doy - (153 * mp + 2) / 5 + 1 in
  let m := if mp <? 10 then mp + 3 else mp - 9 in
  let y := yoe + era * 400 in
  (if m <=? 2 then y + 1 else y, m, d).

Definition daysFromCivil (y m d : Z) : Z :=
  let y := if m <=? 2 then y - 1 else y in
  let era := y / 400 in
  let yoe := y - era * 400 in
  let doy := (153 * (if 2 <? m then m - 3 else m + 9) + 2) / 5 + d - 1 in
  let doe := yoe * 365 + yoe / 4 - yoe / 100 + doy in
  era * 146097 + doe - 719468.

Definition isLeap (y : Z) : bool :=
  (y mod 4 =? 0) && (negb (y mod 100 =? 0) || (y mod 400 =? 0)).

Definition daysInMonth (y m : Z) : Z :=
  if m =? 2 then (if isLeap y then 29 else 28)
  else if (m =? 4) || (m =? 6) || (m =? 9) || (m =? 11) then 30 else 31.

Definition pad (w : nat) (z : Z) : string := padLeft w (showZ z).

Definition showYearISO (y : Z) : string :=
  if (0 <=? y) && (y <=? 9999) then pad 4 y
  else ((if (y <? 0)%Z then "-" else "+") ++ pad 6 (Z.abs y))%string.

(** [new Date(t).toISOString()] *)
Definition toISOString (t : Z) : string :=
  let '(y, m, d) := civilFromDays (t / msPerDay) in
  let ms := t mod msPerDay in
  (showYearISO y ++ "-" ++ pad 2 m ++ "-" ++ pad 2 d ++ "T" ++
   pad 2 (ms / 3600000) ++ ":" ++ pad 2 (ms / 60000 mod 60) ++ ":" ++
   pad 2 (ms / 1000 mod 60) ++ "." ++ pad 3 (ms mod 1000) ++ "Z")%string.

(** [s.split('T')[0]] *)
Fixpoint beforeT (s : string) : string :=
  match s with
  | EmptyString => EmptyString
  | String c s' => if Ascii.eqb c "T" then EmptyString else String c (beforeT s')
  end.

Definition isoDate (t : Z) : string := beforeT (toISOString t).

Definition localMs (tz t : Z) : Z := t + tz * 60000.

(** [new Date(t).getHours()] *)
Definition getHours (tz t : Z) : Z := localMs tz t / 3600000 mod 24.

Definition weekdayName (n : Z) : string :=
  nth (Z.to_nat n) ["Sun"; "Mon"; "Tue"; "Wed"; "Thu"; "Fri"; "Sat"]%string
      EmptyString.

Definition monthName (m : Z) : string :=
  nth (Z.to_nat (m - 1))
      ["Jan"; "Feb"; "Mar"; "Apr"; "May"; "Jun";
       "Jul"; "Aug"; "Sep"; "Oct"; "Nov"; "Dec"]%string EmptyString.

(** [new Date(t).toDateString()], e.g. [Thu Jan 01 1970] *)
Definition toDateString (tz t : Z) : string :=
  let day := localMs tz t / msPerDay in
  let '(y, m, d) := civilFromDays day in
  (weekdayName ((day + 4) mod 7) ++ " " ++ monthName m ++ " " ++ pad 2 d ++
   " " ++ (if (y <? 0)%Z then "-" else EmptyString) ++ pad 4 (Z.abs y))%string.

(** [new Date(s)] for the ISO date-only form [YYYY-MM-DD], which ECMAScript
    fixes as UTC midnight when the fields name a real day.  Every other
    text is left to the engine's own parser [legacy]; [None] is an invalid
    date ([NaN]). *)
Definition parseIsoDateOnly (s : string) : option Z :=
  if ((length s =? 10)%nat &&
      allDigits (substring 0 4 s) && allDigits (substring 5 2 s) &&
      allDigits (substring 8 2 s) &&
      String.eqb (substring 4 1 s) "-" && String.eqb (substring 7 1 s) "-")%bool
  then
    match readDigits (substring 0 4 s) None,
          readDigits (substring 5 2 s) None,
          readDigits (substring 8 2 s) None with
    | Some y, Some m, Some d =>
        if ((1 <=? m) && (m <=? 12) && (1 <=? d) && (d <=? daysInMonth y m))%bool
        then Some (daysFromCivil y m d * msPerDay)
        else None
    | _, _, _ => None
    end
  else None.

Definition parseDate (legacy : string -> option Z) (s : string) : option Z :=
  match parseIsoDateOnly s with
  | Some t => Some t
  | None => legacy s
  end.

(** ** Outbound HTTP requests ([axios.get]) *)

Record Request : Type :=
  { url : string;
    userAgent : option string;
    timeout : option Z (* milliseconds; [None]: no timeout is set *) }.

(** What one awaited [axios.get] gives back: the response body, or an
    exception carrying a message and, when the server answered, a status. *)
Inductive Http (D : Type) : Type :=
| HttpOk (data : D)
| HttpFail (status : option Z) (message : string).
Arguments HttpFail {D} status message.

(** What a module does towards the outside, with the clock at that moment:
    an outbound call, or a wait on a timer ([setTimeout]). *)
Inductive Effect : Type :=
| Outbound (req : Request) (at_ : Z)
| Sleep (ms : Z) (at_ : Z).

Definition isOutbound (e : Effect) : bool :=
  match e with Outbound _ _ => true | Sleep _ _ => false end.

Definition isSleep (e : Effect) : bool :=
  match e with Sleep _ _ => true | Outbound _ _ => false end.

Definition requestOf (e : Effect) : option Request :=
  match e with Outbound req _ => Some req | Sleep _ _ => None end.

Definition timeOf (e : Effect) : Z :=
  match e with Outbound _ t => t | Sleep _ t => t end.

End JS.

(* ------------------------------------------------------------------ *)
(** * Effects: state passing with exceptions                           *)
(* ------------------------------------------------------------------ *)

(** An [async] function of the sources becomes a function from the world
    before the call to its outcome and the world after it.  Requests are
    run one after another: the interleaving of concurrent requests is not
    part of this model. *)
Module Eff.

Inductive Res (A : Type) : Type :=
| Ret (a : A)
| Throw (message : string).
Arguments Throw {A} message.

Definition M (W A : Type) : Type := W -> Res A * W.

Definition ret {W A} (a : A) : M W A := fun w => (Ret a, w).

Definition throw {W A} (message : string) : M W A := fun w => (Throw message, w).

Definition bind {W A B} (c : M W A) (k : A -> M W B) : M W B :=
  fun w =>
    match c w with
    | (Ret a, w') => k a w'
    | (Throw e, w') => (Throw e, w')
    end.

Definition gets {W A} (f : W -> A) : M W A := fun w => (Ret (f w), w).

Definition modify {W} (f : W -> W) : M W unit := fun w => (Ret tt, f w).

(** [try { c } catch (err) { h(err.message) }] *)
Definition tryCatch {W A} (c : M W A) (h : string -> M W A) : M W A :=
  fun w =>
    match c w with
    | (Ret a, w') => (Ret a, w')
    | (Throw e, w') => h e w'
    end.

End Eff.

Declare Scope eff_scope.
Delimit Scope eff_scope with eff.
Notation "x <- c ;; k" := (Eff.bind c (fun x => k))
  (at level 61, c at next level, right associativity) : eff_scope.
Notation "c ;;; k" := (Eff.bind c (fun _ => k))
  (at level 61, right associativity) : eff_scope.

(** JavaScript numbers that may be missing. *)
Inductive num : Type :=
| Num (z : Z)
| NaN
| Undefined.

Definition showNum (n : num) : string :=
  match n with
  | Num z => JS.showZ z
  | NaN => "NaN"
  | Undefined => "undefined"
  end.

(** [a > b] on numbers: false as soon as one side is not a number. *)
Definition num_gt (a b : num) : bool :=
  match a, b with
  | Num x, Num y => (y <? x)%Z
  | _, _ => false
  end.

(** [x++] on a slot of a stored array.  In the stored JSON document a slot
    is a number or [null]; [null++] is 1. *)
Definition incrSlot (x : option Z) : option Z :=
  Some (match x with Some n => n + 1 | None => 1 end)%Z.

(** [arr[h]++] on a stored array.  Past the end JavaScript extends the
    array: the new slot becomes [NaN] and the gap is left as holes, both
    of which [JSON.stringify] writes as [null]. *)
Fixpoint incrAt (h : nat) (l : list (option Z)) : list (option Z) :=
  match h, l with
  | O, x :: l' => incrSlot x :: l'
  | O, [] => [None]
  | S h', x :: l' => x :: incrAt h' l'
  | S h', [] => None :: incrAt h' []
  end.

(** [new Array(24).fill(0)] *)
Definition zeroBuckets : list (option Z) := repeat (Some 0%Z) 24.

Definition Qltb (a b : Q) : bool := negb (Qle_bool b a).

(** [v || null] on an array slot that holds a string or is missing. *)
Definition orNull (v : option string) : option string :=
  match v with
  | Some s => if JS.truthy s then Some s else None
  | None => None
  end.

(* ------------------------------------------------------------------ *)
(** * The sports oracle ([src/unnamed/part_000])                       *)
(* ------------------------------------------------------------------ *)

Module Sports.

Import JS Eff.
Local Open Scope string_scope.
Local Open Scope Z_scope.

(** ** [SAFETY_LIMITS] *)

Definition maxDailyLoss : Z := 100.
Definition maxConsecutiveErrors : nat := 5.
Definition minConfidenceFloor : Q := 1 # 2.
Definition maxQueriesPerMinute : Z := 60.
Definition maxQueriesPerDay : Z := 1000.

(** ** [TEAM_ALIASES] *)

(** The own keys of the table. *)

Definition TEAM_ALIASES : list (string * string) :=
  [ ("celtics", "Boston Celtics");
    ("lakers", "Los Angeles Lakers");
    ("warriors", "Golden State Warriors");
    ("bulls", "Chicago Bulls");
    ("heat", "Miami Heat");
    ("nets", "Brooklyn Nets");
    ("knicks", "New York Knicks");
    ("sixers", "Philadelphia 76ers");
    ("76ers", "Philadelphia 76ers");
    ("bucks", "Milwaukee Bucks");
    ("suns", "Phoenix Suns");
    ("mavs", "Dallas Mavericks");
    ("mavericks", "Dallas Mavericks");
    ("nuggets", "Denver Nuggets");
    ("clippers", "Los Angeles Clippers");
    ("rockets", "Houston Rockets");
    ("spurs", "San Antonio Spurs");
    ("chiefs", "Kansas City Chiefs");
    ("eagles", "Philadelphia Eagles");
    ("cowboys", "Dallas Cowboys");
    ("packers", "Green Bay Packers");
    ("niners", "San Francisco 49ers");
    ("49ers", "San Francisco 49ers");
    ("bills", "Buffalo Bills");
    ("ravens", "Baltimore Ravens");
    ("bengals", "Cincinnati Bengals");
    ("yankees", "New York Yankees");
    ("dodgers", "Los Angeles Dodgers");
    ("red sox", "Boston Red Sox");
    ("cubs", "Chicago Cubs");
    ("bruins", "Boston Bruins");
    ("rangers", "New York Rangers");
    ("maple leafs", "Toronto Maple Leafs");
    ("canadiens", "Montreal Canadiens") ]%string.

Fixpoint lookup (key : string) (table : list (string * string))
  : option string :=
  match table with
  | [] => None
  | (k, v) :: table' => if String.eqb k key then Some v else lookup key table'
  end.

(** [TEAM_ALIASES] is a plain object: under the names of the properties
    of [Object.prototype] it has the values every object inherits. *)
Definition prototypeKeys : list string :=
  [ "constructor"; "__defineGetter__"; "__defineSetter__"; "hasOwnProperty";
    "__lookupGetter__"; "__lookupSetter__"; "isPrototypeOf";
    "propertyIsEnumerable"; "toString"; "valueOf"; "__proto__";
    "toLocaleString" ]%string.

(** What a team name can be once [TEAM_ALIASES] was consulted: a string,
    or the value inherited under [key]: the function [Object] under
    [constructor], the object [Object.prototype] under [__proto__], a
    built-in method under the other keys. *)
Inductive Name : Type :=
| Named (s : string)
| Inherited (key : string).

(** Truthiness: functions and objects are truthy. *)
Definition nameTruthy (v : Name) : bool :=
  match v with
  | Named s => truthy s
  | Inherited _ => true
  end.

(** [String(v)], as [encodeURIComponent] computes it. *)
Definition nameText (v : Name) : string :=
  match v with
  | Named s => s
  | Inherited key =>
      if String.eqb key "__proto__" then "[object Object]"
      else if String.eqb key "constructor"
      then "function Object() { [native code] }"
      else "function " ++ key ++ "() { [native code] }"
  end.

(** [TEAM_ALIASES[key]]; [None] is [undefined].  An own key comes before
    an inherited one. *)
Definition aliasAt (key : string) : option Name :=
  match lookup key TEAM_ALIASES with
  | Some canonical => Some (Named canonical)
  | None =>
      if existsb (String.eqb key) prototypeKeys
      then Some (Inherited key)
      else None
  end.

(** [normalizeTeamName(teamName)] for a string:
    [TEAM_ALIASES[lower] || teamName]. *)
Definition normalizeTeamName (teamName : string) : Name :=
  if negb (truthy teamName) then Named teamName
  else
    let lower := trim (toLowerCase teamName) in
    match aliasAt lower with
    | Some alias => if nameTruthy alias then alias else Named teamName
    | None => Named teamName
    end.

(** ** Data *)

(** The query as [parseQuestion] returns it. *)
Record Query : Type :=
  { team : option string;
    opponent : option string;
    date : string;
    originalQuestion : string }.

(** The query as [verifyResult] receives it: in [askOracle] the two
    names were replaced by what [normalizeTeamName] returned. *)
Record VerifyQuery : Type :=
  { q_team : option Name;
    q_opponent : option Name;
    q_date : string;
    q_originalQuestion : string }.

(** A query whose names are the strings of the parser. *)
Definition ofQuery (p : Query) : VerifyQuery :=
  {| q_team := option_map Named (team p);
     q_opponent := option_map Named (opponent p);
     q_date := date p;
     q_originalQuestion := originalQuestion p |}.

Record Game : Type :=
  { homeTeam : option string;
    awayTeam : option string;
    homeScore : num;
    awayScore : num;
    winner : option string;
    finalScore : string }.

Record VerificationResult : Type :=
  { verified : bool;
    confidence : Q;
    error : option string;
    message : option string;
    suggestion : option string;
    safetyTriggered : bool;
    result : option Game;
    league : option string;
    rdate : option string;
    query : option VerifyQuery;
    parsed : option VerifyQuery;
    sources : list string;
    sourcesAgreed : option Z;
    sourcesQueried : option Z;
    timestamp : string }.

Record LogEntry : Type :=
  { e_timestamp : string;
    e_query : option VerifyQuery;
    e_verified : bool;
    e_confidence : Q;
    e_winner : option string;
    e_error : option string }.

(** The stats document, as [saveStats] writes it. *)
Record Stats : Type :=
  { totalQueries : Z;
    todayQueries : Z;
    successCount : Z;
    errorCount : Z;
    confidenceSum : Q;
    hourlyData : list (option Z);
    recentQueries : list LogEntry;
    lastReset : string }.

(** What TheSportsDB answers. *)
Record Team : Type := { idTeam : string }.

Record Event : Type :=
  { dateEvent : option string;
    intHomeScore : option string;
    intAwayScore : option string;
    strHomeTeam : option string;
    strAwayTeam : option string;
    strLeague : option string;
    idEvent : option string }.

(** The object [querySportsDB] returns; a field the object does not have
    is [None] or [Undefined]. *)
Record DbResult : Type :=
  { db_error : option string;
    db_homeTeam : option string;
    db_awayTeam : option string;
    db_homeScore : num;
    db_awayScore : num;
    db_winner : option string;
    db_date : option string;
    db_league : option string;
    db_eventId : option string }.

(** The world of the sports module: the clock, the stats file
    ([None]: missing or unreadable) and what was sent out so far. *)
Record World : Type :=
  { now : Z;
    statsFile : option Stats;
    trace : list Effect }.

(** What the module cannot decide itself. *)
Record Env : Type :=
  { tz : Z;
    legacyDateParse : string -> option Z;
    searchteams : Request -> Z -> Http (option (list Team));
    eventslast : Request -> Z -> Http (option (list Event));
    latency : Request -> Z -> Z }.

Section WithEnv.
Variable env : Env.

Local Open Scope eff_scope.

(** ** Stats store *)

Definition initialStats (t : Z) : Stats :=
  {| totalQueries := 0;
     todayQueries := 0;
     successCount := 0;
     errorCount := 0;
     confidenceSum := 0%Q;
     hourlyData := zeroBuckets;
     recentQueries := [];
     lastReset := toDateString (tz env) t |}.

(** What [loadStats] returns in world [w]: the stored document, or a
    fresh one when the file is missing or unreadable. *)
Definition currentStats (w : World) : Stats :=
  match statsFile w with
  | Some stats => stats
  | None => initialStats (now w)
  end.

Definition loadStats : M World Stats := gets currentStats.

(** A write that fails is swallowed by the source; writes are modelled as
    succeeding. *)
Definition saveStats (stats : Stats) : M World unit :=
  modify (fun w => {| now := now w; statsFile := Some stats; trace := trace w |}).

(** ** Safety rails *)

Record SafetyCheck : Type :=
  { safe : bool;
    reason : option string;
    check_message : option string }.

Definition checkStats (stats : Stats) : SafetyCheck :=
  let recent := firstn maxConsecutiveErrors (recentQueries stats) in
  let consecutiveErrors :=
    List.length (filter (fun q => negb (e_verified q)) recent) in
  if ((maxConsecutiveErrors <=? List.length recent)%nat &&
      (consecutiveErrors =? maxConsecutiveErrors)%nat)%bool
  then {| safe := false;
          reason := Some "circuit_breaker_tripped";
          check_message :=
            Some (showZ (Z.of_nat maxConsecutiveErrors) ++
                  " consecutive errors detected. Operations paused.")%string |}
  else if maxQueriesPerDay <=? todayQueries stats
  then {| safe := false;
          reason := Some "daily_limit_reached";
          check_message :=
            Some ("Daily query limit (" ++ showZ maxQueriesPerDay ++
                  ") reached.")%string |}
  else {| safe := true; reason := None; check_message := None |}.

Definition checkSafetyLimits : M World SafetyCheck :=
  stats <- loadStats ;; ret (checkStats stats).

Definition applyConfidenceFloor (c : Q) : Q :=
  if (Qltb 0 c && Qltb c minConfidenceFloor)%bool
  then minConfidenceFloor
  else c.

(** The body of [logQuery] between [loadStats] and [saveStats]; [t] is
    the clock at the call. *)
Definition record (t : Z) (r : VerificationResult) (stats : Stats) : Stats :=
  let today := toDateString (tz env) t in
  let isNewDay := negb (String.eqb (lastReset stats) today) in
  let today0 := if isNewDay then 0 else todayQueries stats in
  let hourly0 := if isNewDay then zeroBuckets else hourlyData stats in
  {| totalQueries := totalQueries stats + 1;
     todayQueries := today0 + 1;
     successCount :=
       if verified r then successCount stats + 1 else successCount stats;
     errorCount :=
       if verified r then errorCount stats else errorCount stats + 1;
     confidenceSum :=
       if verified r then (confidenceSum stats + confidence r)%Q
       else confidenceSum stats;
     hourlyData := incrAt (Z.to_nat (getHours (tz env) t)) hourly0;
     recentQueries :=
       firstn 50
         ({| e_timestamp := toISOString t;
             e_query := query r;
             e_verified := verified r;
             e_confidence := confidence r;
             e_winner :=
               match result r with Some g => winner g | None => None end;
             e_error := error r |} :: recentQueries stats);
     lastReset := if isNewDay then today else lastReset stats |}.

Definition logQuery (r : VerificationResult) : M World unit :=
  stats <- loadStats ;;
  t <- gets now ;;
  saveStats (record t r stats).

(** ** Source adapter *)

Definition SPORTSDB_BASE : string :=
  "https://www.thesportsdb.com/api/v1/json/3".

(** [axios.get(url)]: no configuration object is passed. *)
Definition plainGet (u : string) : Request :=
  {| url := u; userAgent := None; timeout := None |}.

(** One awaited outbound call: it is logged in the trace and the clock
    moves on by the time the provider takes. *)
Definition httpGet {D} (respond : Request -> Z -> Http D) (req : Request)
  : M World (Http D) :=
  fun w =>
    (Ret (respond req (now w)),
     {| now := now w + Z.max 0 (latency env req (now w));
        statsFile := statsFile w;
        trace := trace w ++ [Outbound req (now w)] |}).

Definition dbError (msg : string) : DbResult :=
  {| db_error := Some msg;
     db_homeTeam := None; db_awayTeam := None;
     db_homeScore := Undefined; db_awayScore := Undefined;
     db_winner := None; db_date := None; db_league := None;
     db_eventId := None |}.

Definition parseScore (s : option string) : num :=
  match s with
  | Some txt => match parseInt10 txt with Some z => Num z | None => NaN end
  | None => NaN
  end.

(** [String(teamName)]. *)
Definition showArg (v : option Name) : string :=
  match v with Some name => nameText name | None => "null" end.

Definition querySportsDB (teamName : option Name) (date_ : string)
  : M World DbResult :=
  teamSearch <-
    httpGet (searchteams env)
      (plainGet (SPORTSDB_BASE ++ "/searchteams.php?t=" ++
                 encodeURIComponent (showArg teamName))) ;;
  match teamSearch with
  | HttpFail _ msg => ret (dbError msg)
  | HttpOk None | HttpOk (Some []) => ret (dbError "team_not_found")
  | HttpOk (Some (team0 :: _)) =>
      let teamId := idTeam team0 in
      eventsResponse <-
        httpGet (eventslast env)
          (plainGet (SPORTSDB_BASE ++ "/eventslast.php?id=" ++ teamId)) ;;
      match eventsResponse with
      | HttpFail _ msg => ret (dbError msg)
      | HttpOk None => ret (dbError "no_events")
      | HttpOk (Some results) =>
          match find (fun e => match dateEvent e with
                               | Some d => String.eqb d date_
                               | None => false
                               end) results with
          | None => ret (dbError "event_not_found_on_date")
          | Some event =>
              let hs := parseScore (intHomeScore event) in
              let as_ := parseScore (intAwayScore event) in
              ret {| db_error := None;
                     db_homeTeam := strHomeTeam event;
                     db_awayTeam := strAwayTeam event;
                     db_homeScore := hs;
                     db_awayScore := as_;
                     db_winner :=
                       if num_gt hs as_ then strHomeTeam event
                       else if num_gt as_ hs then strAwayTeam event
                            else Some "tie";
                     db_date := dateEvent event;
                     db_league := strLeague event;
                     db_eventId := idEvent event |}
          end
      end
  end.

(** ** [verifyResult] *)

Definition optTruthy (v : option string) : bool :=
  match v with Some s => truthy s | None => false end.

Definition optNameTruthy (v : option Name) : bool :=
  match v with Some name => nameTruthy name | None => false end.

Definition typeErrorLower : string :=
  "Cannot read properties of undefined (reading 'toLowerCase')".

(** [opponent.toLowerCase()] on a value that is no string. *)
Definition typeErrorNoFunction : string :=
  "opponent.toLowerCase is not a function".

Definition verifyResult (q : VerifyQuery) : M World VerificationResult :=
  sportsDbResult <- querySportsDB (q_team q) (q_date q) ;;
  t <- gets now ;;
  if optTruthy (db_error sportsDbResult)
  then ret {| verified := false;
              confidence := 0%Q;
              error := db_error sportsDbResult;
              message := None; suggestion := None; safetyTriggered := false;
              result := None; league := None; rdate := None;
              query := Some q; parsed := None;
              sources := ["thesportsdb"];
              sourcesAgreed := None; sourcesQueried := None;
              timestamp := toISOString t |}
  else
    opponentMatch <-
      (match q_opponent q with
       | Some (Inherited _) => throw typeErrorNoFunction
       | Some (Named opp) =>
           if truthy opp
           then
             let oppLower := toLowerCase opp in
             match db_homeTeam sportsDbResult with
             | None => throw typeErrorLower
             | Some home =>
                 if includes oppLower (toLowerCase home) then ret true
                 else match db_awayTeam sportsDbResult with
                      | None => throw typeErrorLower
                      | Some away => ret (includes oppLower (toLowerCase away))
                      end
             end
           else ret true
       | None => ret true
       end) ;;
    ret {| verified := true;
           confidence :=
             if (opponentMatch && optNameTruthy (q_opponent q))%bool
             then 17 # 20 else 3 # 4;
           error := None;
           message := None; suggestion := None; safetyTriggered := false;
           result :=
             Some {| homeTeam := db_homeTeam sportsDbResult;
                     awayTeam := db_awayTeam sportsDbResult;
                     homeScore := db_homeScore sportsDbResult;
                     awayScore := db_awayScore sportsDbResult;
                     winner := db_winner sportsDbResult;
                     finalScore :=
                       (showNum (db_homeScore sportsDbResult) ++ "-" ++
                        showNum (db_awayScore sportsDbResult))%string |};
           league := db_league sportsDbResult;
           rdate := db_date sportsDbResult;
           query := Some q; parsed := None;
           sources := ["thesportsdb"];
           sourcesAgreed := Some 1; sourcesQueried := Some 1;
           timestamp := toISOString t |}.

(** ** [parseQuestion] *)

(** [/(\d{4}-\d{2}-\d{2})/], [/on (\w+ \d+,? \d{4})/i],
    [/(yesterday|today|last night)/i] *)
Definition datePatterns : list regex :=
  [ Grp 1 (seqs [rep 4 digit; chr false "-"; rep 2 digit; chr false "-";
                 rep 2 digit]);
    seqs [lit true "on ";
          Grp 1 (seqs [plus wordc; chr true " "; plus digit;
                       opt (chr true ","); chr true " "; rep 4 digit])];
    Grp 1 (alts [lit true "yesterday"; lit true "today";
                 lit true "last night"]) ].

(** The date a matched phrase [m1] (group 1) stands for. *)
Definition dateOfMatch (t : Z) (m1 : string) : string :=
  if (String.eqb m1 "yesterday" || String.eqb m1 "last night")%bool
  then isoDate (t - msPerDay)
  else if String.eqb m1 "today"
  then isoDate t
  else match parseDate (legacyDateParse env) m1 with
       | Some parsed_ => isoDate parsed_
       | None => m1
       end.

Fixpoint firstDate (t : Z) (patterns : list regex) (question : string)
  : option string :=
  match patterns with
  | [] => None
  | pattern :: rest =>
      match matchRe pattern question with
      | Some m =>
          Some (dateOfMatch t
                  (match group 1 m with Some s => s | None => EmptyString end))
      | None => firstDate t rest question
      end
  end.

(** [teamPattern], flag [g]; written here with blanks between its parts:
    [\b ( [A-Z][a-z]+ (?:\s+[A-Z][a-z]+)* ) \b] *)
Definition teamPattern : regex :=
  seqs [ WordB;
         Grp 1 (seqs [ Cls isUpper; plus (Cls isLower);
                       Star (seqs [plus space; Cls isUpper;
                                   plus (Cls isLower)]) ]);
         WordB ].

Definition stoplist : list string :=
  ["Who"; "What"; "Did"; "The"; "How"; "When"]%string.

(** The [while ((teamMatch = teamPattern.exec(question)) !== null)] loop.
    A match of [teamPattern] is at least two characters long, so
    [lastIndex] grows at every turn; [fuel] bounds the number of turns
    and [teamsOf] gives it more than the loop can use (see
    [collectTeams_fuel] below). *)
Fixpoint collectTeams (fuel : nat) (question : string) (lastIndex : nat)
  : list string :=
  match fuel with
  | O => []
  | S fuel' =>
      match execAt teamPattern question lastIndex with
      | None => []
      | Some m =>
          let team_ := match group 1 m with Some s => s | None => EmptyString end in
          (if existsb (String.eqb team_) stoplist then [] else [team_])
            ++ collectTeams fuel' question (m_end m)
      end
  end.

Definition teamsOf (question : string) : list string :=
  collectTeams (2 + String.length question) question 0.

Definition parseQuestion (t : Z) (question : string) : Query :=
  let date_ := firstDate t datePatterns question in
  let teams := teamsOf question in
  {| team := orNull (nth_error teams 0);
     opponent := orNull (nth_error teams 1);
     date := match orNull date_ with
             | Some d => d
             | None => isoDate t
             end;
     originalQuestion := question |}.

(** ** [askOracle] *)

Definition setConfidence (c : Q) (r : VerificationResult)
  : VerificationResult :=
  {| verified := verified r; confidence := c; error := error r;
     message := message r; suggestion := suggestion r;
     safetyTriggered := safetyTriggered r;
     result := result r; league := league r; rdate := rdate r;
     query := query r; parsed := parsed r; sources := sources r;
     sourcesAgreed := sourcesAgreed r; sourcesQueried := sourcesQueried r;
     timestamp := timestamp r |}.

Definition safetyResult (t : Z) (check : SafetyCheck) : VerificationResult :=
  {| verified := false; confidence := 0%Q; error := reason check;
     message := check_message check; suggestion := None;
     safetyTriggered := true;
     result := None; league := None; rdate := None;
     query := None; parsed := None; sources := [];
     sourcesAgreed := None; sourcesQueried := None;
     timestamp := toISOString t |}.

Definition noTeamResult (t : Z) (p : VerifyQuery) : VerificationResult :=
  {| verified := false; confidence := 0%Q;
     error := Some "could_not_parse_team_name";
     message := None;
     suggestion := Some "Please include a team name in your question";
     safetyTriggered := false;
     result := None; league := None; rdate := None;
     query := None; parsed := Some p; sources := [];
     sourcesAgreed := None; sourcesQueried := None;
     timestamp := toISOString t |}.

(** [if (parsed.team) parsed.team = normalizeTeamName(parsed.team)], and
    the same for the opponent. *)
Definition normalizeQuery (p : Query) : VerifyQuery :=
  {| q_team := if optTruthy (team p)
               then option_map normalizeTeamName (team p)
               else option_map Named (team p);
     q_opponent := if optTruthy (opponent p)
                   then option_map normalizeTeamName (opponent p)
                   else option_map Named (opponent p);
     q_date := date p;
     q_originalQuestion := originalQuestion p |}.

Definition askOracle (question : string) : M World VerificationResult :=
  safetyCheck <- checkSafetyLimits ;;
  t <- gets now ;;
  if negb (safe safetyCheck)
  then ret (safetyResult t safetyCheck)
  else
    let parsed_ := normalizeQuery (parseQuestion t question) in
    if negb (optNameTruthy (q_team parsed_))
    then
      let r := noTeamResult t parsed_ in
      logQuery r ;;; ret r
    else
      r0 <- verifyResult parsed_ ;;
      let r :=
        if (verified r0 && Qltb 0 (confidence r0))%bool
        then setConfidence (applyConfidenceFloor (confidence r0)) r0
        else r0 in
      logQuery r ;;; ret r.

(** ** A run of requests

    Requests are served one after another; before each one the clock
    moves ahead by the time that passed since the previous answer. *)

Definition advance (elapsed : Z) (w : World) : World :=
  {| now := now w + Z.max 0 elapsed;
     statsFile := statsFile w;
     trace := trace w |}.

Fixpoint serveAll (requests : list (Z * string)) (w : World)
  : list (Res VerificationResult) * World :=
  match requests with
  | [] => ([], w)
  | (elapsed, question) :: rest =>
      let '(r, w1) := askOracle question (advance elapsed w) in
      let '(rs, w2) := serveAll rest w1 in
      (r :: rs, w2)
  end.

End WithEnv.

End Sports.

(* ------------------------------------------------------------------ *)
(** * The sports oracle without safety rails ([src/oracle.js])         *)
(* ------------------------------------------------------------------ *)

(** [src/oracle.js] has the same [querySportsDB], [verifyResult] and
    [parseQuestion] as the module above; its [askOracle] neither checks
    the safety limits nor normalises the team nor logs the result. *)
Module Oracle.

Import JS Eff.
Local Open Scope eff_scope.

Definition askOracle (env : Sports.Env) (question : string)
  : M Sports.World Sports.VerificationResult :=
  t <- gets Sports.now ;;
  let parsed_ := Sports.parseQuestion env t question in
  if negb (Sports.optTruthy (Sports.team parsed_))
  then ret (Sports.noTeamResult t (Sports.ofQuery parsed_))
  else Sports.verifyResult env (Sports.ofQuery parsed_).

End Oracle.

(* ------------------------------------------------------------------ *)
(** * The reddit oracle ([src/reddit-oracle.js])                       *)
(* ------------------------------------------------------------------ *)

Module Reddit.

Import JS Eff.
Local Open Scope string_scope.
Local Open Scope Z_scope.

(** ** [SAFETY_LIMITS] *)

Definition maxQueriesPerMinute : Z := 30.
Definition maxQueriesPerDay : Z := 500.
Definition maxConsecutiveErrors : nat := 5.
Definition minConfidenceFloor : Q := 1 # 2.
Definition requestDelayMs : Z := 2000.

Definition USER_AGENT : string :=
  "RedditOracle/1.0 (OpenClaw Agent; +https://openclaw.ai)".

(** ** [QUERY_TYPES] *)

Inductive QueryType : Type := HOT | NEW | TOP | POST | SEARCH.

Definition typeName (ty : QueryType) : string :=
  match ty with
  | HOT => "hot" | NEW => "new" | TOP => "top"
  | POST => "post" | SEARCH => "search"
  end.

(** ** Data *)

(** [type] starts as [null] in the source and is always assigned before
    [parseQuestion] returns. *)
Record Parsed : Type :=
  { type : QueryType;
    subreddit : option string;
    postId : value;
    keyword : option string;
    limit : Z;
    originalQuestion : string }.

Record Post : Type :=
  { p_id : string;
    p_title : string;
    p_score : Z;
    p_numComments : Z }.

Record Comment : Type :=
  { c_id : string;
    c_kind : string;
    c_score : Z }.

(** The engagement summary attached to a listing.  The three averages of
    the source are floating-point roundings and are not carried here. *)
Record Metrics : Type :=
  { totalScore : Z;
    totalComments : Z;
    engagement : Z }.

Inductive Payload : Type :=
| NoPayload
| Listing (sub sort : string) (posts : list Post) (after : option string)
| Found (sub q : string) (posts : list Post)
| Detail (post : Post) (comments : list Comment).

(** The object an adapter returns. *)
Record Data : Type :=
  { d_error : option string;
    d_payload : Payload;
    d_metrics : option Metrics }.

Record VerificationResult : Type :=
  { success : bool;
    confidence : Q;
    error : option string;
    message : option string;
    suggestion : option string;
    safetyTriggered : bool;
    data : option Data;
    r_subreddit : option string;
    queryType : option QueryType;
    query : option Parsed;
    parsed : option Parsed;
    sources : list string;
    timestamp : string }.

Record LogEntry : Type :=
  { e_timestamp : string;
    e_query : option Parsed;
    e_success : bool;
    e_subreddit : option string;
    e_error : option string }.

Record Stats : Type :=
  { totalQueries : Z;
    todayQueries : Z;
    successCount : Z;
    errorCount : Z;
    hourlyData : list (option Z);
    recentQueries : list LogEntry;
    lastReset : string }.

(** The world of the reddit module: the clock, the stats file, the
    module variable [lastRequestTime] and what was done so far. *)
Record World : Type :=
  { now : Z;
    statsFile : option Stats;
    lastRequestTime : Z;
    trace : list Effect }.

(** Reddit's answers.  For a listing or a search, [None] is a body without
    [data]; for a post, [None] is a body that is not an array, and the
    first component is the post when the array holds one. *)
Record Env : Type :=
  { tz : Z;
    listing : Request -> Z -> Http (option (list Post * option string));
    search : Request -> Z -> Http (option (list Post));
    comments : Request -> Z -> Http (option (option Post * list Comment));
    latency : Request -> Z -> Z }.

Section WithEnv.
Variable env : Env.

Local Open Scope eff_scope.

(** ** Stats tracking *)

Definition initialStats (t : Z) : Stats :=
  {| totalQueries := 0;
     todayQueries := 0;
     successCount := 0;
     errorCount := 0;
     hourlyData := zeroBuckets;
     recentQueries := [];
     lastReset := toDateString (tz env) t |}.

(** What [loadStats] returns in world [w]: the stored document, or a
    fresh one when the file is missing or unreadable. *)
Definition currentStats (w : World) : Stats :=
  match statsFile w with
  | Some stats => stats
  | None => initialStats (now w)
  end.

Definition loadStats : M World Stats := gets currentStats.

Definition saveStats (stats : Stats) : M World unit :=
  modify (fun w => {| now := now w; statsFile := Some stats;
                      lastRequestTime := lastRequestTime w;
                      trace := trace w |}).

Definition record (t : Z) (r : VerificationResult) (stats : Stats) : Stats :=
  let today := toDateString (tz env) t in
  let isNewDay := negb (String.eqb (lastReset stats) today) in
  let today0 := if isNewDay then 0 else todayQueries stats in
  let hourly0 := if isNewDay then zeroBuckets else hourlyData stats in
  {| totalQueries := totalQueries stats + 1;
     todayQueries := today0 + 1;
     successCount :=
       if success r then successCount stats + 1 else successCount stats;
     errorCount :=
       if success r then errorCount stats else errorCount stats + 1;
     hourlyData := incrAt (Z.to_nat (getHours (tz env) t)) hourly0;
     recentQueries :=
       firstn 50
         ({| e_timestamp := toISOString t;
             e_query := query r;
             e_success := success r;
             e_subreddit := r_subreddit r;
             e_error := error r |} :: recentQueries stats);
     lastReset := if isNewDay then today else lastReset stats |}.

Definition logQuery (r : VerificationResult) : M World unit :=
  stats <- loadStats ;;
  t <- gets now ;;
  saveStats (record t r stats).

(** ** Safety checks *)

Record SafetyCheck : Type :=
  { safe : bool;
    reason : option string;
    check_message : option string }.

Definition checkStats (stats : Stats) : SafetyCheck :=
  let recent := firstn maxConsecutiveErrors (recentQueries stats) in
  let consecutiveErrors :=
    List.length (filter (fun q => negb (e_success q)) recent) in
  if ((maxConsecutiveErrors <=? List.length recent)%nat &&
      (consecutiveErrors =? maxConsecutiveErrors)%nat)%bool
  then {| safe := false;
          reason := Some "circuit_breaker_tripped";
          check_message :=
            Some (showZ (Z.of_nat maxConsecutiveErrors) ++
                  " consecutive errors detected. Operations paused.")%string |}
  else if maxQueriesPerDay <=? todayQueries stats
  then {| safe := false;
          reason := Some "daily_limit_reached";
          check_message :=
            Some ("Daily query limit (" ++ showZ maxQueriesPerDay ++
                  ") reached.")%string |}
  else {| safe := true; reason := None; check_message := None |}.

Definition checkSafetyLimits : M World SafetyCheck :=
  stats <- loadStats ;; ret (checkStats stats).

(** [await new Promise(resolve => setTimeout(resolve, ms))]: the wait is
    logged and the clock moves on by [ms]. *)
Definition sleep (ms : Z) : M World unit :=
  modify (fun w => {| now := now w + ms; statsFile := statsFile w;
                      lastRequestTime := lastRequestTime w;
                      trace := trace w ++ [Sleep ms (now w)] |}).

Definition enforceRateLimit : M World unit :=
  t <- gets now ;;
  last <- gets lastRequestTime ;;
  let elapsed := t - last in
  (if elapsed <? requestDelayMs
   then sleep (requestDelayMs - elapsed)
   else ret tt) ;;;
  modify (fun w => {| now := now w; statsFile := statsFile w;
                      lastRequestTime := now w;
                      trace := trace w |}).

(** ** Reddit API functions *)

(** [axios.get(url, { headers: { 'User-Agent': USER_AGENT }, timeout: 10000 })] *)
Definition redditGet (u : string) : Request :=
  {| url := u; userAgent := Some USER_AGENT; timeout := Some 10000 |}.

Definition httpGet {D} (respond : Request -> Z -> Http D) (req : Request)
  : M World (Http D) :=
  fun w =>
    (Ret (respond req (now w)),
     {| now := now w + Z.max 0 (latency env req (now w));
        statsFile := statsFile w;
        lastRequestTime := lastRequestTime w;
        trace := trace w ++ [Outbound req (now w)] |}).

Definition failed (msg : string) : Data :=
  {| d_error := Some msg; d_payload := NoPayload; d_metrics := None |}.

Definition succeeded (p : Payload) : Data :=
  {| d_error := None; d_payload := p; d_metrics := None |}.

Definition statusIs (status : option Z) (n : Z) : bool :=
  match status with Some s => s =? n | None => false end.

Definition fetchSubreddit (sub sort : string) (lim : Z) : M World Data :=
  enforceRateLimit ;;;
  response <-
    httpGet (listing env)
      (redditGet ("https://www.reddit.com/r/" ++ sub ++ "/" ++ sort ++
                  ".json?limit=" ++ showZ lim)) ;;
  match response with
  | HttpOk None => ret (failed "invalid_response")
  | HttpOk (Some (posts, after)) => ret (succeeded (Listing sub sort posts after))
  | HttpFail status msg =>
      if statusIs status 404 then ret (failed "subreddit_not_found")
      else if statusIs status 403 then ret (failed "subreddit_private")
      else if statusIs status 429 then ret (failed "rate_limited")
      else ret (failed msg)
  end.

Definition fetchPost (sub id : string) : M World Data :=
  enforceRateLimit ;;;
  response <-
    httpGet (comments env)
      (redditGet ("https://www.reddit.com/r/" ++ sub ++ "/comments/" ++ id ++
                  ".json")) ;;
  match response with
  | HttpOk None => ret (failed "invalid_response")
  | HttpOk (Some (None, _)) => ret (failed "post_not_found")
  | HttpOk (Some (Some post, cs)) =>
      ret (succeeded
             (Detail post
                (firstn 20 (filter (fun c => String.eqb (c_kind c) "t1") cs))))
  | HttpFail _ msg => ret (failed msg)
  end.

Definition searchSubreddit (sub q : string) (lim : Z) : M World Data :=
  enforceRateLimit ;;;
  response <-
    httpGet (search env)
      (redditGet ("https://www.reddit.com/r/" ++ sub ++ "/search.json?q=" ++
                  encodeURIComponent q ++ "&restrict_sr=on&limit=" ++
                  showZ lim)) ;;
  match response with
  | HttpOk None => ret (failed "invalid_response")
  | HttpOk (Some posts) => ret (succeeded (Found sub q posts))
  | HttpFail _ msg => ret (failed msg)
  end.

(** ** Question parsing *)

(** A double or a single quote. *)
Definition quote : regex :=
  Cls (fun c => Ascii.eqb c dquote || Ascii.eqb c "'").

(** Anything but a quote or a question mark. *)
Definition notQuoteOrQuestion : regex :=
  Cls (fun c => negb (Ascii.eqb c dquote || Ascii.eqb c "'" || Ascii.eqb c "?")).

(** [/r\/([a-zA-Z0-9_]+)/i],
    [/(?:on|from|in)\s+([a-zA-Z0-9_]+)\s+(?:subreddit)?/i],
    [/subreddit\s+([a-zA-Z0-9_]+)/i] *)
Definition subredditPatterns : list regex :=
  [ seqs [lit true "r/"; Grp 1 (plus wordc)];
    seqs [alts [lit true "on"; lit true "from"; lit true "in"];
          plus space; Grp 1 (plus wordc); plus space;
          opt (lit true "subreddit")];
    seqs [lit true "subreddit"; plus space; Grp 1 (plus wordc)] ].

(** The search phrase: [search], [find] or [looking for], whitespace, an
    optional [for] with whitespace, an optional quote, then group 1: one or
    more characters that are no quote and no question mark, then an
    optional quote; flag [i]. *)
Definition searchPattern : regex :=
  seqs [ alts [lit true "search"; lit true "find"; lit true "looking for"];
         plus space;
         opt (seqs [lit true "for"; plus space]);
         opt quote;
         Grp 1 (plus notQuoteOrQuestion);
         opt quote ].

(** [/[a-z0-9]{6,}/i] *)
Definition longTokenPattern : regex := seqs [rep 6 alnum_ci; Star alnum_ci].

(** [/comments\/([a-z0-9]+)/i] *)
Definition urlPattern : regex :=
  seqs [lit true "comments/"; Grp 1 (plus alnum_ci)].

(** [/\b([a-z0-9]{6,8})\b/i] *)
Definition idPattern : regex :=
  seqs [WordB; Grp 1 (seqs [rep 6 alnum_ci; upto 2 alnum_ci]); WordB].

(** [/(\d+)\s+(?:posts?|results?|items?)/i] *)
Definition limitPattern : regex :=
  seqs [ Grp 1 (plus digit); plus space;
         alts [ seqs [lit true "post"; opt (chr true "s")];
                seqs [lit true "result"; opt (chr true "s")];
                seqs [lit true "item"; opt (chr true "s")] ] ].

Fixpoint firstGroup (patterns : list regex) (question : string)
  : option string :=
  match patterns with
  | [] => None
  | pattern :: rest =>
      match matchRe pattern question with
      | Some m => group 1 m
      | None => firstGroup rest question
      end
  end.

Definition anyIncluded (words : list string) (s : string) : bool :=
  existsb (fun w => includes w s) words.

(** [m?.[1]] *)
Definition group1 (m : option Match) : value :=
  match m with
  | Some m' => match group 1 m' with Some s => VStr s | None => VUndefined end
  | None => VUndefined
  end.

(** [a || b] *)
Definition orElse (a b : value) : value :=
  if value_truthy a then a else b.

Definition parseQuestion (question : string) : Parsed :=
  let sub := firstGroup subredditPatterns question in
  let lowerQ := toLowerCase question in
  let '(ty, pid, kw) :=
    if anyIncluded ["hot"; "trending"; "popular"]%string lowerQ
    then (HOT, VNull, None)
    else if anyIncluded ["new"; "latest"; "recent"]%string lowerQ
    then (NEW, VNull, None)
    else if anyIncluded ["top"; "best"]%string lowerQ
    then (TOP, VNull, None)
    else if anyIncluded ["search"; "find"; "looking for"]%string lowerQ
    then (SEARCH, VNull,
          match matchRe searchPattern question with
          | Some m => option_map trim (group 1 m)
          | None => None
          end)
    else if (includes "post" lowerQ &&
             match matchRe longTokenPattern question with
             | Some _ => true | None => false end)%bool
    then (POST,
          orElse (group1 (matchRe urlPattern question))
                 (group1 (matchRe idPattern question)),
          None)
    else (HOT, VNull, None) in
  {| type := ty;
     subreddit := sub;
     postId := pid;
     keyword := kw;
     limit :=
       match matchRe limitPattern question with
       | Some m =>
           match group 1 m with
           | Some digits =>
               match parseInt10 digits with
               | Some n => Z.min n 100
               | None => 10
               end
           | None => 10
           end
       | None => 10
       end;
     originalQuestion := question |}.

(** ** Main oracle function *)

Definition optTruthy (v : option string) : bool :=
  match v with Some s => truthy s | None => false end.

Definition safetyResult (t : Z) (check : SafetyCheck) : VerificationResult :=
  {| success := false; confidence := 0%Q; error := reason check;
     message := check_message check; suggestion := None;
     safetyTriggered := true; data := None; r_subreddit := None;
     queryType := None; query := None; parsed := None; sources := [];
     timestamp := toISOString t |}.

Definition parseFailure (t : Z) (err hint : string) (p : Parsed)
  : VerificationResult :=
  {| success := false; confidence := 0%Q; error := Some err;
     message := None; suggestion := Some hint;
     safetyTriggered := false; data := None; r_subreddit := None;
     queryType := None; query := None; parsed := Some p; sources := [];
     timestamp := toISOString t |}.

Definition sumBy (f : Post -> Z) (posts : list Post) : Z :=
  fold_left (fun sum p => sum + f p) posts 0.

Definition postsOf (p : Payload) : option (list Post) :=
  match p with
  | Listing _ _ posts _ => Some posts
  | Found _ _ posts => Some posts
  | _ => None
  end.

Definition withMetrics (d : Data) : Data :=
  match postsOf (d_payload d) with
  | Some (p :: ps) =>
      let posts := p :: ps in
      {| d_error := d_error d;
         d_payload := d_payload d;
         d_metrics :=
           Some {| totalScore := sumBy p_score posts;
                   totalComments := sumBy p_numComments posts;
                   engagement :=
                     sumBy p_score posts + sumBy p_numComments posts * 2 |} |}
  | _ => d
  end.

(** The end of [askOracle], once an adapter has answered with [data_]:
    [confidence_] is 0.85, or 0.80 after a search. *)
Definition conclude (parsed_ : Parsed) (sub : string) (confidence_ : Q)
           (data_ : Data) : M World VerificationResult :=
  t <- gets now ;;
  let r :=
    if optTruthy (d_error data_)
    then {| success := false; confidence := 0%Q;
            error := d_error data_;
            message := None; suggestion := None;
            safetyTriggered := false; data := None;
            r_subreddit := Some sub;
            queryType := None; query := Some parsed_;
            parsed := None; sources := [];
            timestamp := toISOString t |}
    else {| success := true; confidence := confidence_;
            error := None;
            message := None; suggestion := None;
            safetyTriggered := false;
            data := Some (withMetrics data_);
            r_subreddit := Some sub;
            queryType := Some (type parsed_);
            query := Some parsed_;
            parsed := None; sources := ["reddit"];
            timestamp := toISOString t |} in
  logQuery r ;;; ret r.

(** A request that stops at parsing: it is logged and returned. *)
Definition giveUp (err hint : string) (parsed_ : Parsed)
  : M World VerificationResult :=
  t <- gets now ;;
  let r := parseFailure t err hint parsed_ in
  logQuery r ;;; ret r.

Definition askOracle (question : string) : M World VerificationResult :=
  safetyCheck <- checkSafetyLimits ;;
  t <- gets now ;;
  if negb (safe safetyCheck)
  then ret (safetyResult t safetyCheck)
  else
    let parsed_ := parseQuestion question in
    match orNull (subreddit parsed_) with
    | None =>
        giveUp "could_not_parse_subreddit"
               "Please include a subreddit name (e.g., r/wallstreetbets) in your question"
               parsed_
    | Some sub =>
        match type parsed_ with
        | POST =>
            if value_truthy (postId parsed_)
            then
              data_ <- fetchPost sub (value_text (postId parsed_)) ;;
              conclude parsed_ sub (17 # 20) data_
            else giveUp "could_not_parse_post_id"
                        "Please include a post ID or Reddit URL" parsed_
        | SEARCH =>
            match orNull (keyword parsed_) with
            | Some kw =>
                data_ <- searchSubreddit sub kw (limit parsed_) ;;
                conclude parsed_ sub (4 # 5) data_
            | None =>
                giveUp "could_not_parse_search_keyword"
                       "Please include a search term" parsed_
            end
        | ty =>
            data_ <- fetchSubreddit sub (typeName ty) (limit parsed_) ;;
            conclude parsed_ sub (17 # 20) data_
        end
    end.

(** ** A run of requests, as for the sports oracle *)

Definition advance (elapsed : Z) (w : World) : World :=
  {| now := now w + Z.max 0 elapsed;
     statsFile := statsFile w;
     lastRequestTime := lastRequestTime w;
     trace := trace w |}.

Fixpoint serveAll (requests : list (Z * string)) (w : World)
  : list (Res VerificationResult) * World :=
  match requests with
  | [] => ([], w)
  | (elapsed, question) :: rest =>
      let '(r, w1) := askOracle question (advance elapsed w) in
      let '(rs, w2) := serveAll rest w1 in
      (r :: rs, w2)
  end.

End WithEnv.

End Reddit.

(* ------------------------------------------------------------------ *)
(** * The payment-gated request handler ([src/server.mjs])             *)
(* ------------------------------------------------------------------ *)

Module Server.

Import JS Eff.
Local Open Scope string_scope.
Local Open Scope Z_scope.

(** The two headers the handler reads. *)
Record Headers : Type :=
  { paymentSignature : option string;
    authorization : option string }.

(** What [parseBody] and the read of [body.question] meet:
    - [BodyInvalid]: the stream fails or the text is not JSON;
    - [BodyNull]: the JSON value [null], on which reading a property throws;
    - [BodyNoQuestion]: any other value without a [question];
    - [BodyQuestion q]: an object whose [question] is the string [q]. *)
Inductive Body : Type :=
| BodyInvalid
| BodyNull
| BodyNoQuestion
| BodyQuestion (q : string).

Record IncomingMessage : Type :=
  { headers : Headers;
    body : Body }.

(** [buildPaymentRequired] *)
Record Accept : Type :=
  { scheme : string;
    network : string;
    a_planId : string;
    a_agentId : string;
    httpVerb : string }.

Record PaymentRequired : Type :=
  { x402Version : Z;
    resourceUrl : string;
    accepts : list Accept }.

Definition buildPaymentRequired (endpoint verb planId agentId : string)
  : PaymentRequired :=
  {| x402Version := 2;
     resourceUrl := endpoint;
     accepts := [ {| scheme := "nvm:erc4337";
                     network := "eip155:8453";
                     a_planId := planId;
                     a_agentId := agentId;
                     httpVerb := verb |} ] |}.

(** The payment facilitator, seen from the handler. *)
Inductive Verification : Type :=
| Verified (isValid : bool)
| VerifyThrows (message : string).

Inductive Settlement : Type :=
| Settled (txHash : option string)
| SettleThrows (message : string).

Record Facilitator : Type :=
  { verifyPermissions : PaymentRequired -> string -> Z -> Verification;
    settlePermissions : PaymentRequired -> string -> Z -> Settlement }.

Inductive PaymentCall : Type :=
| VerifyCall (token : string) (maxAmount : Z)
| SettleCall (token : string) (maxAmount : Z).

Definition isSettle (c : PaymentCall) : bool :=
  match c with SettleCall _ _ => true | VerifyCall _ _ => false end.

Definition isVerify (c : PaymentCall) : bool :=
  match c with VerifyCall _ _ => true | SettleCall _ _ => false end.

Record Payment : Type :=
  { creditsUsed : Z;
    txHash : option string;
    p_timestamp : option string;
    p_error : option string;
    p_message : option string }.

Section Handler.
(** [W] is the world of the oracle behind the endpoint and [R] the type
    of its results. *)
Variables W R : Type.

Record Config : Type :=
  { oracle : string -> M W R;
    clock : W -> Z;
    planId : string;
    agentId : string;
    endpoint : string;
    name : string }.

Inductive ResponseBody : Type :=
| PaymentRequiredBody (error message planId agentId pricePerQuery
                       purchaseUrl : string)
| ErrorBody (error message : string) (purchaseUrl details : option string)
| ResultBody (oracleResult : R) (payment : Payment).

Record Response : Type :=
  { statusCode : Z;
    json : ResponseBody }.

(** The handler's world: the oracle's world and the calls made to the
    payment facilitator, oldest first. *)
Record World : Type :=
  { oracleWorld : W;
    paymentCalls : list PaymentCall }.

Variable payments : Facilitator.

Local Open Scope eff_scope.

Definition sendJSON (status : Z) (data : ResponseBody) : M World Response :=
  ret {| statusCode := status; json := data |}.

(** [req.headers['payment-signature'] ||
     req.headers['authorization']?.replace('Bearer ', '')] *)
Definition x402Token (h : Headers) : option string :=
  match orNull (paymentSignature h) with
  | Some token => Some token
  | None => option_map (replaceFirst "Bearer " EmptyString) (authorization h)
  end.

Definition missingQuestionMessage : string :=
  "Request must include a " ++ String dquote "question" ++ String dquote " field".

Definition purchaseUrlOf (agent : string) : string :=
  "https://nevermined.app/agents/" ++ agent.

(** The payment descriptor of an endpoint:
    [buildPaymentRequired(endpoint, 'POST', planId, agentId)]. *)
Definition paymentRequiredOf (config : Config) : PaymentRequired :=
  buildPaymentRequired (endpoint config) "POST"
                       (planId config) (agentId config).

Definition callVerify (pr : PaymentRequired) (token : string)
  : M World Verification :=
  fun w =>
    (Ret (verifyPermissions payments pr token 1),
     {| oracleWorld := oracleWorld w;
        paymentCalls := paymentCalls w ++ [VerifyCall token 1] |}).

Definition callSettle (pr : PaymentRequired) (token : string)
  : M World Settlement :=
  fun w =>
    (Ret (settlePermissions payments pr token 1),
     {| oracleWorld := oracleWorld w;
        paymentCalls := paymentCalls w ++ [SettleCall token 1] |}).

(** Running the oracle inside the handler's world. *)
Definition runOracle (c : M W R) : M World R :=
  fun w =>
    let '(r, ow) := c (oracleWorld w) in
    (r, {| oracleWorld := ow; paymentCalls := paymentCalls w |}).

(** The part of the handler after the credential was verified: the
    query, then the settlement, then the answer.  Between the two the
    source hands the result to the meta-evolution logger inside a
    [try]/[catch]; the logger reads the result and keeps notes of its
    own, and is left out here. *)
Definition processAndSettle (config : Config) (pr : PaymentRequired)
           (token question : string) : M World Response :=
  outcome <-
    tryCatch (r <- runOracle (oracle config question) ;; ret (inl r))
             (fun msg => ret (inr msg)) ;;
  match outcome with
  | inr msg =>
      sendJSON 500 (ErrorBody "oracle_error" "Failed to process query"
                              None (Some msg))
  | inl oracleResult =>
      settlement <- callSettle pr token ;;
      t <- gets (fun w => clock config (oracleWorld w)) ;;
      match settlement with
      | Settled tx =>
          sendJSON 200
            (ResultBody oracleResult
               {| creditsUsed := 1; txHash := tx;
                  p_timestamp := Some (toISOString t);
                  p_error := None; p_message := None |})
      | SettleThrows msg =>
          sendJSON 200
            (ResultBody oracleResult
               {| creditsUsed := 0; txHash := None;
                  p_timestamp := None;
                  p_error := Some "settlement_failed";
                  p_message := Some msg |})
      end
  end.

Definition handleOracleRequest (req : IncomingMessage) (config : Config)
  : M World Response :=
  match orNull (x402Token (headers req)) with
  | None =>
      sendJSON 402
        (PaymentRequiredBody "payment_required"
           "This API requires Nevermined credits. Include x402 access token in payment-signature header."
           (planId config) (agentId config) "$0.05"
           (purchaseUrlOf (agentId config)))
  | Some token =>
      match body req with
      | BodyInvalid =>
          sendJSON 400 (ErrorBody "invalid_json"
                          "Request body must be valid JSON" None None)
      | BodyNull =>
          throw "Cannot read properties of null (reading 'question')"
      | BodyNoQuestion =>
          sendJSON 400 (ErrorBody "missing_question" missingQuestionMessage
                          None None)
      | BodyQuestion question =>
          if negb (truthy question)
          then sendJSON 400 (ErrorBody "missing_question"
                               missingQuestionMessage None None)
          else
            let paymentRequired := paymentRequiredOf config in
            verification <- callVerify paymentRequired token ;;
            match verification with
            | VerifyThrows msg =>
                sendJSON 401
                  (ErrorBody "verification_failed"
                     (if truthy msg then msg
                      else "Failed to verify access token")
                     (Some (purchaseUrlOf (agentId config))) None)
            | Verified false =>
                sendJSON 401
                  (ErrorBody "insufficient_credits"
                     "Access token is invalid or you have insufficient credits"
                     (Some (purchaseUrlOf (agentId config))) None)
            | Verified true =>
                processAndSettle config paymentRequired token question
            end
      end
  end.

End Handler.

End Server.

(* ------------------------------------------------------------------ *)
(** * Runs of recordings                                               *)
(* ------------------------------------------------------------------ *)

(** Results recorded one after another with [logQuery]; before each
    recording the clock moves ahead by the time that passed. *)
Module Journal.

Import JS Eff.
Local Open Scope Z_scope.

Fixpoint sportsLogAll (env : Sports.Env)
         (entries : list (Z * Sports.VerificationResult)) (w : Sports.World)
  : Sports.World :=
  match entries with
  | [] => w
  | (elapsed, r) :: rest =>
      sportsLogAll env rest
        (snd (Sports.logQuery env r (Sports.advance elapsed w)))
  end.

Fixpoint redditLogAll (env : Reddit.Env)
         (entries : list (Z * Reddit.VerificationResult)) (w : Reddit.World)
  : Reddit.World :=
  match entries with
  | [] => w
  | (elapsed, r) :: rest =>
      redditLogAll env rest
        (snd (Reddit.logQuery env r (Reddit.advance elapsed w)))
  end.

(** The total of a stored histogram; a [null] slot counts for nothing. *)
Fixpoint sumSlots (l : list (option Z)) : Z :=
  match l with
  | [] => 0
  | Some n :: l' => n + sumSlots l'
  | None :: l' => sumSlots l'
  end.

(** How many of the results carry the flag [b]. *)
Definition countFlag (b : bool) (flags : list bool) : Z :=
  Z.of_nat (List.length (filter (Bool.eqb b) flags)).

End Journal.

(* ------------------------------------------------------------------ *)
(** * The observation log ([src/meta-evolution.js])                    *)
(* ------------------------------------------------------------------ *)

Module MetaEvolution.

Import JS Eff.
Local Open Scope string_scope.
Local Open Scope Z_scope.

(** ** [findMostCommon] *)

(** The keys every object inherits from [Object.prototype]: for them
    [counts[item]] is not a number before the first assignment, it never
    becomes one, and the comparison with [max] is false. *)
Definition objectPrototypeKeys : list string :=
  [ "constructor"; "__defineGetter__"; "__defineSetter__"; "hasOwnProperty";
    "__lookupGetter__"; "__lookupSetter__"; "isPrototypeOf";
    "propertyIsEnumerable"; "toString"; "valueOf"; "__proto__";
    "toLocaleString" ]%string.

Definition inherited (key : string) : bool :=
  existsb (String.eqb key) objectPrototypeKeys.

(** The own numeric properties of [counts]. *)
Definition Counts := list (string * Z).

Fixpoint getCount (key : string) (counts : Counts) : Z :=
  match counts with
  | [] => 0
  | (k, n) :: counts' => if String.eqb k key then n else getCount key counts'
  end.

Fixpoint setCount (key : string) (n : Z) (counts : Counts) : Counts :=
  match counts with
  | [] => [(key, n)]
  | (k, m) :: counts' =>
      if String.eqb k key then (k, n) :: counts'
      else (k, m) :: setCount key n counts'
  end.

(** The state of the loop: [counts], [max] and [result]. *)
Record Tally : Type :=
  { counts : Counts;
    max : Z;
    result : option string }.

(** One turn of [for (const item of arr)]. *)
Definition tally (st : Tally) (item : string) : Tally :=
  if inherited item then st
  else
    let c := getCount item (counts st) + 1 in
    if max st <? c
    then {| counts := setCount item c (counts st);
            max := c;
            result := Some item |}
    else {| counts := setCount item c (counts st);
            max := max st;
            result := result st |}.

(** [findMostCommon(arr)]; [None] is [undefined], the value of [arr[0]]
    for an empty array. *)
Definition findMostCommon (arr : list string) : option string :=
  result (fold_left tally arr
            {| counts := []; max := 0; result := hd_error arr |}).

(** ** [logObservation] *)

(** What is found at [OBSERVATIONS_FILE]:
    - [Missing]: no file;
    - [Unreadable]: a file that is not JSON (the inner [catch] restarts
      from an empty list);
    - [NotAList]: JSON that is not an array ([push] throws and the outer
      [catch] gives up);
    - [Stored l]: an array. *)
Inductive ObservationsFile (O : Type) : Type :=
| Missing
| Unreadable
| NotAList
| Stored (l : list O).
Arguments Missing {O}.
Arguments Unreadable {O}.
Arguments NotAList {O}.

(** An observation as it is stored: the fields given by the caller, then
    [source] and [timestamp], which replace fields of the same name. *)
Record Stamped (P : Type) : Type :=
  { payload : P;
    source : string;
    timestamp : string }.

(** [arr.slice(-n)]: the last [n] elements. *)
Definition lastN {A : Type} (n : nat) (l : list A) : list A :=
  skipn (List.length l - n) l.

(** [logObservation(observation)] at clock [t]: the new content of the
    file.  Writes are modelled as succeeding. *)
Definition logObservation {P : Type} (t : Z) (observation : P)
           (file : ObservationsFile (Stamped P))
  : ObservationsFile (Stamped P) :=
  let stamped := {| payload := observation;
                    source := "openclaw-oracles";
                    timestamp := toISOString t |} in
  match file with
  | NotAList => NotAList
  | Missing | Unreadable => Stored (lastN 100 [stamped])
  | Stored observations => Stored (lastN 100 (observations ++ [stamped]))
  end.

(** ** [processRedditResult] *)

(** A note in [patterns.errors]; those of the sports oracle carry no
    subreddit. *)
Record ErrorNote : Type :=
  { n_error : option string;
    n_subreddit : option string;
    n_timestamp : string }.

(** The part of the module variable [patterns] that
    [processRedditResult] reads and writes: the usage counts and the
    current streak of errors. *)
Record Patterns : Type :=
  { queryTypes : Counts;
    errors : list ErrorNote }.

(** What is handed to [logObservation]; the fields [oracle] and
    [suggestion], fixed by [type] and [subreddit], are left out. *)
Inductive Observation : Type :=
| PopularSubreddit (subreddit : string) (count : Z)
| ErrorPattern (errorType : option string) (count : Z).

Definition consecutiveErrors : nat := 3.
Definition newPatternCount : Z := 5.

(** [processRedditResult(result)] at clock [t]: the new [patterns] and
    the observations it hands to [logObservation], in that order.  The
    keys it counts under start with [reddit:], so none is a name that
    objects inherit. *)
Definition processRedditResult (t : Z) (result : Reddit.VerificationResult)
           (st : Patterns) : Patterns * list Observation :=
  let subreddit :=
    match orNull (Reddit.r_subreddit result) with
    | Some s => s
    | None => "unknown"
    end in
  let key := "reddit:" ++ subreddit in
  let subredditCount := getCount key (queryTypes st) + 1 in
  let counted := setCount key subredditCount (queryTypes st) in
  let popular :=
    if subredditCount =? newPatternCount
    then [PopularSubreddit subreddit subredditCount]
    else [] in
  if negb (Reddit.success result)
  then
    let noted :=
      (errors st ++ [ {| n_error := Reddit.error result;
                         n_subreddit := Some subreddit;
                         n_timestamp := toISOString t |} ])%list in
    if (consecutiveErrors <=? List.length noted)%nat
    then ({| queryTypes := counted; errors := [] |},
          (popular ++ [ErrorPattern (Reddit.error result)
                                    (Z.of_nat (List.length noted))])%list)
    else ({| queryTypes := counted; errors := noted |}, popular)
  else ({| queryTypes := counted; errors := [] |}, popular).

(** ** [logRevenueMilestone] *)

Definition milestones : list Z := [1; 10; 50; 100; 500; 1000].

(** [milestones.find(m => amount >= m && amount < m * 2)], for an
    amount that is a finite number, read as the rational it denotes.
    When a milestone is found, one observation is logged. *)
Definition milestoneOf (amount : Q) : option Z :=
  find (fun m => Qle_bool (inject_Z m) amount &&
                 Qltb amount (inject_Z (m * 2)))
       milestones.

End MetaEvolution.

(* ------------------------------------------------------------------ *)
(** * The routes of the server ([src/server.mjs], [handleRequest])     *)
(* ------------------------------------------------------------------ *)

Module Router.

Import JS Eff.
Local Open Scope string_scope.
Local Open Scope Z_scope.

(** A request as [handleRequest] reads it: method, headers and body, and
    what [new URL(req.url, ...)] makes of the target: [Some] of its
    [pathname], or [None] when the constructor throws, as it does for a
    target without a host such as [//]. *)
Record Incoming : Type :=
  { method : string;
    pathname : option string;
    message : Server.IncomingMessage }.

(** The identifiers read from the environment.  The two of the sports
    oracle are taken as set; the two of the reddit oracle may be unset. *)
Record Settings : Type :=
  { SPORTS_PLAN_ID : string;
    SPORTS_AGENT_ID : string;
    REDDIT_PLAN_ID : option string;
    REDDIT_AGENT_ID : option string }.

Section Routes.
(** [W] is the state of the two oracle modules and [R] the type of their
    results; [sportsOracle] and [redditOracle] are their [askOracle]. *)
Variables W R : Type.
Variable payments : Server.Facilitator.
Variable settings : Settings.
Variable sportsOracle redditOracle : string -> M W R.
Variable clock : W -> Z.

Inductive Reply : Type :=
| NoContent
| Health (timestamp : string)
| OpenApi
| FromOracle (response : Server.Response R)
| NotFound.

(** The status line of a reply. *)
Definition statusOf (reply : Reply) : Z :=
  match reply with
  | NoContent => 204
  | Health _ => 200
  | OpenApi => 200
  | FromOracle response => Server.statusCode response
  | NotFound => 404
  end.

(** [a || b] on an identifier that may be unset. *)
Definition orDefault (a : option string) (b : string) : string :=
  match orNull a with Some s => s | None => b end.

Definition sportsConfig : Server.Config W R :=
  {| Server.oracle := sportsOracle;
     Server.clock := clock;
     Server.planId := SPORTS_PLAN_ID settings;
     Server.agentId := SPORTS_AGENT_ID settings;
     Server.endpoint := "/api/verify";
     Server.name := "Sports" |}.

Definition redditConfig : Server.Config W R :=
  {| Server.oracle := redditOracle;
     Server.clock := clock;
     Server.planId :=
       orDefault (REDDIT_PLAN_ID settings) (SPORTS_PLAN_ID settings);
     Server.agentId :=
       orDefault (REDDIT_AGENT_ID settings) (SPORTS_AGENT_ID settings);
     Server.endpoint := "/api/reddit";
     Server.name := "Reddit" |}.

Local Open Scope eff_scope.

(** The message of the [TypeError] of [new URL]. *)
Definition invalidUrl : string := "Invalid URL".

(** The target is read after the test for OPTIONS and outside every
    [try]. *)
Definition handleRequest (req : Incoming) : M (Server.World W) Reply :=
  if String.eqb (method req) "OPTIONS" then ret NoContent
  else
    match pathname req with
    | None => throw invalidUrl
    | Some path =>
        if String.eqb path "/health"
        then
          t <- gets (fun w => clock (Server.oracleWorld w)) ;;
          ret (Health (toISOString t))
        else if String.eqb path "/openapi.json" then ret OpenApi
        else if (String.eqb path "/api/verify" &&
                 String.eqb (method req) "POST")%bool
        then
          response <- Server.handleOracleRequest payments (message req)
                                                 sportsConfig ;;
          ret (FromOracle response)
        else if (String.eqb path "/api/reddit" &&
                 String.eqb (method req) "POST")%bool
        then
          response <- Server.handleOracleRequest payments (message req)
                                                 redditConfig ;;
          ret (FromOracle response)
        else ret NotFound
    end.

End Routes.

End Router.

(* ------------------------------------------------------------------ *)
(** * Vocabulary of the statements                                     *)
(* ------------------------------------------------------------------ *)

Module Spec.

Import JS Eff.

(** The outcome flag and the confidence of a result agree: a failure
    carries 0, a success a value between the floor 0.5 and 1. *)
Definition scored (flag : bool) (c : Q) : Prop :=
  (flag = false -> c = 0%Q) /\
  (flag = true -> (1 # 2 <= c)%Q /\ (c <= 1)%Q).

(** Whatever [c] returns satisfies [P], from every world. *)
Definition returns {W A : Type} (c : M W A) (P : A -> Prop) : Prop :=
  forall w, match fst (c w) with Ret a => P a | Throw _ => True end.

(** The [k] most recent outcomes exist and are all failures. *)
Definition lastAllFailed (k : nat) (outcomes : list bool) : Prop :=
  (k <= List.length outcomes)%nat /\
  Forall (fun ok => ok = false) (firstn k outcomes).

(** The daily part of a stats document. *)
Record Daily : Type :=
  { d_today : Z;
    d_hourly : list (option Z);
    d_lastReset : string }.

Definition sportsDaily (s : Sports.Stats) : Daily :=
  {| d_today := Sports.todayQueries s;
     d_hourly := Sports.hourlyData s;
     d_lastReset := Sports.lastReset s |}.

Definition redditDaily (s : Reddit.Stats) : Daily :=
  {| d_today := Reddit.todayQueries s;
     d_hourly := Reddit.hourlyData s;
     d_lastReset := Reddit.lastReset s |}.

(** One recording at time [t]: the counters restart from zero exactly
    when the stored date is not the date of [t], and the bucket that is
    incremented is the one of the hour of [t]. *)
Definition dailyStep (tz t : Z) (before after : Daily) : Prop :=
  let today := toDateString tz t in
  let hour := getHours tz t in
  (0 <= hour <= 23)%Z /\
  (d_lastReset before <> today ->
   d_today after = (0 + 1)%Z /\
   d_hourly after = incrAt (Z.to_nat hour) (repeat (Some 0%Z) 24) /\
   d_lastReset after = today) /\
  (d_lastReset before = today ->
   d_today after = (d_today before + 1)%Z /\
   d_hourly after = incrAt (Z.to_nat hour) (d_hourly before) /\
   d_lastReset after = d_lastReset before).

(** The reason the pre-check gives for an open breaker. *)
Definition tripped : option string := Some "circuit_breaker_tripped"%string.

Section Gate.
Variables W R : Type.
Variable payments : Server.Facilitator.
Variable config : Server.Config W R.

(** The credential of [req] is missing, or the facilitator does not
    confirm it: it finds it invalid or short of credits, or fails. *)
Definition unpaid (req : Server.IncomingMessage) : Prop :=
  match orNull (Server.x402Token (Server.headers req)) with
  | None => True
  | Some token =>
      Server.verifyPermissions payments (Server.paymentRequiredOf config)
                               token 1
      <> Server.Verified true
  end.

(** The answer to a request without a credential. *)
Definition paymentRequired402 : Server.Response R :=
  {| Server.statusCode := 402;
     Server.json :=
       Server.PaymentRequiredBody R "payment_required"
         "This API requires Nevermined credits. Include x402 access token in payment-signature header."
         (Server.planId config) (Server.agentId config) "$0.05"
         (Server.purchaseUrlOf (Server.agentId config)) |}.

End Gate.

End Spec.

(* ------------------------------------------------------------------ *)
(** * Concrete worlds used in examples                                 *)
(* ------------------------------------------------------------------ *)

Module Fixtures.

Import JS Eff.
Local Open Scope string_scope.
Local Open Scope Z_scope.

(** 2026-11-02T19:24:00.123Z *)
Definition t0 : Z := 1793647440123.

Definition lakersGame : Sports.Event :=
  {| Sports.dateEvent := Some "2026-01-19";
     Sports.intHomeScore := Some "110";
     Sports.intAwayScore := Some "93";
     Sports.strHomeTeam := Some "Los Angeles Lakers";
     Sports.strAwayTeam := Some "Toronto Raptors";
     Sports.strLeague := Some "NBA";
     Sports.idEvent := Some "2274913" |}.

(** A provider that knows the Lakers and answers within 35 ms. *)
Definition sportsEnv : Sports.Env :=
  {| Sports.tz := 0;
     Sports.legacyDateParse := fun _ => None;
     Sports.searchteams :=
       fun _ _ => HttpOk (Some [ {| Sports.idTeam := "134867" |} ]);
     Sports.eventslast := fun _ _ => HttpOk (Some [lakersGame]);
     Sports.latency := fun _ _ => 35 |}.

Definition freshSports : Sports.World :=
  {| Sports.now := t0; Sports.statsFile := None; Sports.trace := [] |}.

Definition lakersQuestion : string :=
  "Who won the Lakers game on 2026-01-19?".

Definition failedEntry : Sports.LogEntry :=
  {| Sports.e_timestamp := "2026-11-02T19:00:00.000Z";
     Sports.e_query := None;
     Sports.e_verified := false;
     Sports.e_confidence := 0%Q;
     Sports.e_winner := None;
     Sports.e_error := Some "team_not_found" |}.

Definition okEntry : Sports.LogEntry :=
  {| Sports.e_timestamp := "2026-11-02T18:30:00.000Z";
     Sports.e_query := None;
     Sports.e_verified := true;
     Sports.e_confidence := (3 # 4)%Q;
     Sports.e_winner := Some "Boston Celtics";
     Sports.e_error := None |}.

(** Five failures at the head of a full log on a day with 999 queries. *)
Definition trippedNearQuota : Sports.Stats :=
  {| Sports.totalQueries := 999;
     Sports.todayQueries := 999;
     Sports.successCount := 994;
     Sports.errorCount := 5;
     Sports.confidenceSum := (1491 # 2)%Q;
     Sports.hourlyData :=
       repeat (Some 0) 19 ++ [Some 999] ++ repeat (Some 0) 4;
     Sports.recentQueries := repeat failedEntry 5 ++ repeat okEntry 45;
     Sports.lastReset := "Mon Nov 02 2026" |}.

Definition trippedSports : Sports.World :=
  {| Sports.now := t0;
     Sports.statsFile := Some trippedNearQuota;
     Sports.trace := [] |}.

(** A successful verification, as [verifyResult] builds it. *)
Definition lakersWin : Sports.VerificationResult :=
  {| Sports.verified := true;
     Sports.confidence := (3 # 4)%Q;
     Sports.error := None;
     Sports.message := None;
     Sports.suggestion := None;
     Sports.safetyTriggered := false;
     Sports.result :=
       Some {| Sports.homeTeam := Some "Los Angeles Lakers";
               Sports.awayTeam := Some "Toronto Raptors";
               Sports.homeScore := Num 110;
               Sports.awayScore := Num 93;
               Sports.winner := Some "Los Angeles Lakers";
               Sports.finalScore := "110-93" |};
     Sports.league := Some "NBA";
     Sports.rdate := Some "2026-01-19";
     Sports.query :=
       Some {| Sports.q_team := Some (Sports.Named "Los Angeles Lakers");
               Sports.q_opponent := None;
               Sports.q_date := "2026-01-19";
               Sports.q_originalQuestion := lakersQuestion |};
     Sports.parsed := None;
     Sports.sources := ["thesportsdb"];
     Sports.sourcesAgreed := Some 1;
     Sports.sourcesQueried := Some 1;
     Sports.timestamp := "2026-11-02T19:24:00.193Z" |}.

Definition wsbQuestion : string := "What's hot on r/wallstreetbets?".

Definition wsbPost : Reddit.Post :=
  {| Reddit.p_id := "1k2j3h";
     Reddit.p_title := "Daily Discussion Thread";
     Reddit.p_score := 412;
     Reddit.p_numComments := 9731 |}.

Definition redditEnv : Reddit.Env :=
  {| Reddit.tz := 0;
     Reddit.listing := fun _ _ => HttpOk (Some ([wsbPost], None));
     Reddit.search := fun _ _ => HttpOk (Some [wsbPost]);
     Reddit.comments := fun _ _ => HttpOk (Some (Some wsbPost, []));
     Reddit.latency := fun _ _ => 180 |}.

Definition freshReddit : Reddit.World :=
  {| Reddit.now := t0;
     Reddit.statsFile := None;
     Reddit.lastRequestTime := 0;
     Reddit.trace := [] |}.

Definition redditFailedEntry : Reddit.LogEntry :=
  {| Reddit.e_timestamp := "2026-11-02T19:00:00.000Z";
     Reddit.e_query := None;
     Reddit.e_success := false;
     Reddit.e_subreddit := Some "wallstreetbets";
     Reddit.e_error := Some "rate_limited" |}.

Definition trippedRedditStats : Reddit.Stats :=
  {| Reddit.totalQueries := 5;
     Reddit.todayQueries := 5;
     Reddit.successCount := 0;
     Reddit.errorCount := 5;
     Reddit.hourlyData := repeat (Some 0) 19 ++ [Some 5] ++ repeat (Some 0) 4;
     Reddit.recentQueries := repeat redditFailedEntry 5;
     Reddit.lastReset := "Mon Nov 02 2026" |}.

Definition trippedReddit : Reddit.World :=
  {| Reddit.now := t0;
     Reddit.statsFile := Some trippedRedditStats;
     Reddit.lastRequestTime := 0;
     Reddit.trace := [] |}.

(** The sports endpoint of the server. *)
Definition sportsConfig : Server.Config Sports.World Sports.VerificationResult :=
  {| Server.oracle := Sports.askOracle sportsEnv;
     Server.clock := Sports.now;
     Server.planId := "plan-sports";
     Server.agentId := "agent-sports";
     Server.endpoint := "/api/verify";
     Server.name := "Sports" |}.

(** A facilitator that finds every token invalid. *)
Definition rejecting : Server.Facilitator :=
  {| Server.verifyPermissions := fun _ _ _ => Server.Verified false;
     Server.settlePermissions :=
       fun _ _ _ => Server.SettleThrows "not reached" |}.

(** A facilitator that cannot be reached for verification. *)
Definition unreachable : Server.Facilitator :=
  {| Server.verifyPermissions :=
       fun _ _ _ => Server.VerifyThrows "connect ECONNREFUSED";
     Server.settlePermissions :=
       fun _ _ _ => Server.SettleThrows "connect ECONNREFUSED" |}.

(** A facilitator that verifies and then fails to settle. *)
Definition settleDown : Server.Facilitator :=
  {| Server.verifyPermissions := fun _ _ _ => Server.Verified true;
     Server.settlePermissions :=
       fun _ _ _ => Server.SettleThrows "socket hang up" |}.

Definition serverWorld : Server.World Sports.World :=
  {| Server.oracleWorld := freshSports; Server.paymentCalls := [] |}.

Definition withToken (b : Server.Body) : Server.IncomingMessage :=
  {| Server.headers :=
       {| Server.paymentSignature := None;
          Server.authorization := Some "Bearer tok_123" |};
     Server.body := b |}.

Definition withoutToken (b : Server.Body) : Server.IncomingMessage :=
  {| Server.headers :=
       {| Server.paymentSignature := None;
          Server.authorization := None |};
     Server.body := b |}.

End Fixtures.

(* ------------------------------------------------------------------ *)
(** * Further vocabulary                                               *)
(* ------------------------------------------------------------------ *)

Module Props.

Import JS Eff.

(** Which opponent counts as confirmed by a game: a named opponent whose
    lower-cased name occurs in the lower-cased home or away team. *)
Definition opponentConfirmed (q : Sports.VerifyQuery) (g : Sports.Game)
  : bool :=
  match Sports.q_opponent q with
  | Some (Sports.Inherited _) => false
  | Some (Sports.Named opp) =>
      truthy opp &&
      (match Sports.homeTeam g with
       | Some home => includes (toLowerCase opp) (toLowerCase home)
       | None => false
       end ||
       match Sports.awayTeam g with
       | Some away => includes (toLowerCase opp) (toLowerCase away)
       | None => false
       end)
  | None => false
  end.

(** The winner two scores give: the home team or the away team by the
    higher score, and a tie when the scores are equal or when one of
    them is not a number. *)
Definition winnerOf (home away : option string) (hs as_ : num)
  : option string :=
  match hs, as_ with
  | Num x, Num y =>
      if (y <? x)%Z then home
      else if (x <? y)%Z then away else Some "tie"%string
  | _, _ => Some "tie"%string
  end.

(** What one recording adds: one more query, and the result at the head
    of the log. *)
Definition recordedOnce (env : Sports.Env) (w w' : Sports.World)
           (r : Sports.VerificationResult) : Prop :=
  Sports.totalQueries (Sports.currentStats env w')
  = (Sports.totalQueries (Sports.currentStats env w) + 1)%Z /\
  exists entry older,
    Sports.recentQueries (Sports.currentStats env w') = entry :: older /\
    Sports.e_verified entry = Sports.verified r /\
    Sports.e_confidence entry = Sports.confidence r /\
    Sports.e_error entry = Sports.error r.

(** The histogram has its 24 buckets and adds up to today's count. *)
Definition dailyConsistent (today : Z) (hourly : list (option Z)) : Prop :=
  List.length hourly = 24%nat /\ Journal.sumSlots hourly = today.

(** ** The pacing of the reddit adapters *)

(** When the request of an adapter called in [w] leaves: now, or
    [requestDelayMs] after the previous call if that is later. *)
Definition sendTime (w : Reddit.World) : Z :=
  Z.max (Reddit.now w) (Reddit.lastRequestTime w + Reddit.requestDelayMs).

(** The wait before it: none, or one timer for the time that is missing. *)
Definition waitOf (w : Reddit.World) : list Effect :=
  if (Reddit.now w - Reddit.lastRequestTime w <? Reddit.requestDelayMs)%Z
  then [Sleep (Reddit.requestDelayMs
               - (Reddit.now w - Reddit.lastRequestTime w))
              (Reddit.now w)]
  else [].

(** The world once [enforceRateLimit] is over. *)
Definition afterWait (w : Reddit.World) : Reddit.World :=
  {| Reddit.now := sendTime w;
     Reddit.statsFile := Reddit.statsFile w;
     Reddit.lastRequestTime := sendTime w;
     Reddit.trace := (Reddit.trace w ++ waitOf w)%list |}.

(** The world once an adapter called in [w] has sent [req] and has its
    answer. *)
Definition afterCall (env : Reddit.Env) (req : Request) (w : Reddit.World)
  : Reddit.World :=
  {| Reddit.now :=
       (sendTime w + Z.max 0 (Reddit.latency env req (sendTime w)))%Z;
     Reddit.statsFile := Reddit.statsFile w;
     Reddit.lastRequestTime := sendTime w;
     Reddit.trace :=
       (Reddit.trace w ++ waitOf w ++ [Outbound req (sendTime w)])%list |}.

(** The times at which the requests of a trace were sent. *)
Definition sentAt (trace : list Effect) : list Z :=
  map timeOf (filter isOutbound trace).

(** A request as the reddit module builds them. *)
Definition wellFormed (e : Effect) : Prop :=
  match requestOf e with
  | Some req => req = Reddit.redditGet (url req)
  | None => True
  end.

(** Every two requests sent so far are [requestDelayMs] apart, none was
    sent after the noted time of the last call, and each carries the
    user agent and the timeout. *)
Definition courteous (w : Reddit.World) : Prop :=
  ForallOrdPairs (fun a b => a + Reddit.requestDelayMs <= b)%Z
                 (sentAt (Reddit.trace w)) /\
  Forall (fun t => t <= Reddit.lastRequestTime w)%Z
         (sentAt (Reddit.trace w)) /\
  Forall wellFormed (Reddit.trace w).

(** The stats a recording in a world with the file of [w] and the clock
    at [t] starts from. *)
Definition redditStatsAt (env : Reddit.Env) (w : Reddit.World) (t : Z)
  : Reddit.Stats :=
  match Reddit.statsFile w with
  | Some stats => stats
  | None => Reddit.initialStats env t
  end.

(** The number of answers that are no rejection of the pre-check. *)
Definition admitted (answers : list (Res Reddit.VerificationResult)) : Z :=
  Z.of_nat
    (List.length
       (filter (fun a => match a with
                         | Ret r => negb (Reddit.safetyTriggered r)
                         | Throw _ => false
                         end) answers)).

(** ** Worlds at the daily limit *)

Definition dailyLimitReached : option string :=
  Some "daily_limit_reached"%string.

(** The sports store on 2 November 2026 with the 1000 queries of the day
    used up; the last one succeeded. *)
Definition sportsAtQuota : Sports.World :=
  {| Sports.now := Fixtures.t0;
     Sports.statsFile :=
       Some {| Sports.totalQueries := 1000;
               Sports.todayQueries := 1000;
               Sports.successCount := 1000;
               Sports.errorCount := 0;
               Sports.confidenceSum := 750%Q;
               Sports.hourlyData :=
                 (repeat (Some 0%Z) 19 ++ [Some 1000%Z]
                  ++ repeat (Some 0%Z) 4)%list;
               Sports.recentQueries := repeat Fixtures.okEntry 50;
               Sports.lastReset := "Mon Nov 02 2026" |};
     Sports.trace := [] |}.

(** The reddit store on the same day with its 500 queries used up. *)
Definition redditAtQuota : Reddit.World :=
  {| Reddit.now := Fixtures.t0;
     Reddit.statsFile :=
       Some {| Reddit.totalQueries := 500;
               Reddit.todayQueries := 500;
               Reddit.successCount := 500;
               Reddit.errorCount := 0;
               Reddit.hourlyData :=
                 (repeat (Some 0%Z) 19 ++ [Some 500%Z]
                  ++ repeat (Some 0%Z) 4)%list;
               Reddit.recentQueries := [];
               Reddit.lastReset := "Mon Nov 02 2026" |};
     Reddit.lastRequestTime := 0;
     Reddit.trace := [] |}.

(** The same store one query earlier. *)
Definition redditNearQuota : Reddit.World :=
  {| Reddit.now := Fixtures.t0;
     Reddit.statsFile :=
       Some {| Reddit.totalQueries := 499;
               Reddit.todayQueries := 499;
               Reddit.successCount := 499;
               Reddit.errorCount := 0;
               Reddit.hourlyData :=
                 (repeat (Some 0%Z) 19 ++ [Some 499%Z]
                  ++ repeat (Some 0%Z) 4)%list;
               Reddit.recentQueries := [];
               Reddit.lastReset := "Mon Nov 02 2026" |};
     Reddit.lastRequestTime := 0;
     Reddit.trace := [] |}.

(** A day, in milliseconds. *)
Definition day : Z := 86400000.

(** ** Worlds of the server *)

(** A provider whose events carry scores and no team names. *)
Definition namelessEnv : Sports.Env :=
  {| Sports.tz := 0;
     Sports.legacyDateParse := fun _ => None;
     Sports.searchteams :=
       fun _ _ => HttpOk (Some [ {| Sports.idTeam := "134867" |} ]);
     Sports.eventslast :=
       fun _ _ =>
         HttpOk (Some [ {| Sports.dateEvent := Some "2026-01-19"%string;
                           Sports.intHomeScore := Some "110"%string;
                           Sports.intAwayScore := Some "93"%string;
                           Sports.strHomeTeam := None;
                           Sports.strAwayTeam := None;
                           Sports.strLeague := Some "NBA"%string;
                           Sports.idEvent := Some "2274913"%string |} ]);
     Sports.latency := fun _ _ => 35%Z |}.

Definition celticsQuestion : string :=
  "Did the Lakers beat the Celtics on 2026-01-19?".

Definition namelessConfig
  : Server.Config Sports.World Sports.VerificationResult :=
  {| Server.oracle := Sports.askOracle namelessEnv;
     Server.clock := Sports.now;
     Server.planId := "plan-sports";
     Server.agentId := "agent-sports";
     Server.endpoint := "/api/verify";
     Server.name := "Sports" |}.

(** A facilitator that verifies and settles. *)
Definition settling : Server.Facilitator :=
  {| Server.verifyPermissions := fun _ _ _ => Server.Verified true;
     Server.settlePermissions :=
       fun _ _ _ => Server.Settled (Some "0x5e771e"%string) |}.

(** The reddit endpoint of the server. *)
Definition redditConfig
  : Server.Config Reddit.World Reddit.VerificationResult :=
  {| Server.oracle := Reddit.askOracle Fixtures.redditEnv;
     Server.clock := Reddit.now;
     Server.planId := "plan-reddit";
     Server.agentId := "agent-reddit";
     Server.endpoint := "/api/reddit";
     Server.name := "Reddit" |}.

Definition trippedRedditServer : Server.World Reddit.World :=
  {| Server.oracleWorld := Fixtures.trippedReddit;
     Server.paymentCalls := [] |}.

(** ** The routes *)

(** The replies [handleRequest] builds itself. *)
Definition ownReply {R : Type} (reply : Router.Reply R) : bool :=
  match reply with
  | Router.FromOracle _ => false
  | _ => true
  end.

(** Identifiers of the sports oracle only. *)
Definition sportsOnly : Router.Settings :=
  {| Router.SPORTS_PLAN_ID := "plan-sports";
     Router.SPORTS_AGENT_ID := "agent-sports";
     Router.REDDIT_PLAN_ID := None;
     Router.REDDIT_AGENT_ID := None |}.

(** ** A question about a team without an alias *)

Definition arsenalQuestion : string :=
  "Who won the Arsenal game on 2026-01-19?".

(** ** The observation log *)

(** How often [key] occurs in [arr]. *)
Definition occurrences (key : string) (arr : list string) : Z :=
  Z.of_nat (List.length (filter (String.eqb key) arr)).

(** An observation as [logObservation] stores it at clock [t]. *)
Definition stamp {P : Type} (t : Z) (observation : P)
  : MetaEvolution.Stamped P :=
  {| MetaEvolution.payload := observation;
     MetaEvolution.source := "openclaw-oracles";
     MetaEvolution.timestamp := toISOString t |}.

(** Observations logged one after another, each at its own time. *)
Fixpoint logAll {P : Type} (observations : list (Z * P))
         (file : MetaEvolution.ObservationsFile (MetaEvolution.Stamped P))
  : MetaEvolution.ObservationsFile (MetaEvolution.Stamped P) :=
  match observations with
  | [] => file
  | (t, observation) :: rest =>
      logAll rest (MetaEvolution.logObservation t observation file)
  end.

(** The list a file gives to start from. *)
Definition storedIn {O : Type} (file : MetaEvolution.ObservationsFile O)
  : list O :=
  match file with
  | MetaEvolution.Stored l => l
  | _ => []
  end.

(** What holds of the loop state once [seen] has been read. *)
Definition tallied (first : option string) (seen : list string)
           (st : MetaEvolution.Tally) : Prop :=
  (forall k, MetaEvolution.inherited k = false ->
             MetaEvolution.getCount k (MetaEvolution.counts st)
             = occurrences k seen) /\
  (forall k, MetaEvolution.inherited k = false ->
             (occurrences k seen <= MetaEvolution.max st)%Z) /\
  ((MetaEvolution.max st = 0%Z /\ MetaEvolution.result st = first) \/
   (exists x, MetaEvolution.result st = Some x /\
              MetaEvolution.inherited x = false /\
              In x seen /\
              (MetaEvolution.max st <= occurrences x seen)%Z)).

(** ** Runs of [processRedditResult] *)

(** Results processed one after another, each at its own time: the
    final [patterns] and all the observations logged, in order. *)
Fixpoint processAllReddit
         (results : list (Z * Reddit.VerificationResult))
         (st : MetaEvolution.Patterns)
  : MetaEvolution.Patterns * list MetaEvolution.Observation :=
  match results with
  | [] => (st, [])
  | (t, r) :: rest =>
      let '(st1, logged) := MetaEvolution.processRedditResult t r st in
      let '(st2, later) := processAllReddit rest st1 in
      (st2, (logged ++ later)%list)
  end.

Definition isErrorPattern (o : MetaEvolution.Observation) : bool :=
  match o with
  | MetaEvolution.ErrorPattern _ _ => true
  | MetaEvolution.PopularSubreddit _ _ => false
  end.

(** An error pattern is reported with a count of three. *)
Definition countsThree (o : MetaEvolution.Observation) : Prop :=
  match o with
  | MetaEvolution.ErrorPattern _ count => count = 3%Z
  | MetaEvolution.PopularSubreddit _ _ => True
  end.

(** Nothing counted, no error noted. *)
Definition noPatterns : MetaEvolution.Patterns :=
  {| MetaEvolution.queryTypes := []; MetaEvolution.errors := [] |}.

(** A failed reddit result, as [askOracle] builds it. *)
Definition rateLimited : Reddit.VerificationResult :=
  {| Reddit.success := false; Reddit.confidence := 0%Q;
     Reddit.error := Some "rate_limited"%string;
     Reddit.message := None; Reddit.suggestion := None;
     Reddit.safetyTriggered := false; Reddit.data := None;
     Reddit.r_subreddit := Some "wallstreetbets"%string;
     Reddit.queryType := None; Reddit.query := None;
     Reddit.parsed := None; Reddit.sources := [];
     Reddit.timestamp := "2026-11-02T19:24:00.123Z" |}.

End Props.


(* ------------------------------------------------------------------ *)
(** * Facts about the matcher and the parsing loop                     *)
(* ------------------------------------------------------------------ *)

Import JS Eff.

Section MatcherFacts.
Variable A : Type.

(** A successful run hands its continuation a position at least
    [minLen r] further on. *)
Lemma run_progress (r : regex) :
  forall inp pos cs (k : nat -> Caps -> option A) a,
    run r inp pos cs k = Some a ->
    exists pos' cs', (pos + minLen r <= pos')%nat /\ k pos' cs' = Some a.
Proof.
  induction r as [| p | r1 IH1 r2 IH2 | r1 IH1 r2 IH2 | r1 IH1 | i r1 IH1 |];
    intros inp pos cs k a H; cbn [run minLen] in H |- *.
  - exists pos, cs. split; [lia | exact H].
  - destruct (get pos inp) as [c |]; [| discriminate].
    destruct (p c); [| discriminate].
    exists (S pos), cs. split; [lia | exact H].
  - apply IH1 in H. destruct H as (p1 & c1 & Hp1 & H).
    apply IH2 in H. destruct H as (p2 & c2 & Hp2 & H).
    exists p2, c2. split; [lia | exact H].
  - destruct (run r1 inp pos cs k) as [a1 |] eqn:E1.
    + inversion H; subst a1. apply IH1 in E1.
      destruct E1 as (p1 & c1 & Hp1 & E1). exists p1, c1. split; [lia | exact E1].
    + apply IH2 in H. destruct H as (p2 & c2 & Hp2 & H).
      exists p2, c2. split; [lia | exact H].
  - remember (S (String.length inp - pos)) as fuel eqn:Hfuel. clear Hfuel.
    revert pos cs H. induction fuel as [| fuel IHf]; intros pos cs H;
      simpl in H.
    + exists pos, cs. split; [lia | exact H].
    + match type of H with
      | match ?X with _ => _ end = _ => destruct X as [a1 |] eqn:E1
      end.
      * inversion H; subst a1. apply IH1 in E1.
        destruct E1 as (p1 & c1 & Hp1 & E1).
        destruct (Nat.ltb_spec pos p1); [| discriminate].
        apply IHf in E1. destruct E1 as (p2 & c2 & Hp2 & E1).
        exists p2, c2. split; [lia | exact E1].
      * exists pos, cs. split; [lia | exact H].
  - apply IH1 in H. destruct H as (p1 & c1 & Hp1 & H).
    eexists _, _. split; [| exact H]. lia.
  - destruct (atBoundary inp pos); [| discriminate].
    exists pos, cs. split; [lia | exact H].
Qed.
End MatcherFacts.

Lemma get_in_range (inp : string) (pos : nat) (c : ascii) :
  get pos inp = Some c -> (pos < String.length inp)%nat.
Proof.
  revert pos. induction inp as [| a inp IH]; intros pos H; simpl in H.
  - discriminate.
  - destruct pos as [| pos]; simpl; [lia |]. apply IH in H. lia.
Qed.

Section MatcherFuel.
Variable A : Type.

(** Continuations that agree on the positions still inside the input
    give the same run. *)
Lemma run_ext (r : regex) :
  forall inp pos cs (k1 k2 : nat -> Caps -> option A),
    (forall p c, (pos <= p <= String.length inp)%nat -> k1 p c = k2 p c) ->
    (pos <= String.length inp)%nat ->
    run r inp pos cs k1 = run r inp pos cs k2.
Proof.
  induction r as [| p | r1 IH1 r2 IH2 | r1 IH1 r2 IH2 | r1 IH1 | i r1 IH1 |];
    intros inp pos cs k1 k2 Hk Hpos; cbn [run].
  - apply Hk. lia.
  - destruct (get pos inp) as [c |] eqn:E; [| reflexivity].
    apply get_in_range in E. destruct (p c); [| reflexivity]. apply Hk. lia.
  - apply IH1; [| exact Hpos]. intros p c Hp. apply IH2; [| lia].
    intros p' c' Hp'. apply Hk. lia.
  - rewrite (IH1 inp pos cs k1 k2 Hk Hpos).
    rewrite (IH2 inp pos cs k1 k2 Hk Hpos). reflexivity.
  - generalize (S (String.length inp - pos)). intros fuel.
    revert pos cs Hk Hpos. induction fuel as [| fuel IHf]; intros pos cs Hk Hpos;
      cbn [starLoop].
    + apply Hk. lia.
    + rewrite (Hk pos cs) by lia.
      erewrite IH1; [reflexivity | | exact Hpos].
      intros p c Hp. cbv beta. destruct (Nat.ltb_spec pos p); [| reflexivity].
      apply IHf; [| lia]. intros p' c' Hp'. apply Hk. lia.
  - apply IH1; [| exact Hpos]. intros p c Hp. apply Hk. lia.
  - destruct (atBoundary inp pos); [| reflexivity]. apply Hk. lia.
Qed.

(** The iterations of a starred group never use up their fuel: any fuel
    above the number of characters left gives the same result. *)
Lemma starLoop_fuel (r : regex) (inp : string) (k : nat -> Caps -> option A) :
  forall fuel1 fuel2 pos cs,
    (pos <= String.length inp)%nat ->
    (String.length inp - pos < fuel1)%nat ->
    (String.length inp - pos < fuel2)%nat ->
    starLoop (fun pos' cs' k' => run r inp pos' cs' k') k fuel1 pos cs
    = starLoop (fun pos' cs' k' => run r inp pos' cs' k') k fuel2 pos cs.
Proof.
  induction fuel1 as [| f1 IH]; intros fuel2 pos cs Hpos H1 H2; [lia |].
  destruct fuel2 as [| f2]; [lia |]. cbn [starLoop].
  erewrite run_ext; [reflexivity | | exact Hpos].
  intros p c Hp. cbv beta. destruct (Nat.ltb_spec pos p); [| reflexivity].
  apply IH; lia.
Qed.
End MatcherFuel.

Lemma scan_progress r : forall n inp start m,
  scan n r inp start = Some m ->
  (start <= m_index m)%nat /\ (m_index m + minLen r <= m_end m)%nat.
Proof.
  induction n as [| n IH]; intros inp start m H; simpl in H.
  - destruct (run r inp start [] _) as [[e cs] |] eqn:E; [| discriminate].
    inversion H; subst m; simpl. apply run_progress in E.
    destruct E as (p & c & Hp & E). inversion E; subst. lia.
  - destruct (run r inp start [] _) as [[e cs] |] eqn:E.
    + inversion H; subst m; simpl. apply run_progress in E.
      destruct E as (p & c & Hp & E). inversion E; subst. lia.
    + apply IH in H. lia.
Qed.

Lemma execAt_progress r inp lastIndex m :
  execAt r inp lastIndex = Some m ->
  (lastIndex <= String.length inp)%nat /\ (lastIndex + minLen r <= m_end m)%nat.
Proof.
  unfold execAt.
  destruct (Nat.leb_spec lastIndex (String.length inp)) as [Hle | Hgt];
    [| discriminate].
  intros Hscan. apply scan_progress in Hscan. lia.
Qed.

Lemma teamPattern_minLen : minLen Sports.teamPattern = 2%nat.
Proof. reflexivity. Qed.

(** The loop over the team matches does not depend on its fuel once the
    fuel exceeds what is left of the question. *)
Lemma collectTeams_fuel question : forall fuel1 fuel2 lastIndex,
  (2 + String.length question - lastIndex <= fuel1)%nat ->
  (2 + String.length question - lastIndex <= fuel2)%nat ->
  Sports.collectTeams fuel1 question lastIndex =
  Sports.collectTeams fuel2 question lastIndex.
Proof.
  induction fuel1 as [| f1 IH]; intros fuel2 i H1 H2.
  - destruct fuel2 as [| f2]; [reflexivity |].
    simpl. destruct (execAt _ _ _) as [m |] eqn:E; [| reflexivity].
    apply execAt_progress in E. lia.
  - destruct fuel2 as [| f2].
    + simpl. destruct (execAt _ _ _) as [m |] eqn:E; [| reflexivity].
      apply execAt_progress in E. lia.
    + simpl. destruct (execAt _ _ _) as [m |] eqn:E; [| reflexivity].
      apply execAt_progress in E. rewrite teamPattern_minLen in E.
      f_equal. apply IH; lia.
Qed.

(* ------------------------------------------------------------------ *)
(** * Confidence of the results                                        *)
(* ------------------------------------------------------------------ *)

Lemma scored_failure : Spec.scored false 0.
Proof. split; [reflexivity | discriminate]. Qed.

Lemma scored_success (c : Q) :
  (1 # 2 <= c)%Q -> (c <= 1)%Q -> Spec.scored true c.
Proof. intros Hlo Hhi; split; [discriminate | split; assumption]. Qed.

Lemma scored_075 : Spec.scored true (3 # 4).
Proof. apply scored_success; unfold Qle; simpl; lia. Qed.

Lemma scored_085 : Spec.scored true (17 # 20).
Proof. apply scored_success; unfold Qle; simpl; lia. Qed.

Lemma scored_080 : Spec.scored true (4 # 5).
Proof. apply scored_success; unfold Qle; simpl; lia. Qed.

Create HintDb scored.

#[local] Hint Resolve scored_failure scored_075 scored_085 scored_080 : scored.

(** The floor leaves a confidence of at least 0.5 as it is. *)
Lemma applyConfidenceFloor_above (c : Q) :
  (1 # 2 <= c)%Q -> Sports.applyConfidenceFloor c = c.
Proof.
  intros H. unfold Sports.applyConfidenceFloor, Qltb.
  destruct (Qle_bool Sports.minConfidenceFloor c) eqn:E.
  - rewrite andb_false_r. reflexivity.
  - apply Qle_bool_iff in H. unfold Sports.minConfidenceFloor in E. congruence.
Qed.

(** The floor never lowers a confidence and lifts any positive one to
    0.5 at least. *)
Lemma applyConfidenceFloor_floor (c : Q) :
  (0 < c)%Q -> (1 # 2 <= Sports.applyConfidenceFloor c)%Q.
Proof.
  intros Hpos. unfold Sports.applyConfidenceFloor, Qltb.
  destruct (Qle_bool c 0) eqn:E0.
  - apply Qle_bool_iff in E0. exfalso. apply (Qlt_not_le _ _ Hpos E0).
  - simpl. destruct (Qle_bool Sports.minConfidenceFloor c) eqn:E1; simpl.
    + apply Qle_bool_iff in E1. exact E1.
    + unfold Sports.minConfidenceFloor. apply Qle_refl.
Qed.

(** What [verifyResult] can return. *)
Lemma verifyResult_cases (env : Sports.Env) (q : Sports.VerifyQuery) :
  Spec.returns (Sports.verifyResult env q)
    (fun r => (Sports.verified r = false /\ Sports.confidence r = 0%Q) \/
              (Sports.verified r = true /\
               (Sports.confidence r = 3 # 4 \/ Sports.confidence r = 17 # 20))).
Proof.
  intros w. unfold Sports.verifyResult, bind.
  destruct (Sports.querySportsDB env (Sports.q_team q) (Sports.q_date q) w)
    as [[db | e] w1]; [| exact I].
  unfold gets.
  destruct (Sports.optTruthy (Sports.db_error db)); [left; simpl; auto |].
  destruct (Sports.q_opponent q) as [[opp | key] |]; simpl.
  - destruct (truthy opp); simpl.
    + destruct (Sports.db_homeTeam db) as [home |]; simpl; [| exact I].
      destruct (includes _ _); simpl.
      * right; split; auto.
      * destruct (Sports.db_awayTeam db) as [away |]; simpl; [| exact I].
        destruct (includes _ _); simpl; right; split; auto.
    + right; split; auto.
  - exact I.
  - right; split; auto.
Qed.

Lemma sports_verifyResult_scored (env : Sports.Env)
      (q : Sports.VerifyQuery) :
  Spec.returns (Sports.verifyResult env q)
    (fun r => Spec.scored (Sports.verified r) (Sports.confidence r)).
Proof.
  intros w. generalize (verifyResult_cases env q w).
  destruct (fst (Sports.verifyResult env q w)) as [r | e]; [| trivial].
  intros [[Hv Hc] | [Hv [Hc | Hc]]]; rewrite Hv, Hc; auto with scored.
Qed.

Lemma sports_askOracle_scored (env : Sports.Env) (question : string) :
  Spec.returns (Sports.askOracle env question)
    (fun r => Spec.scored (Sports.verified r) (Sports.confidence r)).
Proof.
  intros w.
  unfold Sports.askOracle, Sports.checkSafetyLimits, Sports.loadStats,
    bind, gets, ret.
  cbn [fst snd].
  destruct (Sports.safe _); cbn [negb].
  2: { simpl. auto with scored. }
  destruct (Sports.optNameTruthy _); cbn [negb].
  2: { simpl. auto with scored. }
  generalize (verifyResult_cases env
                (Sports.normalizeQuery (Sports.parseQuestion env (Sports.now w) question)) w).
  destruct (Sports.verifyResult env _ w) as [[r0 | e] w1]; cbn [fst]; [| trivial].
  intros [[Hv Hc] | [Hv Hc]]; rewrite Hv; cbn [andb].
  - simpl. rewrite Hv, Hc. auto with scored.
  - assert (Hpos : Qltb 0 (Sports.confidence r0) = true)
      by (destruct Hc as [Hc | Hc]; rewrite Hc; reflexivity).
    rewrite Hpos. simpl.
    rewrite Hv. rewrite applyConfidenceFloor_above.
    + destruct Hc as [Hc | Hc]; rewrite Hc; auto with scored.
    + destruct Hc as [Hc | Hc]; rewrite Hc; unfold Qle; simpl; lia.
Qed.

Lemma returns_ret {W A : Type} (a : A) (P : A -> Prop) :
  P a -> Spec.returns (ret (W := W) a) P.
Proof. intros H w. exact H. Qed.

Lemma returns_bind {W A B : Type} (c : M W A) (k : A -> M W B)
      (P : B -> Prop) :
  (forall a, Spec.returns (k a) P) -> Spec.returns (bind c k) P.
Proof.
  intros H w. unfold bind. destruct (c w) as [[a | e] w1]; [| exact I].
  apply H.
Qed.

Lemma reddit_conclude_scored (env : Reddit.Env) (p : Reddit.Parsed)
      (sub : string) (conf : Q) (d : Reddit.Data) :
  Spec.scored true conf ->
  Spec.returns (Reddit.conclude env p sub conf d)
    (fun r => Spec.scored (Reddit.success r) (Reddit.confidence r)).
Proof.
  intros Hconf. unfold Reddit.conclude.
  apply returns_bind; intros t. apply returns_bind; intros _.
  apply returns_ret.
  destruct (Reddit.optTruthy (Reddit.d_error d)); simpl; auto with scored.
Qed.

Lemma reddit_giveUp_scored (env : Reddit.Env) (err hint : string)
      (p : Reddit.Parsed) :
  Spec.returns (Reddit.giveUp env err hint p)
    (fun r => Spec.scored (Reddit.success r) (Reddit.confidence r)).
Proof.
  unfold Reddit.giveUp.
  apply returns_bind; intros t. apply returns_bind; intros _.
  apply returns_ret. simpl. auto with scored.
Qed.

#[local] Hint Resolve reddit_conclude_scored reddit_giveUp_scored : scored.

Lemma reddit_askOracle_scored (env : Reddit.Env) (question : string) :
  Spec.returns (Reddit.askOracle env question)
    (fun r => Spec.scored (Reddit.success r) (Reddit.confidence r)).
Proof.
  unfold Reddit.askOracle.
  apply returns_bind; intros check. apply returns_bind; intros t.
  destruct (Reddit.safe check); cbn [negb].
  2: { apply returns_ret. simpl. auto with scored. }
  destruct (orNull _) as [sub |]; [| auto with scored].
  destruct (Reddit.type _).
  1-3: apply returns_bind; intros d; auto with scored.
  - destruct (value_truthy _); [| auto with scored].
    apply returns_bind; intros d; auto with scored.
  - destruct (orNull _) as [kw |]; [| auto with scored].
    apply returns_bind; intros d; auto with scored.
Qed.

Lemma plain_askOracle_scored (env : Sports.Env) (question : string) :
  Spec.returns (Oracle.askOracle env question)
    (fun r => Spec.scored (Sports.verified r) (Sports.confidence r)).
Proof.
  unfold Oracle.askOracle. apply returns_bind; intros t.
  destruct (Sports.optTruthy _); cbn [negb].
  - apply sports_verifyResult_scored.
  - apply returns_ret. simpl. auto with scored.
Qed.

(** C1.  Every result the oracle entry points return ([verifyResult] and
    [askOracle] of the sports oracle, with and without safety rails, and
    [askOracle] of the reddit oracle) has confidence 0 when its outcome
    flag is false and a confidence in [0.5, 1] when the flag is true. *)
Theorem confidence_matches_outcome :
  forall (senv : Sports.Env) (renv : Reddit.Env)
         (q : Sports.VerifyQuery) (question : string),
    Spec.returns (Sports.verifyResult senv q)
      (fun r => Spec.scored (Sports.verified r) (Sports.confidence r)) /\
    Spec.returns (Sports.askOracle senv question)
      (fun r => Spec.scored (Sports.verified r) (Sports.confidence r)) /\
    Spec.returns (Oracle.askOracle senv question)
      (fun r => Spec.scored (Sports.verified r) (Sports.confidence r)) /\
    Spec.returns (Reddit.askOracle renv question)
      (fun r => Spec.scored (Reddit.success r) (Reddit.confidence r)).
Proof.
  intros senv renv q question. repeat split.
  - apply sports_verifyResult_scored.
  - apply sports_askOracle_scored.
  - apply plain_askOracle_scored.
  - apply reddit_askOracle_scored.
Qed.

(** The entry points do return results of both kinds. *)
Example sports_returns_success :
  exists r w,
    Sports.askOracle Fixtures.sportsEnv Fixtures.lakersQuestion
                     Fixtures.freshSports = (Ret r, w) /\
    Sports.verified r = true /\ Sports.confidence r = 3 # 4.
Proof. eexists; eexists; split; [vm_compute; reflexivity | split; reflexivity]. Qed.

Example sports_returns_failure :
  exists r w,
    Sports.askOracle Fixtures.sportsEnv "who won?"
                     Fixtures.freshSports = (Ret r, w) /\
    Sports.verified r = false /\ Sports.confidence r = 0.
Proof. eexists; eexists; split; [vm_compute; reflexivity | split; reflexivity]. Qed.

Example reddit_returns_success :
  exists r w,
    Reddit.askOracle Fixtures.redditEnv Fixtures.wsbQuestion
                     Fixtures.freshReddit = (Ret r, w) /\
    Reddit.success r = true /\ Reddit.confidence r = 17 # 20.
Proof. eexists; eexists; split; [vm_compute; reflexivity | split; reflexivity]. Qed.

(* ------------------------------------------------------------------ *)
(** * The safety governor                                              *)
(* ------------------------------------------------------------------ *)

Local Open Scope string_scope.

Lemma filter_all_length {A : Type} (p : A -> bool) (l : list A) :
  List.length (filter p l) = List.length l <-> Forall (fun x => p x = true) l.
Proof.
  induction l as [| x l IH]; simpl.
  - split; [constructor | reflexivity].
  - destruct (p x) eqn:E; simpl.
    + split.
      * intros H. constructor; [exact E |]. apply IH. lia.
      * intros H. inversion H; subst. f_equal. apply IH. assumption.
    + split.
      * intros H. pose proof (filter_length_le p l). lia.
      * intros H. inversion H; subst. congruence.
Qed.

(** The test both [checkSafetyLimits] make, on any log. *)
Lemma breaker_condition {A : Type} (ok : A -> bool) (k : nat) (l : list A) :
  ((k <=? List.length (firstn k l))%nat &&
   (List.length (filter (fun q => negb (ok q)) (firstn k l)) =? k)%nat)%bool
  = true
  <-> Spec.lastAllFailed k (map ok l).
Proof.
  unfold Spec.lastAllFailed.
  rewrite andb_true_iff, Nat.leb_le, Nat.eqb_eq.
  rewrite firstn_map, length_map, Forall_map.
  set (recent := firstn k l).
  assert (Hlen : List.length recent = Nat.min k (List.length l))
    by apply length_firstn.
  split.
  - intros [Hk Hall]. split; [lia |].
    assert (Hfull : List.length (filter (fun q => negb (ok q)) recent)
                    = List.length recent) by lia.
    apply filter_all_length in Hfull.
    eapply Forall_impl; [| exact Hfull]. intros a Ha. cbv beta in Ha |- *.
    destruct (ok a); [discriminate | reflexivity].
  - intros [Hk Hall]. split; [lia |].
    assert (Hfull : List.length (filter (fun q => negb (ok q)) recent)
                    = List.length recent).
    { apply filter_all_length.
      eapply Forall_impl; [| exact Hall]. intros a Ha. cbv beta in Ha |- *.
      rewrite Ha. reflexivity. }
    lia.
Qed.

(** ** Sports *)

Lemma sports_tripped_iff (stats : Sports.Stats) :
  Sports.reason (Sports.checkStats stats) = Spec.tripped <->
  Spec.lastAllFailed 5 (map Sports.e_verified (Sports.recentQueries stats)).
Proof.
  rewrite <- breaker_condition. unfold Sports.checkStats.
  fold Sports.maxConsecutiveErrors.
  destruct (_ && _)%bool; simpl.
  - split; reflexivity.
  - destruct (Sports.maxQueriesPerDay <=? Sports.todayQueries stats)%Z; simpl;
      split; discriminate.
Qed.

Lemma sports_tripped_unsafe (stats : Sports.Stats) :
  Sports.reason (Sports.checkStats stats) = Spec.tripped ->
  Sports.safe (Sports.checkStats stats) = false.
Proof.
  unfold Sports.checkStats.
  destruct (_ && _)%bool; simpl; [reflexivity |].
  destruct (_ <=? _)%Z; simpl; [reflexivity | discriminate].
Qed.

(** When the breaker is closed, the check passes exactly below the
    daily limit. *)
Lemma sports_safe_iff (stats : Sports.Stats) :
  Sports.reason (Sports.checkStats stats) <> Spec.tripped ->
  (Sports.safe (Sports.checkStats stats) = true <->
   (Sports.todayQueries stats < Sports.maxQueriesPerDay)%Z).
Proof.
  unfold Sports.checkStats.
  destruct (_ && _)%bool; simpl; [intros H; exfalso; apply H; reflexivity |].
  intros _. destruct (Z.leb_spec Sports.maxQueriesPerDay (Sports.todayQueries stats));
    simpl; split; intros; try lia; try discriminate; reflexivity.
Qed.

Lemma sports_fresh_not_tripped (env : Sports.Env) (t : Z) :
  Sports.reason (Sports.checkStats (Sports.initialStats env t)) = None.
Proof. reflexivity. Qed.

(** A rejected request: the answer is the safety error and the world,
    with its stats file and its trace, is the one before the call. *)
Lemma sports_askOracle_rejected (env : Sports.Env) (question : string)
      (w : Sports.World) :
  Sports.safe (Sports.checkStats (Sports.currentStats env w)) = false ->
  Sports.askOracle env question w =
  (Ret (Sports.safetyResult (Sports.now w)
          (Sports.checkStats (Sports.currentStats env w))), w).
Proof.
  intros H.
  unfold Sports.askOracle, Sports.checkSafetyLimits, Sports.loadStats,
    bind, gets, ret.
  rewrite H. reflexivity.
Qed.

Lemma sports_logQuery_world (env : Sports.Env) (r : Sports.VerificationResult)
      (w : Sports.World) :
  Sports.logQuery env r w =
  (Ret tt,
   {| Sports.now := Sports.now w;
      Sports.statsFile :=
        Some (Sports.record env (Sports.now w) r (Sports.currentStats env w));
      Sports.trace := Sports.trace w |}).
Proof. reflexivity. Qed.

Lemma firstn_head_success {A : Type} (ok : A -> bool) (x : A) (l : list A)
      (k n : nat) :
  ok x = true -> (0 < k)%nat -> (0 < n)%nat ->
  ~ Spec.lastAllFailed k (map ok (firstn n (x :: l))).
Proof.
  intros Hx Hk Hn [_ Hall].
  destruct k as [| k]; [lia |]. destruct n as [| n]; [lia |].
  simpl in Hall. inversion Hall; subst. congruence.
Qed.

Lemma sports_success_closes (env : Sports.Env) (r : Sports.VerificationResult)
      (w : Sports.World) :
  Sports.verified r = true ->
  Sports.reason
    (Sports.checkStats
       (Sports.currentStats env (snd (Sports.logQuery env r w)))) <> Spec.tripped.
Proof.
  intros Hv. rewrite sports_logQuery_world. cbn [snd Sports.currentStats Sports.statsFile].
  rewrite sports_tripped_iff. unfold Sports.record. cbn [Sports.recentQueries].
  apply (firstn_head_success Sports.e_verified); [exact Hv | lia | lia].
Qed.

(** ** Reddit *)

Lemma reddit_tripped_iff (stats : Reddit.Stats) :
  Reddit.reason (Reddit.checkStats stats) = Spec.tripped <->
  Spec.lastAllFailed 5 (map Reddit.e_success (Reddit.recentQueries stats)).
Proof.
  rewrite <- breaker_condition. unfold Reddit.checkStats.
  fold Reddit.maxConsecutiveErrors.
  destruct (_ && _)%bool; simpl.
  - split; reflexivity.
  - destruct (Reddit.maxQueriesPerDay <=? Reddit.todayQueries stats)%Z; simpl;
      split; discriminate.
Qed.

Lemma reddit_tripped_unsafe (stats : Reddit.Stats) :
  Reddit.reason (Reddit.checkStats stats) = Spec.tripped ->
  Reddit.safe (Reddit.checkStats stats) = false.
Proof.
  unfold Reddit.checkStats.
  destruct (_ && _)%bool; simpl; [reflexivity |].
  destruct (_ <=? _)%Z; simpl; [reflexivity | discriminate].
Qed.

Lemma reddit_safe_iff (stats : Reddit.Stats) :
  Reddit.reason (Reddit.checkStats stats) <> Spec.tripped ->
  (Reddit.safe (Reddit.checkStats stats) = true <->
   (Reddit.todayQueries stats < Reddit.maxQueriesPerDay)%Z).
Proof.
  unfold Reddit.checkStats.
  destruct (_ && _)%bool; simpl; [intros H; exfalso; apply H; reflexivity |].
  intros _. destruct (Z.leb_spec Reddit.maxQueriesPerDay (Reddit.todayQueries stats));
    simpl; split; intros; try lia; try discriminate; reflexivity.
Qed.

Lemma reddit_askOracle_rejected (env : Reddit.Env) (question : string)
      (w : Reddit.World) :
  Reddit.safe (Reddit.checkStats (Reddit.currentStats env w)) = false ->
  Reddit.askOracle env question w =
  (Ret (Reddit.safetyResult (Reddit.now w)
          (Reddit.checkStats (Reddit.currentStats env w))), w).
Proof.
  intros H.
  unfold Reddit.askOracle, Reddit.checkSafetyLimits, Reddit.loadStats,
    bind, gets, ret.
  rewrite H. reflexivity.
Qed.

Lemma reddit_logQuery_world (env : Reddit.Env) (r : Reddit.VerificationResult)
      (w : Reddit.World) :
  Reddit.logQuery env r w =
  (Ret tt,
   {| Reddit.now := Reddit.now w;
      Reddit.statsFile :=
        Some (Reddit.record env (Reddit.now w) r (Reddit.currentStats env w));
      Reddit.lastRequestTime := Reddit.lastRequestTime w;
      Reddit.trace := Reddit.trace w |}).
Proof. reflexivity. Qed.

Lemma reddit_success_closes (env : Reddit.Env) (r : Reddit.VerificationResult)
      (w : Reddit.World) :
  Reddit.success r = true ->
  Reddit.reason
    (Reddit.checkStats
       (Reddit.currentStats env (snd (Reddit.logQuery env r w)))) <> Spec.tripped.
Proof.
  intros Hv. rewrite reddit_logQuery_world. cbn [snd Reddit.currentStats Reddit.statsFile].
  rewrite reddit_tripped_iff. unfold Reddit.record. cbn [Reddit.recentQueries].
  apply (firstn_head_success Reddit.e_success); [exact Hv | lia | lia].
Qed.

Lemma sports_tripped_stored (env : Sports.Env) (w : Sports.World) :
  Sports.reason (Sports.checkStats (Sports.currentStats env w)) = Spec.tripped ->
  exists stats, Sports.statsFile w = Some stats.
Proof.
  unfold Sports.currentStats. destruct (Sports.statsFile w) as [stats |].
  - intros _. exists stats. reflexivity.
  - rewrite sports_fresh_not_tripped. discriminate.
Qed.

Lemma reddit_tripped_stored (env : Reddit.Env) (w : Reddit.World) :
  Reddit.reason (Reddit.checkStats (Reddit.currentStats env w)) = Spec.tripped ->
  exists stats, Reddit.statsFile w = Some stats.
Proof.
  unfold Reddit.currentStats. destruct (Reddit.statsFile w) as [stats |].
  - intros _. exists stats. reflexivity.
  - discriminate.
Qed.

(** Under a tripped breaker a run of requests changes neither the stats
    file nor the trace, and answers each request with the safety error. *)
Lemma sports_serveAll_tripped (env : Sports.Env) :
  forall requests w,
    Sports.reason (Sports.checkStats (Sports.currentStats env w)) = Spec.tripped ->
    Sports.statsFile (snd (Sports.serveAll env requests w)) = Sports.statsFile w /\
    Sports.trace (snd (Sports.serveAll env requests w)) = Sports.trace w /\
    Forall (fun out => exists r, out = Ret r /\ Sports.verified r = false /\
                                 Sports.error r = Spec.tripped)
           (fst (Sports.serveAll env requests w)).
Proof.
  induction requests as [| [elapsed question] rest IH]; intros w Htrip.
  - simpl. repeat split; constructor.
  - destruct (sports_tripped_stored env w Htrip) as [stats Hfile].
    assert (Hcur : Sports.currentStats env (Sports.advance elapsed w)
                   = Sports.currentStats env w).
    { unfold Sports.currentStats, Sports.advance. simpl. rewrite Hfile. reflexivity. }
    assert (Htrip' : Sports.reason (Sports.checkStats
                       (Sports.currentStats env (Sports.advance elapsed w))) = Spec.tripped)
      by (rewrite Hcur; exact Htrip).
    cbn [Sports.serveAll].
    rewrite sports_askOracle_rejected by (apply sports_tripped_unsafe; exact Htrip').
    specialize (IH (Sports.advance elapsed w) Htrip').
    destruct (Sports.serveAll env rest (Sports.advance elapsed w)) as [rs w2].
    cbn [fst snd] in IH |- *. destruct IH as (Hf & Ht & Hall).
    repeat split.
    + rewrite Hf. reflexivity.
    + rewrite Ht. reflexivity.
    + constructor; [| exact Hall].
      eexists. split; [reflexivity |]. split; [reflexivity |]. exact Htrip'.
Qed.

Lemma reddit_serveAll_tripped (env : Reddit.Env) :
  forall requests w,
    Reddit.reason (Reddit.checkStats (Reddit.currentStats env w)) = Spec.tripped ->
    Reddit.statsFile (snd (Reddit.serveAll env requests w)) = Reddit.statsFile w /\
    Reddit.trace (snd (Reddit.serveAll env requests w)) = Reddit.trace w /\
    Forall (fun out => exists r, out = Ret r /\ Reddit.success r = false /\
                                 Reddit.error r = Spec.tripped)
           (fst (Reddit.serveAll env requests w)).
Proof.
  induction requests as [| [elapsed question] rest IH]; intros w Htrip.
  - simpl. repeat split; constructor.
  - destruct (reddit_tripped_stored env w Htrip) as [stats Hfile].
    assert (Hcur : Reddit.currentStats env (Reddit.advance elapsed w)
                   = Reddit.currentStats env w).
    { unfold Reddit.currentStats, Reddit.advance. simpl. rewrite Hfile. reflexivity. }
    assert (Htrip' : Reddit.reason (Reddit.checkStats
                       (Reddit.currentStats env (Reddit.advance elapsed w))) = Spec.tripped)
      by (rewrite Hcur; exact Htrip).
    cbn [Reddit.serveAll].
    rewrite reddit_askOracle_rejected by (apply reddit_tripped_unsafe; exact Htrip').
    specialize (IH (Reddit.advance elapsed w) Htrip').
    destruct (Reddit.serveAll env rest (Reddit.advance elapsed w)) as [rs w2].
    cbn [fst snd] in IH |- *. destruct IH as (Hf & Ht & Hall).
    repeat split.
    + rewrite Hf. reflexivity.
    + rewrite Ht. reflexivity.
    + constructor; [| exact Hall].
      eexists. split; [reflexivity |]. split; [reflexivity |]. exact Htrip'.
Qed.

(** C2, as the claim states it, fails: with five failures at the head of
    the log and 999 queries counted today the breaker is tripped; once a
    success is recorded the next pre-check still rejects, now because the
    daily limit of 1000 is reached. *)
Lemma breaker_cleared_quota_rejects :
  Sports.reason
    (Sports.checkStats
       (Sports.currentStats Fixtures.sportsEnv Fixtures.trippedSports))
  = Some "circuit_breaker_tripped" /\
  Sports.verified Fixtures.lakersWin = true /\
  option_map Sports.e_verified
    (hd_error
       (Sports.recentQueries
          (Sports.currentStats Fixtures.sportsEnv
             (snd (Sports.logQuery Fixtures.sportsEnv Fixtures.lakersWin
                     Fixtures.trippedSports)))))
  = Some true /\
  fst (Sports.checkSafetyLimits Fixtures.sportsEnv
         (snd (Sports.logQuery Fixtures.sportsEnv Fixtures.lakersWin
                 Fixtures.trippedSports)))
  = Ret {| Sports.safe := false;
           Sports.reason := Some "daily_limit_reached";
           Sports.check_message := Some "Daily query limit (1000) reached." |}.
Proof. repeat split. Qed.

(** C2, amended.  In both domains: the pre-check reports the breaker
    tripped exactly when the log holds at least 5 entries and the 5 most
    recent outcomes are all failures; when it is tripped, [askOracle]
    returns the safety error and leaves the world, and so the trace of
    outbound calls, as it was; and after a success is recorded the next
    pre-check no longer reports the breaker tripped and passes exactly
    when the day's count is below the daily limit. *)
Theorem breaker_trips_and_clears :
  forall (senv : Sports.Env) (renv : Reddit.Env),
    (forall stats,
        Sports.reason (Sports.checkStats stats)
        = Some "circuit_breaker_tripped" <->
        Spec.lastAllFailed 5
          (map Sports.e_verified (Sports.recentQueries stats))) /\
    (forall question w,
        Spec.lastAllFailed 5
          (map Sports.e_verified
               (Sports.recentQueries (Sports.currentStats senv w))) ->
        exists r,
          Sports.askOracle senv question w = (Ret r, w) /\
          Sports.verified r = false /\
          Sports.error r = Some "circuit_breaker_tripped" /\
          Sports.safetyTriggered r = true) /\
    (forall r w,
        Sports.verified r = true ->
        Sports.reason
          (Sports.checkStats
             (Sports.currentStats senv (snd (Sports.logQuery senv r w))))
        <> Some "circuit_breaker_tripped" /\
        (Sports.safe
           (Sports.checkStats
              (Sports.currentStats senv (snd (Sports.logQuery senv r w))))
         = true <->
         (Sports.todayQueries
            (Sports.currentStats senv (snd (Sports.logQuery senv r w)))
          < Sports.maxQueriesPerDay)%Z)) /\
    (forall stats,
        Reddit.reason (Reddit.checkStats stats)
        = Some "circuit_breaker_tripped" <->
        Spec.lastAllFailed 5
          (map Reddit.e_success (Reddit.recentQueries stats))) /\
    (forall question w,
        Spec.lastAllFailed 5
          (map Reddit.e_success
               (Reddit.recentQueries (Reddit.currentStats renv w))) ->
        exists r,
          Reddit.askOracle renv question w = (Ret r, w) /\
          Reddit.success r = false /\
          Reddit.error r = Some "circuit_breaker_tripped" /\
          Reddit.safetyTriggered r = true) /\
    (forall r w,
        Reddit.success r = true ->
        Reddit.reason
          (Reddit.checkStats
             (Reddit.currentStats renv (snd (Reddit.logQuery renv r w))))
        <> Some "circuit_breaker_tripped" /\
        (Reddit.safe
           (Reddit.checkStats
              (Reddit.currentStats renv (snd (Reddit.logQuery renv r w))))
         = true <->
         (Reddit.todayQueries
            (Reddit.currentStats renv (snd (Reddit.logQuery renv r w)))
          < Reddit.maxQueriesPerDay)%Z)).
Proof.
  intros senv renv. split; [| split; [| split; [| split; [| split]]]].
  - apply sports_tripped_iff.
  - intros question w Hlast. apply sports_tripped_iff in Hlast.
    eexists. split.
    + apply sports_askOracle_rejected, sports_tripped_unsafe, Hlast.
    + split; [reflexivity |]. split; [exact Hlast | reflexivity].
  - intros r w Hv.
    pose proof (sports_success_closes senv r w Hv) as Hclosed.
    split; [exact Hclosed | apply sports_safe_iff, Hclosed].
  - apply reddit_tripped_iff.
  - intros question w Hlast. apply reddit_tripped_iff in Hlast.
    eexists. split.
    + apply reddit_askOracle_rejected, reddit_tripped_unsafe, Hlast.
    + split; [reflexivity |]. split; [exact Hlast | reflexivity].
  - intros r w Hv.
    pose proof (reddit_success_closes renv r w Hv) as Hclosed.
    split; [exact Hclosed | apply reddit_safe_iff, Hclosed].
Qed.

(** The breaker does trip and does clear: the three parts of
    [breaker_trips_and_clears] at a concrete world. *)
Example breaker_trips_and_clears_at_work :
  Spec.lastAllFailed 5
    (map Sports.e_verified
         (Sports.recentQueries
            (Sports.currentStats Fixtures.sportsEnv Fixtures.trippedSports))) /\
  Sports.trace
    (snd (Sports.askOracle Fixtures.sportsEnv Fixtures.lakersQuestion
            Fixtures.trippedSports)) = [] /\
  Reddit.safe
    (Reddit.checkStats
       (Reddit.currentStats Fixtures.redditEnv
          (snd (Reddit.logQuery Fixtures.redditEnv
                  {| Reddit.success := true; Reddit.confidence := 17 # 20;
                     Reddit.error := None; Reddit.message := None;
                     Reddit.suggestion := None;
                     Reddit.safetyTriggered := false; Reddit.data := None;
                     Reddit.r_subreddit := Some "wallstreetbets";
                     Reddit.queryType := Some Reddit.HOT;
                     Reddit.query := None; Reddit.parsed := None;
                     Reddit.sources := ["reddit"];
                     Reddit.timestamp := "2026-11-02T19:24:00.123Z" |}
                  Fixtures.trippedReddit)))) = true.
Proof.
  split; [| split].
  - split; [simpl; lia | repeat constructor].
  - reflexivity.
  - reflexivity.
Qed.

(** C10.  In both domains a request the pre-check rejects (breaker
    tripped or daily limit reached) is answered with the safety error
    and leaves the whole world, stats file included, as it was; hence
    from a tripped breaker any run of [askOracle] calls, whatever the
    questions and the time between them, records nothing, sends
    nothing, answers only safety errors and ends with the breaker still
    tripped. *)
Theorem rejected_requests_record_nothing :
  forall (senv : Sports.Env) (renv : Reddit.Env),
    (forall question w,
        Sports.safe (Sports.checkStats (Sports.currentStats senv w)) = false ->
        Sports.askOracle senv question w =
        (Ret (Sports.safetyResult (Sports.now w)
                (Sports.checkStats (Sports.currentStats senv w))), w)) /\
    (forall requests w,
        Sports.reason (Sports.checkStats (Sports.currentStats senv w))
        = Some "circuit_breaker_tripped" ->
        Sports.statsFile (snd (Sports.serveAll senv requests w))
        = Sports.statsFile w /\
        Sports.trace (snd (Sports.serveAll senv requests w))
        = Sports.trace w /\
        Forall (fun out => exists r, out = Ret r /\
                                     Sports.verified r = false /\
                                     Sports.error r
                                     = Some "circuit_breaker_tripped")
               (fst (Sports.serveAll senv requests w)) /\
        Sports.reason
          (Sports.checkStats
             (Sports.currentStats senv (snd (Sports.serveAll senv requests w))))
        = Some "circuit_breaker_tripped") /\
    (forall question w,
        Reddit.safe (Reddit.checkStats (Reddit.currentStats renv w)) = false ->
        Reddit.askOracle renv question w =
        (Ret (Reddit.safetyResult (Reddit.now w)
                (Reddit.checkStats (Reddit.currentStats renv w))), w)) /\
    (forall requests w,
        Reddit.reason (Reddit.checkStats (Reddit.currentStats renv w))
        = Some "circuit_breaker_tripped" ->
        Reddit.statsFile (snd (Reddit.serveAll renv requests w))
        = Reddit.statsFile w /\
        Reddit.trace (snd (Reddit.serveAll renv requests w))
        = Reddit.trace w /\
        Forall (fun out => exists r, out = Ret r /\
                                     Reddit.success r = false /\
                                     Reddit.error r
                                     = Some "circuit_breaker_tripped")
               (fst (Reddit.serveAll renv requests w)) /\
        Reddit.reason
          (Reddit.checkStats
             (Reddit.currentStats renv (snd (Reddit.serveAll renv requests w))))
        = Some "circuit_breaker_tripped").
Proof.
  intros senv renv. split; [| split; [| split]].
  - intros question w. apply sports_askOracle_rejected.
  - intros requests w Htrip.
    destruct (sports_serveAll_tripped senv requests w Htrip) as (Hf & Ht & Hall).
    repeat split; try assumption.
    destruct (sports_tripped_stored senv w Htrip) as [stats Hfile].
    unfold Sports.currentStats in Htrip |- *. rewrite Hf.
    rewrite Hfile in Htrip |- *. exact Htrip.
  - intros question w. apply reddit_askOracle_rejected.
  - intros requests w Htrip.
    destruct (reddit_serveAll_tripped renv requests w Htrip) as (Hf & Ht & Hall).
    repeat split; try assumption.
    destruct (reddit_tripped_stored renv w Htrip) as [stats Hfile].
    unfold Reddit.currentStats in Htrip |- *. rewrite Hf.
    rewrite Hfile in Htrip |- *. exact Htrip.
Qed.

(** A run of three requests, a day apart, against the tripped breaker. *)
Example tripped_stays_tripped :
  Sports.serveAll Fixtures.sportsEnv
    [(0, Fixtures.lakersQuestion); (86400000, "Did the Celtics win today?");
     (86400000, Fixtures.lakersQuestion)]%Z
    Fixtures.trippedSports
  = ([Ret (Sports.safetyResult Fixtures.t0
             (Sports.checkStats Fixtures.trippedNearQuota));
      Ret (Sports.safetyResult (Fixtures.t0 + 86400000)
             (Sports.checkStats Fixtures.trippedNearQuota));
      Ret (Sports.safetyResult (Fixtures.t0 + 172800000)
             (Sports.checkStats Fixtures.trippedNearQuota))],
     {| Sports.now := (Fixtures.t0 + 172800000)%Z;
        Sports.statsFile := Some Fixtures.trippedNearQuota;
        Sports.trace := [] |}).
Proof. reflexivity. Qed.

(* ------------------------------------------------------------------ *)
(** * The daily counters                                               *)
(* ------------------------------------------------------------------ *)

Lemma getHours_range (tz t : Z) : (0 <= getHours tz t <= 23)%Z.
Proof.
  unfold getHours.
  pose proof (Z.mod_pos_bound (localMs tz t / 3600000) 24) as H. lia.
Qed.

Lemma sports_record_daily (env : Sports.Env) (t : Z)
      (r : Sports.VerificationResult) (stats : Sports.Stats) :
  Spec.dailyStep (Sports.tz env) t (Spec.sportsDaily stats)
                 (Spec.sportsDaily (Sports.record env t r stats)).
Proof.
  unfold Spec.dailyStep, Spec.sportsDaily, Sports.record.
  pose proof (getHours_range (Sports.tz env) t) as Hhour.
  generalize dependent (getHours (Sports.tz env) t).
  generalize (toDateString (Sports.tz env) t).
  intros today hour Hhour.
  cbn [Spec.d_today Spec.d_hourly Spec.d_lastReset
       Sports.todayQueries Sports.hourlyData Sports.lastReset].
  split; [exact Hhour |].
  destruct (String.eqb_spec (Sports.lastReset stats) today) as [Heq | Hne];
    cbn [negb]; split; intros H; try contradiction; repeat split; reflexivity.
Qed.

Lemma reddit_record_daily (env : Reddit.Env) (t : Z)
      (r : Reddit.VerificationResult) (stats : Reddit.Stats) :
  Spec.dailyStep (Reddit.tz env) t (Spec.redditDaily stats)
                 (Spec.redditDaily (Reddit.record env t r stats)).
Proof.
  unfold Spec.dailyStep, Spec.redditDaily, Reddit.record.
  pose proof (getHours_range (Reddit.tz env) t) as Hhour.
  generalize dependent (getHours (Reddit.tz env) t).
  generalize (toDateString (Reddit.tz env) t).
  intros today hour Hhour.
  cbn [Spec.d_today Spec.d_hourly Spec.d_lastReset
       Reddit.todayQueries Reddit.hourlyData Reddit.lastReset].
  split; [exact Hhour |].
  destruct (String.eqb_spec (Reddit.lastReset stats) today) as [Heq | Hne];
    cbn [negb]; split; intros H; try contradiction; repeat split; reflexivity.
Qed.

(** C5.  In both domains [logQuery] stores a document whose daily part
    follows [Spec.dailyStep]: today's count and the histogram restart
    from 0 and from 24 zero buckets exactly when the stored [lastReset]
    differs from the current date, whatever the counts are, and the
    bucket incremented is the current hour of the day, between 0 and 23. *)
Theorem daily_counters_reset_on_new_day :
  forall (senv : Sports.Env) (renv : Reddit.Env)
         (sr : Sports.VerificationResult) (sw : Sports.World)
         (rr : Reddit.VerificationResult) (rw : Reddit.World),
    (exists after,
        Sports.statsFile (snd (Sports.logQuery senv sr sw)) = Some after /\
        Spec.dailyStep (Sports.tz senv) (Sports.now sw)
          (Spec.sportsDaily (Sports.currentStats senv sw))
          (Spec.sportsDaily after)) /\
    (exists after,
        Reddit.statsFile (snd (Reddit.logQuery renv rr rw)) = Some after /\
        Spec.dailyStep (Reddit.tz renv) (Reddit.now rw)
          (Spec.redditDaily (Reddit.currentStats renv rw))
          (Spec.redditDaily after)).
Proof.
  intros senv renv sr sw rr rw. split.
  - rewrite sports_logQuery_world. eexists. split; [reflexivity |].
    apply sports_record_daily.
  - rewrite reddit_logQuery_world. eexists. split; [reflexivity |].
    apply reddit_record_daily.
Qed.

(** A recording on the day after [lastReset], and one on the same day. *)
Example reset_on_the_next_day :
  option_map Spec.sportsDaily
    (Sports.statsFile
       (snd (Sports.logQuery Fixtures.sportsEnv Fixtures.lakersWin
               (Sports.advance 86400000
                               Fixtures.trippedSports))))
  = Some {| Spec.d_today := 1;
            Spec.d_hourly :=
              repeat (Some 0%Z) 19 ++ [Some 1%Z] ++ repeat (Some 0%Z) 4;
            Spec.d_lastReset := "Tue Nov 03 2026" |}.
Proof. reflexivity. Qed.

Example no_reset_on_the_same_day :
  option_map Spec.sportsDaily
    (Sports.statsFile
       (snd (Sports.logQuery Fixtures.sportsEnv Fixtures.lakersWin
               Fixtures.trippedSports)))
  = Some {| Spec.d_today := 1000;
            Spec.d_hourly :=
              repeat (Some 0%Z) 19 ++ [Some 1000%Z] ++ repeat (Some 0%Z) 4;
            Spec.d_lastReset := "Mon Nov 02 2026" |}.
Proof. reflexivity. Qed.

(* ------------------------------------------------------------------ *)
(** * The question parsers                                             *)
(* ------------------------------------------------------------------ *)

Lemma teamsOf_fuel (question : string) (fuel : nat) :
  (2 + String.length question <= fuel)%nat ->
  Sports.collectTeams fuel question 0 = Sports.teamsOf question.
Proof.
  intros H. unfold Sports.teamsOf. apply collectTeams_fuel; lia.
Qed.

Lemma orNull_none (v : option string) : v = None -> orNull v = None.
Proof. intros ->. reflexivity. Qed.

(** The three fields the reddit parser fills by cases. *)
Lemma reddit_parse_cases (question : string) :
  let p := Reddit.parseQuestion question in
  (Reddit.type p <> Reddit.SEARCH -> Reddit.keyword p = None) /\
  (Reddit.type p = Reddit.SEARCH ->
   matchRe Reddit.searchPattern question = None -> Reddit.keyword p = None) /\
  (Reddit.type p <> Reddit.POST -> Reddit.postId p = VNull).
Proof.
  unfold Reddit.parseQuestion.
  generalize (matchRe Reddit.searchPattern question)
             (matchRe Reddit.urlPattern question)
             (matchRe Reddit.idPattern question)
             (matchRe Reddit.longTokenPattern question)
             (matchRe Reddit.limitPattern question)
             (Reddit.firstGroup Reddit.subredditPatterns question).
  intros ms mu mi ml mlim sub.
  destruct (Reddit.anyIncluded ["hot"; "trending"; "popular"] _);
    [cbn; repeat split; intros; congruence |].
  destruct (Reddit.anyIncluded ["new"; "latest"; "recent"] _);
    [cbn; repeat split; intros; congruence |].
  destruct (Reddit.anyIncluded ["top"; "best"] _);
    [cbn; repeat split; intros; congruence |].
  destruct (Reddit.anyIncluded ["search"; "find"; "looking for"] _).
  { cbn. repeat split; intros; subst; try congruence; reflexivity. }
  destruct (_ && _)%bool.
  { cbn. repeat split; intros; subst; try congruence; reflexivity. }
  cbn; repeat split; intros; congruence.
Qed.

(** C6, as the claim states it, fails on the sports date: no date can be
    resolved from the text below, and the returned query carries the
    current date (here 2026-11-02) instead of null. *)
Lemma sports_date_defaults_to_today :
  Sports.firstDate Fixtures.sportsEnv Fixtures.t0 Sports.datePatterns
                   "Who won?" = None /\
  Sports.parseQuestion Fixtures.sportsEnv Fixtures.t0 "Who won?"
  = {| Sports.team := None;
       Sports.opponent := None;
       Sports.date := "2026-11-02";
       Sports.originalQuestion := "Who won?" |}.
Proof. split; vm_compute; reflexivity. Qed.

(** C6, amended.  Both parsers return a query for every text (the loop
    over the team matches ends: more fuel changes nothing).  A team, an
    opponent, a subreddit or a keyword that cannot be resolved is null,
    and [postId] is null outside post queries; the sports date is never
    missing: when no date phrase is found it is the current UTC date. *)
Theorem parse_unresolved_fields :
  forall (env : Sports.Env) (t : Z) (question : string),
    (forall fuel, (2 + String.length question <= fuel)%nat ->
                  Sports.collectTeams fuel question 0
                  = Sports.teamsOf question) /\
    (nth_error (Sports.teamsOf question) 0 = None ->
     Sports.team (Sports.parseQuestion env t question) = None) /\
    (nth_error (Sports.teamsOf question) 1 = None ->
     Sports.opponent (Sports.parseQuestion env t question) = None) /\
    (Sports.firstDate env t Sports.datePatterns question = None ->
     Sports.date (Sports.parseQuestion env t question) = isoDate t) /\
    (Reddit.firstGroup Reddit.subredditPatterns question = None ->
     Reddit.subreddit (Reddit.parseQuestion question) = None) /\
    (Reddit.type (Reddit.parseQuestion question) <> Reddit.SEARCH ->
     Reddit.keyword (Reddit.parseQuestion question) = None) /\
    (Reddit.type (Reddit.parseQuestion question) = Reddit.SEARCH ->
     matchRe Reddit.searchPattern question = None ->
     Reddit.keyword (Reddit.parseQuestion question) = None) /\
    (Reddit.type (Reddit.parseQuestion question) <> Reddit.POST ->
     Reddit.postId (Reddit.parseQuestion question) = VNull).
Proof.
  intros env t question.
  split; [intros fuel; apply teamsOf_fuel |].
  split; [intros H; unfold Sports.parseQuestion; cbn [Sports.team];
          rewrite H; reflexivity |].
  split; [intros H; unfold Sports.parseQuestion; cbn [Sports.opponent];
          rewrite H; reflexivity |].
  split; [intros H; unfold Sports.parseQuestion; cbn [Sports.date];
          rewrite H; reflexivity |].
  split.
  { intros H. unfold Reddit.parseQuestion.
    destruct (if Reddit.anyIncluded _ _ then _ else _) as [[ty pid] kw].
    cbn [Reddit.subreddit]. exact H. }
  destruct (reddit_parse_cases question) as (Hkw & Hsearch & Hpost).
  split; [exact Hkw |]. split; [exact Hsearch | exact Hpost].
Qed.

(** Each case of [parse_unresolved_fields] occurs. *)
Example unresolved_fields_at_work :
  Sports.parseQuestion Fixtures.sportsEnv Fixtures.t0 "who won?"
  = {| Sports.team := None; Sports.opponent := None;
       Sports.date := "2026-11-02";
       Sports.originalQuestion := "who won?" |} /\
  Reddit.parseQuestion "anything going on?"
  = {| Reddit.type := Reddit.HOT; Reddit.subreddit := None;
       Reddit.postId := VNull; Reddit.keyword := None;
       Reddit.limit := 10; Reddit.originalQuestion := "anything going on?" |}.
Proof. split; vm_compute; reflexivity. Qed.

(** Left out of the statement above: a post query whose only
    long word has more than eight characters.  No id is found, and
    [postId] is [undefined]. *)
Example post_query_without_id :
  Reddit.type (Reddit.parseQuestion "post abcdefghijk") = Reddit.POST /\
  Reddit.postId (Reddit.parseQuestion "post abcdefghijk") = VUndefined.
Proof. split; vm_compute; reflexivity. Qed.

(** C9.  The sports parser reads team "Lakers" and date "2026-01-19" from
    the first example, and [normalizeTeamName] turns "Lakers" into
    "Los Angeles Lakers", which is the team [askOracle] goes on with; the
    reddit parser reads subreddit "wallstreetbets" and type [hot] from
    the second. *)
Theorem parse_examples :
  forall (env : Sports.Env) (t : Z),
    Sports.parseQuestion env t "Who won the Lakers game on 2026-01-19?"
    = {| Sports.team := Some "Lakers";
         Sports.opponent := None;
         Sports.date := "2026-01-19";
         Sports.originalQuestion := "Who won the Lakers game on 2026-01-19?" |} /\
    Sports.normalizeTeamName "Lakers" = Sports.Named "Los Angeles Lakers" /\
    Sports.q_team
      (Sports.normalizeQuery
         (Sports.parseQuestion env t "Who won the Lakers game on 2026-01-19?"))
    = Some (Sports.Named "Los Angeles Lakers") /\
    Reddit.parseQuestion "What's hot on r/wallstreetbets?"
    = {| Reddit.type := Reddit.HOT;
         Reddit.subreddit := Some "wallstreetbets";
         Reddit.postId := VNull;
         Reddit.keyword := None;
         Reddit.limit := 10;
         Reddit.originalQuestion := "What's hot on r/wallstreetbets?" |} /\
    Reddit.typeName (Reddit.type
                       (Reddit.parseQuestion "What's hot on r/wallstreetbets?"))
    = "hot".
Proof. intros env t. repeat split; vm_compute; reflexivity. Qed.

(* ------------------------------------------------------------------ *)
(** * The outbound calls of the source adapters                        *)
(* ------------------------------------------------------------------ *)

Local Open Scope Z_scope.

(** What [querySportsDB] sends: the team search at the time of the call
    and, when a team is found, the events request at the moment the
    first answer is in. *)
Lemma querySportsDB_trace (env : Sports.Env) (teamName : option Sports.Name)
      (date_ : string) (w : Sports.World) :
  let search :=
    Sports.plainGet (Sports.SPORTSDB_BASE ++ "/searchteams.php?t=" ++
                     encodeURIComponent (Sports.showArg teamName)) in
  let arrival := Sports.now w + Z.max 0 (Sports.latency env search (Sports.now w)) in
  exists rest,
    Sports.trace (snd (Sports.querySportsDB env teamName date_ w))
    = (Sports.trace w ++ Outbound search (Sports.now w) :: rest)%list /\
    (rest = [] \/
     exists teamId,
       rest = [Outbound (Sports.plainGet (Sports.SPORTSDB_BASE ++
                                          "/eventslast.php?id=" ++ teamId))
                        arrival]).
Proof.
  intros search arrival.
  unfold Sports.querySportsDB, bind. fold search.
  unfold Sports.httpGet at 1. cbn [fst snd Sports.now Sports.trace].
  destruct (Sports.searchteams env search (Sports.now w))
    as [[[| team0 teams] |] | status msg];
    try (exists []; split; [reflexivity | left; reflexivity]).
  unfold Sports.httpGet. cbn [fst snd Sports.now Sports.trace Sports.statsFile].
  fold arrival.
  destruct (Sports.eventslast env _ arrival) as [[results |] | status msg];
    [destruct (find _ results) | |];
    ( eexists; split;
      [ cbn [snd Sports.trace Eff.ret]; rewrite <- app_assoc; reflexivity
      | right; eexists; reflexivity ] ).
Qed.

(** What the three reddit adapters send: after [enforceRateLimit], one
    request that carries the user agent and a 10 s timeout. *)
Lemma redditGet_timeout (u : string) :
  timeout (Reddit.redditGet u) = Some 10000.
Proof. reflexivity. Qed.

(** C7.  The claim holds for the reddit adapter and not for the sports
    adapter.  Every request [querySportsDB] sends (it always sends the
    team search, and the events request when a team is found) is built
    by [plainGet] and has no timeout, whatever the provider, the team and
    the date; at the example question the two requests go out without
    one, while the reddit listing request carries 10000 ms. *)
Theorem sports_adapter_sets_no_timeout :
  (forall (env : Sports.Env) (teamName : option Sports.Name) (date_ : string)
          (w : Sports.World),
      exists sent,
        Sports.trace (snd (Sports.querySportsDB env teamName date_ w))
        = (Sports.trace w ++ sent)%list /\
        sent <> [] /\
        Forall (fun e => option_map timeout (requestOf e) = Some None) sent) /\
  map (fun e => option_map timeout (requestOf e))
      (Sports.trace
         (snd (Sports.askOracle Fixtures.sportsEnv Fixtures.lakersQuestion
                                Fixtures.freshSports)))
  = [Some None; Some None] /\
  map (fun e => option_map timeout (requestOf e))
      (filter isOutbound
         (Reddit.trace
            (snd (Reddit.askOracle Fixtures.redditEnv Fixtures.wsbQuestion
                                   Fixtures.freshReddit))))
  = [Some (Some 10000)].
Proof.
  split; [| split; reflexivity].
  intros env teamName date_ w.
  destruct (querySportsDB_trace env teamName date_ w) as (rest & Htrace & Hrest).
  eexists. split; [exact Htrace |]. split; [discriminate |].
  destruct Hrest as [-> | [teamId ->]]; repeat constructor.
Qed.

(** C8.  The claim holds for the reddit adapter and not for the sports
    adapter.  [querySportsDB] never waits: everything it does towards
    the outside is an outbound call, and its second call leaves at the
    moment the first answer arrives.  At the example question, with a
    provider that answers in 35 ms, the two calls are 35 ms apart; the
    reddit adapter, asked 500 ms after its previous call, first waits
    the missing 1500 ms. *)
Theorem sports_adapter_is_not_paced :
  (forall (env : Sports.Env) (teamName : option Sports.Name) (date_ : string)
          (w : Sports.World),
      exists sent,
        Sports.trace (snd (Sports.querySportsDB env teamName date_ w))
        = (Sports.trace w ++ sent)%list /\
        Forall (fun e => isSleep e = false) sent /\
        forall first second,
          sent = [first; second] ->
          timeOf second
          = timeOf first +
            Z.max 0 (Sports.latency env
                       (Sports.plainGet
                          (Sports.SPORTSDB_BASE ++ "/searchteams.php?t=" ++
                           encodeURIComponent (Sports.showArg teamName)))
                       (Sports.now w))) /\
  map (fun e => (isSleep e, timeOf e - Fixtures.t0))
      (Sports.trace
         (snd (Sports.askOracle Fixtures.sportsEnv Fixtures.lakersQuestion
                                Fixtures.freshSports)))
  = [(false, 0); (false, 35)] /\
  map (fun e => (isSleep e, timeOf e - Fixtures.t0))
      (Reddit.trace
         (snd (Reddit.askOracle Fixtures.redditEnv Fixtures.wsbQuestion
                 {| Reddit.now := Fixtures.t0;
                    Reddit.statsFile := None;
                    Reddit.lastRequestTime := Fixtures.t0 - 500;
                    Reddit.trace := [] |})))
  = [(true, 0); (false, 1500)].
Proof.
  split; [| split; reflexivity].
  intros env teamName date_ w.
  destruct (querySportsDB_trace env teamName date_ w) as (rest & Htrace & Hrest).
  eexists. split; [exact Htrace |].
  destruct Hrest as [-> | [teamId ->]].
  - split; [repeat constructor | discriminate].
  - split; [repeat constructor |].
    intros first second Heq. inversion Heq; subst. reflexivity.
Qed.

(** [enforceRateLimit] ends no earlier than [requestDelayMs] after the
    previous call, and notes its own end as the time of the new call. *)
Lemma enforceRateLimit_world (env : Reddit.Env) (w : Reddit.World) :
  exists waited w',
    Reddit.enforceRateLimit w = (Ret tt, w') /\
    Reddit.trace w' = (Reddit.trace w ++ waited)%list /\
    Forall (fun e => isSleep e = true) waited /\
    Reddit.statsFile w' = Reddit.statsFile w /\
    Reddit.lastRequestTime w' = Reddit.now w' /\
    Reddit.lastRequestTime w + Reddit.requestDelayMs <= Reddit.now w' /\
    Reddit.now w <= Reddit.now w'.
Proof.
  unfold Reddit.enforceRateLimit, bind, gets, modify, Reddit.sleep.
  cbn [fst snd].
  destruct (Z.ltb_spec (Reddit.now w - Reddit.lastRequestTime w)
                       Reddit.requestDelayMs) as [Hlt | Hge].
  - exists [Sleep (Reddit.requestDelayMs
                   - (Reddit.now w - Reddit.lastRequestTime w)) (Reddit.now w)].
    eexists. split; [reflexivity |].
    cbn [Reddit.now Reddit.trace Reddit.statsFile Reddit.lastRequestTime].
    split; [reflexivity |]. split; [repeat constructor |].
    split; [reflexivity |]. split; [reflexivity |]. lia.
  - exists []. eexists. split; [reflexivity |].
    cbn [Reddit.now Reddit.trace Reddit.statsFile Reddit.lastRequestTime].
    rewrite app_nil_r.
    split; [reflexivity |]. split; [constructor |].
    split; [reflexivity |]. split; [reflexivity |]. lia.
Qed.


(** Proves the shape of an adapter's trace from [enforceRateLimit_world]. *)
Ltac paced_adapter env w respond :=
  let waited := fresh "waited" in
  let w' := fresh "w'" in
  let Hrun := fresh "Hrun" in
  let Htrace := fresh "Htrace" in
  let Hwaited := fresh "Hwaited" in
  let Hlast := fresh "Hlast" in
  let Hpaced := fresh "Hpaced" in
  destruct (enforceRateLimit_world env w)
    as (waited & w' & Hrun & Htrace & Hwaited & _ & Hlast & Hpaced & _);
  exists waited, (Reddit.now w');
  eexists;
  unfold bind; rewrite Hrun;
  unfold Reddit.httpGet; cbn [fst snd];
  match goal with
  | |- context [respond ?req ?t] => destruct (respond req t) as [[?|]|? ?]
  end;
  repeat match goal with
         | |- context [if ?b then _ else _] => destruct b
         | |- context [match ?p with (_, _) => _ end] => destruct p
         | |- context [match ?o with Some _ => _ | None => _ end] => destruct o
         end;
  cbn [snd ret Reddit.trace Reddit.lastRequestTime];
  rewrite Htrace, <- app_assoc;
  (split; [reflexivity |]); (split; [exact Hwaited |]);
  (split; [reflexivity |]); (split; [exact Hpaced | exact Hlast]).

(** Each reddit adapter waits if needed, then sends one request with the
    10 s timeout, no earlier than [requestDelayMs] after the previous
    call, and notes the time of this call. *)
Lemma fetchSubreddit_trace (env : Reddit.Env) (sub sort : string) (lim : Z)
      (w : Reddit.World) :
  exists waited at_ req,
    Reddit.trace (snd (Reddit.fetchSubreddit env sub sort lim w))
    = (Reddit.trace w ++ waited ++ [Outbound req at_])%list /\
    Forall (fun e => isSleep e = true) waited /\
    timeout req = Some 10000 /\
    Reddit.lastRequestTime w + Reddit.requestDelayMs <= at_ /\
    Reddit.lastRequestTime (snd (Reddit.fetchSubreddit env sub sort lim w)) = at_.
Proof.
  unfold Reddit.fetchSubreddit. paced_adapter env w (Reddit.listing env).
Qed.

Lemma fetchPost_trace (env : Reddit.Env) (sub id : string) (w : Reddit.World) :
  exists waited at_ req,
    Reddit.trace (snd (Reddit.fetchPost env sub id w))
    = (Reddit.trace w ++ waited ++ [Outbound req at_])%list /\
    Forall (fun e => isSleep e = true) waited /\
    timeout req = Some 10000 /\
    Reddit.lastRequestTime w + Reddit.requestDelayMs <= at_ /\
    Reddit.lastRequestTime (snd (Reddit.fetchPost env sub id w)) = at_.
Proof.
  unfold Reddit.fetchPost. paced_adapter env w (Reddit.comments env).
Qed.

Lemma searchSubreddit_trace (env : Reddit.Env) (sub q : string) (lim : Z)
      (w : Reddit.World) :
  exists waited at_ req,
    Reddit.trace (snd (Reddit.searchSubreddit env sub q lim w))
    = (Reddit.trace w ++ waited ++ [Outbound req at_])%list /\
    Forall (fun e => isSleep e = true) waited /\
    timeout req = Some 10000 /\
    Reddit.lastRequestTime w + Reddit.requestDelayMs <= at_ /\
    Reddit.lastRequestTime (snd (Reddit.searchSubreddit env sub q lim w)) = at_.
Proof.
  unfold Reddit.searchSubreddit. paced_adapter env w (Reddit.search env).
Qed.

(* ------------------------------------------------------------------ *)
(** * The payment gate                                                 *)
(* ------------------------------------------------------------------ *)

Section Gate.
Variables W R : Type.
Variable payments : Server.Facilitator.
Variable config : Server.Config W R.

Lemma missing_credential_402 (req : Server.IncomingMessage)
      (w : Server.World W) :
  orNull (Server.x402Token (Server.headers req)) = None ->
  Server.handleOracleRequest payments req config w
  = (Ret (Spec.paymentRequired402 config), w).
Proof.
  intros H. unfold Server.handleOracleRequest. rewrite H. reflexivity.
Qed.

Lemma unverified_credential_401 (req : Server.IncomingMessage)
      (w : Server.World W) (token question : string) :
  orNull (Server.x402Token (Server.headers req)) = Some token ->
  Server.body req = Server.BodyQuestion question ->
  truthy question = true ->
  Server.verifyPermissions payments (Server.paymentRequiredOf config) token 1
  <> Server.Verified true ->
  exists error message,
    Server.handleOracleRequest payments req config w
    = (Ret {| Server.statusCode := 401;
              Server.json :=
                Server.ErrorBody R error message
                  (Some (Server.purchaseUrlOf (Server.agentId config)))
                  None |},
       {| Server.oracleWorld := Server.oracleWorld w;
          Server.paymentCalls :=
            (Server.paymentCalls w ++ [Server.VerifyCall token 1])%list |}).
Proof.
  intros Htoken Hbody Hq Hverify.
  unfold Server.handleOracleRequest. rewrite Htoken, Hbody, Hq.
  cbn [negb]. unfold bind, Server.callVerify. fold (Server.paymentRequiredOf config).
  destruct (Server.verifyPermissions payments (Server.paymentRequiredOf config) token 1)
    as [[|] | msg].
  - exfalso. apply Hverify. reflexivity.
  - eexists; eexists; reflexivity.
  - eexists; eexists; reflexivity.
Qed.

(** With a credential, the body is judged before the facilitator is
    asked. *)
Lemma malformed_body_400 (req : Server.IncomingMessage)
      (w : Server.World W) (token : string) :
  orNull (Server.x402Token (Server.headers req)) = Some token ->
  Server.body req = Server.BodyInvalid ->
  Server.handleOracleRequest payments req config w
  = (Ret {| Server.statusCode := 400;
            Server.json :=
              Server.ErrorBody R "invalid_json"
                "Request body must be valid JSON" None None |},
     w).
Proof.
  intros Htoken Hbody. unfold Server.handleOracleRequest.
  rewrite Htoken, Hbody. reflexivity.
Qed.

Lemma missing_question_400 (req : Server.IncomingMessage)
      (w : Server.World W) (token : string) :
  orNull (Server.x402Token (Server.headers req)) = Some token ->
  Server.body req = Server.BodyNoQuestion \/
  (exists question,
      Server.body req = Server.BodyQuestion question /\
      truthy question = false) ->
  Server.handleOracleRequest payments req config w
  = (Ret {| Server.statusCode := 400;
            Server.json :=
              Server.ErrorBody R "missing_question"
                Server.missingQuestionMessage None None |},
     w).
Proof.
  intros Htoken [Hbody | (question & Hbody & Hq)];
    unfold Server.handleOracleRequest; rewrite Htoken, Hbody;
    [| rewrite Hq]; reflexivity.
Qed.

(** Whatever the body, an unpaid request does not run the oracle, is
    not settled and is not answered with 200. *)
Lemma unpaid_runs_no_oracle (req : Server.IncomingMessage)
      (w : Server.World W) :
  Spec.unpaid payments config req ->
  Server.oracleWorld
    (snd (Server.handleOracleRequest payments req config w))
  = Server.oracleWorld w /\
  filter Server.isSettle
    (Server.paymentCalls
       (snd (Server.handleOracleRequest payments req config w)))
  = filter Server.isSettle (Server.paymentCalls w) /\
  match fst (Server.handleOracleRequest payments req config w) with
  | Ret response => Server.statusCode response <> 200
  | Throw _ => True
  end.
Proof.
  unfold Spec.unpaid, Server.handleOracleRequest.
  destruct (orNull (Server.x402Token (Server.headers req))) as [token |].
  2: { intros _. cbn. repeat split; lia. }
  intros Hverify.
  destruct (Server.body req) as [| | | question];
    try (cbn; repeat split; lia).
  destruct (truthy question); cbn [negb]; [| cbn; repeat split; lia].
  unfold bind, Server.callVerify. fold (Server.paymentRequiredOf config).
  destruct (Server.verifyPermissions payments (Server.paymentRequiredOf config) token 1)
    as [[|] | msg].
  - exfalso. apply Hverify. reflexivity.
  - cbn. rewrite filter_app, app_nil_r. repeat split; lia.
  - cbn. rewrite filter_app, app_nil_r. repeat split; lia.
Qed.

(** The handler settles at most once. *)
Lemma settles_at_most_once (req : Server.IncomingMessage)
      (w : Server.World W) :
  exists calls,
    Server.paymentCalls
      (snd (Server.handleOracleRequest payments req config w))
    = (Server.paymentCalls w ++ calls)%list /\
    (List.length (filter Server.isSettle calls) <= 1)%nat.
Proof.
  unfold Server.handleOracleRequest.
  destruct (orNull (Server.x402Token (Server.headers req))) as [token |].
  2: { exists []. cbn. rewrite app_nil_r. split; [reflexivity | lia]. }
  destruct (Server.body req) as [| | | question];
    try (exists []; cbn; rewrite app_nil_r; split; [reflexivity | lia]).
  destruct (truthy question); cbn [negb];
    [| exists []; cbn; rewrite app_nil_r; split; [reflexivity | lia]].
  unfold bind at 1. unfold Server.callVerify. fold (Server.paymentRequiredOf config).
  destruct (Server.verifyPermissions payments (Server.paymentRequiredOf config) token 1)
    as [[|] | msg];
    try (exists [Server.VerifyCall token 1]; cbn; split; [reflexivity | lia]).
  unfold Server.processAndSettle, bind, tryCatch, Server.runOracle.
  cbn [Server.oracleWorld Server.paymentCalls].
  destruct (Server.oracle config question (Server.oracleWorld w))
    as [[r | e] ow].
  - unfold Server.callSettle, gets. cbn [fst snd Server.paymentCalls].
    exists [Server.VerifyCall token 1; Server.SettleCall token 1].
    destruct (Server.settlePermissions payments (Server.paymentRequiredOf config) token 1);
      cbn; rewrite <- app_assoc; split; try reflexivity; lia.
  - exists [Server.VerifyCall token 1]. cbn. split; [reflexivity | lia].
Qed.

Lemma settle_failure_200 (req : Server.IncomingMessage)
      (w : Server.World W) (token question msg : string) (r : R) (ow : W) :
  orNull (Server.x402Token (Server.headers req)) = Some token ->
  Server.body req = Server.BodyQuestion question ->
  truthy question = true ->
  Server.verifyPermissions payments (Server.paymentRequiredOf config) token 1
  = Server.Verified true ->
  Server.oracle config question (Server.oracleWorld w) = (Ret r, ow) ->
  Server.settlePermissions payments (Server.paymentRequiredOf config) token 1
  = Server.SettleThrows msg ->
  Server.handleOracleRequest payments req config w
  = (Ret {| Server.statusCode := 200;
            Server.json :=
              Server.ResultBody r
                {| Server.creditsUsed := 0;
                   Server.txHash := None;
                   Server.p_timestamp := None;
                   Server.p_error := Some "settlement_failed";
                   Server.p_message := Some msg |} |},
     {| Server.oracleWorld := ow;
        Server.paymentCalls :=
          (Server.paymentCalls w ++
           [Server.VerifyCall token 1; Server.SettleCall token 1])%list |}).
Proof.
  intros Htoken Hbody Hq Hverify Horacle Hsettle.
  unfold Server.handleOracleRequest. rewrite Htoken, Hbody, Hq.
  cbn [negb]. unfold bind at 1. unfold Server.callVerify. fold (Server.paymentRequiredOf config).
  rewrite Hverify.
  unfold Server.processAndSettle, bind, tryCatch, Server.runOracle.
  cbn [Server.oracleWorld Server.paymentCalls]. rewrite Horacle.
  unfold Server.callSettle, gets. cbn [fst snd Server.paymentCalls].
  fold (Server.paymentRequiredOf config). rewrite Hsettle. cbn. rewrite <- app_assoc. reflexivity.
Qed.
End Gate.

(** C3, as the claim states it, fails: a request whose credential the
    facilitator finds invalid, and whose body has no question, is
    answered with 400 and no purchase guidance; the facilitator is not
    even asked. *)
Lemma invalid_credential_answered_400 :
  orNull (Server.x402Token
            (Server.headers (Fixtures.withToken Server.BodyNoQuestion)))
  = Some "tok_123" /\
  Server.verifyPermissions Fixtures.rejecting
    (Server.paymentRequiredOf Fixtures.sportsConfig) "tok_123" 1
  = Server.Verified false /\
  Server.handleOracleRequest Fixtures.rejecting
    (Fixtures.withToken Server.BodyNoQuestion)
    Fixtures.sportsConfig Fixtures.serverWorld
  = (Ret {| Server.statusCode := 400;
            Server.json :=
              Server.ErrorBody Sports.VerificationResult "missing_question"
                Server.missingQuestionMessage None None |},
     Fixtures.serverWorld).
Proof. repeat split. Qed.

(** C3, amended.  A request without a credential is answered with 402
    and the purchase URL, whatever its body.  A request with a
    credential, a well-formed body and a question is answered with 401
    and the purchase URL when the facilitator finds the credential
    invalid or short of credits, or fails.  The body is looked at before
    the credential is verified: with a credential, a body that is no
    JSON is answered with 400 [invalid_json], and a body that is an
    object without a question, or with an empty one, with 400
    [missing_question], whatever the credential is worth and without the
    facilitator being asked.  In all these cases, and whatever the body,
    the oracle is not run, so no source adapter is called, nothing is
    settled and the answer is not a 200. *)
Theorem unpaid_request_reaches_no_adapter :
  forall (W R : Type) (payments : Server.Facilitator)
         (config : Server.Config W R) (req : Server.IncomingMessage)
         (w : Server.World W),
    Spec.unpaid payments config req ->
    (orNull (Server.x402Token (Server.headers req)) = None ->
     Server.handleOracleRequest payments req config w
     = (Ret (Spec.paymentRequired402 config), w)) /\
    (forall token question,
        orNull (Server.x402Token (Server.headers req)) = Some token ->
        Server.body req = Server.BodyQuestion question ->
        truthy question = true ->
        exists error message,
          Server.handleOracleRequest payments req config w
          = (Ret {| Server.statusCode := 401;
                    Server.json :=
                      Server.ErrorBody R error message
                        (Some (Server.purchaseUrlOf (Server.agentId config)))
                        None |},
             {| Server.oracleWorld := Server.oracleWorld w;
                Server.paymentCalls :=
                  (Server.paymentCalls w ++ [Server.VerifyCall token 1])%list |})) /\
    (forall token,
        orNull (Server.x402Token (Server.headers req)) = Some token ->
        (Server.body req = Server.BodyInvalid ->
         Server.handleOracleRequest payments req config w
         = (Ret {| Server.statusCode := 400;
                   Server.json :=
                     Server.ErrorBody R "invalid_json"
                       "Request body must be valid JSON" None None |},
            w)) /\
        (Server.body req = Server.BodyNoQuestion \/
         (exists question,
             Server.body req = Server.BodyQuestion question /\
             truthy question = false) ->
         Server.handleOracleRequest payments req config w
         = (Ret {| Server.statusCode := 400;
                   Server.json :=
                     Server.ErrorBody R "missing_question"
                       Server.missingQuestionMessage None None |},
            w))) /\
    Server.oracleWorld
      (snd (Server.handleOracleRequest payments req config w))
    = Server.oracleWorld w /\
    filter Server.isSettle
      (Server.paymentCalls
         (snd (Server.handleOracleRequest payments req config w)))
    = filter Server.isSettle (Server.paymentCalls w) /\
    match fst (Server.handleOracleRequest payments req config w) with
    | Ret response => Server.statusCode response <> 200
    | Throw _ => True
    end.
Proof.
  intros W R payments config req w Hunpaid.
  split; [apply missing_credential_402 |].
  split; [| split; [| apply unpaid_runs_no_oracle; exact Hunpaid]].
  - intros token question Htoken Hbody Hq.
    apply (@unverified_credential_401 _ _ payments config req w token question);
      try assumption.
    unfold Spec.unpaid in Hunpaid. rewrite Htoken in Hunpaid. exact Hunpaid.
  - intros token Htoken. split.
    + apply (@malformed_body_400 _ _ payments config req w token Htoken).
    + apply (@missing_question_400 _ _ payments config req w token Htoken).
Qed.

(** [unpaid_request_reaches_no_adapter] at an invalid credential with a
    question: 401, the purchase URL, and an untouched sports world. *)
Lemma unpaid_request_reaches_no_adapter_witness :
  Server.handleOracleRequest Fixtures.rejecting
    (Fixtures.withToken (Server.BodyQuestion Fixtures.lakersQuestion))
    Fixtures.sportsConfig Fixtures.serverWorld
  = (Ret {| Server.statusCode := 401;
            Server.json :=
              Server.ErrorBody Sports.VerificationResult
                "insufficient_credits"
                "Access token is invalid or you have insufficient credits"
                (Some "https://nevermined.app/agents/agent-sports") None |},
     {| Server.oracleWorld := Fixtures.freshSports;
        Server.paymentCalls := [Server.VerifyCall "tok_123" 1] |}) /\
  Sports.trace
    (Server.oracleWorld
       (snd (Server.handleOracleRequest Fixtures.rejecting
               (Fixtures.withToken (Server.BodyQuestion Fixtures.lakersQuestion))
               Fixtures.sportsConfig Fixtures.serverWorld)))
  = [].
Proof.
  assert (Hunpaid : Spec.unpaid Fixtures.rejecting Fixtures.sportsConfig
                      (Fixtures.withToken
                         (Server.BodyQuestion Fixtures.lakersQuestion)))
    by (simpl; discriminate).
  destruct (@unpaid_request_reaches_no_adapter _ _
              Fixtures.rejecting Fixtures.sportsConfig
              (Fixtures.withToken (Server.BodyQuestion Fixtures.lakersQuestion))
              Fixtures.serverWorld Hunpaid)
    as (_ & _ & _ & Hworld & _).
  split; [reflexivity |]. rewrite Hworld. reflexivity.
Defined.

Example missing_credential_answered_402 :
  Server.handleOracleRequest Fixtures.rejecting
    (Fixtures.withoutToken (Server.BodyQuestion Fixtures.lakersQuestion))
    Fixtures.sportsConfig Fixtures.serverWorld
  = (Ret (Spec.paymentRequired402 Fixtures.sportsConfig), Fixtures.serverWorld) /\
  fst (Server.handleOracleRequest Fixtures.unreachable
         (Fixtures.withToken (Server.BodyQuestion Fixtures.lakersQuestion))
         Fixtures.sportsConfig Fixtures.serverWorld)
  = Ret {| Server.statusCode := 401;
           Server.json :=
             Server.ErrorBody Sports.VerificationResult
               "verification_failed" "connect ECONNREFUSED"
               (Some "https://nevermined.app/agents/agent-sports") None |}.
Proof. split; reflexivity. Qed.

(** C4.  Once the credential is verified and the oracle has returned a
    result, a settle call that fails changes nothing in that result:
    the answer is 200 with the result as the oracle returned it and a
    payment record holding [settlement_failed] and the failure message.
    The handler calls settle once in that case and never more than once
    for any request. *)
Theorem settlement_failure_keeps_result :
  forall (W R : Type) (payments : Server.Facilitator)
         (config : Server.Config W R) (req : Server.IncomingMessage)
         (w : Server.World W) (token question msg : string) (r : R) (ow : W),
    orNull (Server.x402Token (Server.headers req)) = Some token ->
    Server.body req = Server.BodyQuestion question ->
    truthy question = true ->
    Server.verifyPermissions payments (Server.paymentRequiredOf config) token 1
    = Server.Verified true ->
    Server.oracle config question (Server.oracleWorld w) = (Ret r, ow) ->
    Server.settlePermissions payments (Server.paymentRequiredOf config) token 1
    = Server.SettleThrows msg ->
    Server.handleOracleRequest payments req config w
    = (Ret {| Server.statusCode := 200;
              Server.json :=
                Server.ResultBody r
                  {| Server.creditsUsed := 0;
                     Server.txHash := None;
                     Server.p_timestamp := None;
                     Server.p_error := Some "settlement_failed";
                     Server.p_message := Some msg |} |},
       {| Server.oracleWorld := ow;
          Server.paymentCalls :=
            (Server.paymentCalls w ++
             [Server.VerifyCall token 1; Server.SettleCall token 1])%list |}) /\
    (forall (payments' : Server.Facilitator) (req' : Server.IncomingMessage)
            (w' : Server.World W),
        exists calls,
          Server.paymentCalls
            (snd (Server.handleOracleRequest payments' req' config w'))
          = (Server.paymentCalls w' ++ calls)%list /\
          (List.length (filter Server.isSettle calls) <= 1)%nat).
Proof.
  intros W R payments config req w token question msg r ow
         Htoken Hbody Hq Hverify Horacle Hsettle.
  split.
  - apply (@settle_failure_200 _ _ payments config req w token question msg r ow);
      assumption.
  - intros payments' req' w'. apply settles_at_most_once.
Qed.

(** [settlement_failure_keeps_result] at the Lakers question: the
    verified result comes back with status 200 although settle failed. *)
Lemma settlement_failure_keeps_result_witness :
  exists r ow,
    Sports.askOracle Fixtures.sportsEnv Fixtures.lakersQuestion
                     Fixtures.freshSports = (Ret r, ow) /\
    Sports.verified r = true /\
    Server.handleOracleRequest Fixtures.settleDown
      (Fixtures.withToken (Server.BodyQuestion Fixtures.lakersQuestion))
      Fixtures.sportsConfig Fixtures.serverWorld
    = (Ret {| Server.statusCode := 200;
              Server.json :=
                Server.ResultBody r
                  {| Server.creditsUsed := 0;
                     Server.txHash := None;
                     Server.p_timestamp := None;
                     Server.p_error := Some "settlement_failed";
                     Server.p_message := Some "socket hang up" |} |},
       {| Server.oracleWorld := ow;
          Server.paymentCalls :=
            [Server.VerifyCall "tok_123" 1; Server.SettleCall "tok_123" 1] |}).
Proof.
  eexists; eexists.
  split; [vm_compute; reflexivity |]. split; [reflexivity |].
  apply (proj1 (@settlement_failure_keeps_result _ _
                  Fixtures.settleDown Fixtures.sportsConfig
                  (Fixtures.withToken (Server.BodyQuestion Fixtures.lakersQuestion))
                  Fixtures.serverWorld
                  "tok_123" Fixtures.lakersQuestion "socket hang up" _ _
                  eq_refl eq_refl eq_refl eq_refl
                  ltac:(vm_compute; reflexivity) eq_refl)).
Defined.

(* ------------------------------------------------------------------ *)
(** * Further properties of the sports oracle                          *)
(* ------------------------------------------------------------------ *)

Lemma lookup_in_values (key : string) (table : list (string * string))
      (v : string) :
  Sports.lookup key table = Some v -> In v (map snd table).
Proof.
  induction table as [| [k x] table IH]; simpl; [discriminate |].
  destruct (String.eqb k key).
  - intros H; inversion H; subst. left; reflexivity.
  - intros H. right. apply IH, H.
Qed.

Lemma orNull_some (v : option string) (s : string) :
  orNull v = Some s -> v = Some s /\ truthy s = true.
Proof.
  destruct v as [x |]; simpl; [| discriminate].
  destruct (truthy x) eqn:E; [| discriminate].
  intros H; inversion H; subst. split; [reflexivity | exact E].
Qed.

Lemma canonical_names_fixed :
  Forall (fun v => Sports.normalizeTeamName v = Sports.Named v)
         (map snd Sports.TEAM_ALIASES).
Proof. repeat constructor. Qed.

(** No inherited name is a key of the table itself. *)
Lemma prototype_keys_not_own :
  Forall (fun key => Sports.lookup key Sports.TEAM_ALIASES = None)
         Sports.prototypeKeys.
Proof. repeat constructor. Qed.

Lemma in_prototypeKeys (key : string) :
  existsb (String.eqb key) Sports.prototypeKeys = true
  <-> In key Sports.prototypeKeys.
Proof.
  rewrite existsb_exists. split.
  - intros (k & Hin & Heq). apply String.eqb_eq in Heq. subst k. exact Hin.
  - intros Hin. exists key. split; [exact Hin | apply String.eqb_refl].
Qed.

(** X1.  [normalizeTeamName] on a string.  When it returns a string,
    normalising that string again changes nothing: no canonical name of
    [TEAM_ALIASES] is itself an alias.  It returns no string exactly for
    a non-empty name whose lower-cased, trimmed form is the name of a
    property objects inherit (as for Constructor): the table is a plain
    object, so the inherited value is found and returned in place of a
    name. *)
Theorem normalizeTeamName_idempotent :
  forall teamName : string,
    match Sports.normalizeTeamName teamName with
    | Sports.Named name =>
        Sports.normalizeTeamName name = Sports.Named name
    | Sports.Inherited key =>
        truthy teamName = true /\
        key = trim (toLowerCase teamName) /\
        In key Sports.prototypeKeys
    end /\
    (truthy teamName = true ->
     In (trim (toLowerCase teamName)) Sports.prototypeKeys ->
     Sports.normalizeTeamName teamName
     = Sports.Inherited (trim (toLowerCase teamName))).
Proof.
  intros teamName.
  pose proof prototype_keys_not_own as Hown. rewrite Forall_forall in Hown.
  unfold Sports.normalizeTeamName at 1 3. cbv zeta.
  destruct (truthy teamName) eqn:Et; cbn [negb].
  2: { split; [| discriminate].
       unfold Sports.normalizeTeamName. rewrite Et. reflexivity. }
  unfold Sports.aliasAt.
  destruct (Sports.lookup (trim (toLowerCase teamName)) Sports.TEAM_ALIASES)
    as [canonical |] eqn:El.
  - split.
    + cbn [Sports.nameTruthy]. destruct (truthy canonical) eqn:Ec.
      * apply lookup_in_values in El.
        pose proof canonical_names_fixed as Hfix.
        rewrite Forall_forall in Hfix. apply Hfix, El.
      * unfold Sports.normalizeTeamName, Sports.aliasAt.
        rewrite Et, El. cbn [negb Sports.nameTruthy]. rewrite Ec.
        reflexivity.
    + intros _ Hin. rewrite (Hown _ Hin) in El. discriminate.
  - destruct (existsb (String.eqb (trim (toLowerCase teamName)))
                      Sports.prototypeKeys) eqn:Ex.
    + cbn [Sports.nameTruthy]. split; [| reflexivity].
      split; [reflexivity |]. split; [reflexivity |].
      apply in_prototypeKeys. exact Ex.
    + split.
      * unfold Sports.normalizeTeamName, Sports.aliasAt.
        rewrite Et, El, Ex. reflexivity.
      * intros _ Hin. apply in_prototypeKeys in Hin. congruence.
Qed.

(** A team called Constructor: what [askOracle] goes on with is the
    function [Object], and the provider is asked for its source text. *)
Example constructor_is_no_team_name :
  Sports.normalizeTeamName "Constructor" = Sports.Inherited "constructor" /\
  Sports.normalizeTeamName "Lakers" = Sports.Named "Los Angeles Lakers" /\
  Sports.normalizeTeamName "Arsenal" = Sports.Named "Arsenal" /\
  map (fun e => option_map url (requestOf e))
      (firstn 1 (Sports.trace
                   (snd (Sports.askOracle Fixtures.sportsEnv
                           "Who won the Constructor game on 2026-01-19?"
                           Fixtures.freshSports))))
  = [Some "https://www.thesportsdb.com/api/v1/json/3/searchteams.php?t=function%20Object()%20%7B%20%5Bnative%20code%5D%20%7D"%string].
Proof. repeat split; vm_compute; reflexivity. Qed.

(** Constructor as the opponent of a game that is found: [verifyResult]
    throws at [opponent.toLowerCase()], and the query is not recorded. *)
Example inherited_opponent_throws :
  fst (Sports.askOracle Fixtures.sportsEnv
         "Who won the Lakers vs Constructor game on 2026-01-19?"
         Fixtures.freshSports)
  = Throw Sports.typeErrorNoFunction /\
  Sports.statsFile
    (snd (Sports.askOracle Fixtures.sportsEnv
            "Who won the Lakers vs Constructor game on 2026-01-19?"
            Fixtures.freshSports))
  = None.
Proof. split; vm_compute; reflexivity. Qed.

(** X2.  [applyConfidenceFloor] never lowers a confidence, lifts every
    positive one to 0.5 at least, leaves 0 and negative values as they
    are (it does not turn a failure into a success), and applying it
    twice is applying it once. *)
Theorem applyConfidenceFloor_properties :
  forall c : Q,
    (c <= Sports.applyConfidenceFloor c)%Q /\
    ((0 < c)%Q -> (1 # 2 <= Sports.applyConfidenceFloor c)%Q) /\
    ((c <= 0)%Q -> Sports.applyConfidenceFloor c = c) /\
    Sports.applyConfidenceFloor (Sports.applyConfidenceFloor c)
    = Sports.applyConfidenceFloor c.
Proof.
  intros c. split; [| split; [| split]].
  - unfold Sports.applyConfidenceFloor, Qltb.
    destruct (Qle_bool c 0); cbn [negb andb]; [apply Qle_refl |].
    destruct (Qle_bool Sports.minConfidenceFloor c) eqn:E; cbn [negb];
      [apply Qle_refl |].
    apply Qlt_le_weak, Qnot_le_lt. intros H. apply Qle_bool_iff in H.
    congruence.
  - apply applyConfidenceFloor_floor.
  - intros H. unfold Sports.applyConfidenceFloor, Qltb.
    apply Qle_bool_iff in H. rewrite H. reflexivity.
  - assert (H : Sports.applyConfidenceFloor c = Sports.minConfidenceFloor \/
                Sports.applyConfidenceFloor c = c).
    { unfold Sports.applyConfidenceFloor.
      destruct (Qltb 0 c && Qltb c Sports.minConfidenceFloor)%bool;
        [left | right]; reflexivity. }
    destruct H as [H | H]; rewrite H; [reflexivity | exact H].
Qed.

(** X3.  A result [verifyResult] returns as verified carries the game,
    and its confidence is 0.85 exactly when the query names an opponent
    that occurs (as a substring, ignoring case) in the home or away team
    of that game, and 0.75 otherwise: an opponent that matches neither
    team lowers the confidence and does not fail the verification. *)
Theorem verifyResult_confidence :
  forall (env : Sports.Env) (q : Sports.VerifyQuery),
    Spec.returns (Sports.verifyResult env q)
      (fun r =>
         if Sports.verified r
         then exists g,
             Sports.result r = Some g /\
             Sports.confidence r
             = (if Props.opponentConfirmed q g then 17 # 20 else 3 # 4)
         else Sports.result r = None /\ Sports.confidence r = 0%Q).
Proof.
  intros env q w. unfold Sports.verifyResult, bind.
  destruct (Sports.querySportsDB env (Sports.q_team q) (Sports.q_date q) w)
    as [[db | e] w1]; [| exact I].
  unfold gets.
  destruct (Sports.optTruthy (Sports.db_error db)); [simpl; auto |].
  unfold Props.opponentConfirmed.
  destruct (Sports.q_opponent q) as [[opp | key] |]; cbn [fst];
    [| exact I |].
  - destruct (truthy opp) eqn:Et; cbn [fst].
    + destruct (Sports.db_homeTeam db) as [home |] eqn:Eh; cbn [fst];
        [| exact I].
      destruct (includes (toLowerCase opp) (toLowerCase home)) eqn:Ei;
        cbn [fst ret].
      * cbn. eexists. split; [reflexivity |]. cbn. rewrite Et, Ei. reflexivity.
      * destruct (Sports.db_awayTeam db) as [away |] eqn:Ea; cbn [fst];
          [| exact I].
        cbn. eexists. split; [reflexivity |]. cbn. rewrite Et, Ei. cbn.
        destruct (includes (toLowerCase opp) (toLowerCase away)); reflexivity.
    + cbn. eexists. split; [reflexivity |]. cbn. rewrite Et. reflexivity.
  - cbn. eexists. split; [reflexivity |]. reflexivity.
Qed.

(** A game found with an opponent that matches neither team. *)
Example opponent_mismatch_still_verified :
  exists r w,
    Sports.verifyResult Fixtures.sportsEnv
      {| Sports.q_team := Some (Sports.Named "Los Angeles Lakers");
         Sports.q_opponent := Some (Sports.Named "Boston Celtics");
         Sports.q_date := "2026-01-19";
         Sports.q_originalQuestion := "Did the Lakers beat the Celtics?" |}
      Fixtures.freshSports = (Ret r, w) /\
    Sports.verified r = true /\ Sports.confidence r = 3 # 4.
Proof. eexists; eexists; split; [vm_compute; reflexivity | split; reflexivity]. Qed.

Lemma winner_by_scores (home away : option string) (hs as_ : num) :
  (if num_gt hs as_ then home
   else if num_gt as_ hs then away else Some "tie"%string)
  = Props.winnerOf home away hs as_.
Proof. destruct hs, as_; reflexivity. Qed.

(** X4.  [querySportsDB] never throws, whatever the provider does: it
    returns an object, leaves the stats file alone and lets time pass.
    When the object carries no error, its winner agrees with its scores,
    and an event whose score is missing or not a number is reported as
    a tie. *)
Theorem querySportsDB_returns :
  forall (env : Sports.Env) (teamName : option Sports.Name) (date_ : string)
         (w : Sports.World),
  exists db w',
    Sports.querySportsDB env teamName date_ w = (Ret db, w') /\
    Sports.statsFile w' = Sports.statsFile w /\
    (Sports.now w <= Sports.now w')%Z /\
    (Sports.db_error db = None ->
     Sports.db_winner db
     = Props.winnerOf (Sports.db_homeTeam db) (Sports.db_awayTeam db)
                (Sports.db_homeScore db) (Sports.db_awayScore db) /\
     Sports.db_homeScore db <> Undefined /\
     Sports.db_awayScore db <> Undefined).
Proof.
  intros env teamName date_ w.
  unfold Sports.querySportsDB, bind.
  unfold Sports.httpGet at 1.
  set (search := Sports.plainGet _).
  destruct (Sports.searchteams env search (Sports.now w))
    as [[[| team0 teams] |] | status msg];
    try (eexists; eexists; split; [reflexivity |];
         cbn [Sports.statsFile Sports.now];
         split; [reflexivity |]; split; [lia | discriminate]).
  unfold Sports.httpGet.
  cbn [Sports.statsFile Sports.now Sports.trace].
  set (events := Sports.plainGet _).
  set (arrival := (Sports.now w + Z.max 0 (Sports.latency env search (Sports.now w)))%Z).
  destruct (Sports.eventslast env events arrival) as [[results |] | status msg];
    [destruct (find _ results) as [event |] | |];
    eexists; eexists; (split; [reflexivity |]);
    cbn [Sports.statsFile Sports.now];
    (split; [reflexivity |]); (split; [subst arrival; lia |]);
    try discriminate.
  intros _. cbn [Sports.db_winner Sports.db_homeTeam Sports.db_awayTeam
                 Sports.db_homeScore Sports.db_awayScore].
  split; [apply winner_by_scores |].
  unfold Sports.parseScore.
  split.
  - destruct (Sports.intHomeScore event) as [txt |]; [| discriminate].
    destruct (parseInt10 txt); discriminate.
  - destruct (Sports.intAwayScore event) as [txt |]; [| discriminate].
    destruct (parseInt10 txt); discriminate.
Qed.

(** An event that has not been played yet: no scores, reported as a tie
    and, by [verifyResult], as verified. *)
Example unplayed_game_is_a_tie :
  exists r w,
    Sports.verifyResult
      {| Sports.tz := 0;
         Sports.legacyDateParse := fun _ => None;
         Sports.searchteams :=
           fun _ _ => HttpOk (Some [ {| Sports.idTeam := "134867" |} ]);
         Sports.eventslast :=
           fun _ _ =>
             HttpOk (Some [ {| Sports.dateEvent := Some "2026-01-19"%string;
                               Sports.intHomeScore := None;
                               Sports.intAwayScore := None;
                               Sports.strHomeTeam := Some "Los Angeles Lakers"%string;
                               Sports.strAwayTeam := Some "Toronto Raptors"%string;
                               Sports.strLeague := Some "NBA"%string;
                               Sports.idEvent := Some "2274913"%string |} ]);
         Sports.latency := fun _ _ => 35%Z |}
      {| Sports.q_team := Some (Sports.Named "Los Angeles Lakers");
         Sports.q_opponent := None;
         Sports.q_date := "2026-01-19";
         Sports.q_originalQuestion :=
           "Who won the Lakers game on 2026-01-19?" |}
      Fixtures.freshSports = (Ret r, w) /\
    Sports.verified r = true /\
    option_map Sports.winner (Sports.result r) = Some (Some "tie"%string) /\
    option_map Sports.finalScore (Sports.result r) = Some "NaN-NaN"%string.
Proof.
  eexists; eexists; split; [vm_compute; reflexivity |].
  repeat split; reflexivity.
Qed.

(** The counters of the current stats depend on the file alone. *)
Lemma sports_total_of_file (env : Sports.Env) (w w' : Sports.World) :
  Sports.statsFile w' = Sports.statsFile w ->
  Sports.totalQueries (Sports.currentStats env w')
  = Sports.totalQueries (Sports.currentStats env w) /\
  Sports.recentQueries (Sports.currentStats env w')
  = Sports.recentQueries (Sports.currentStats env w) /\
  Sports.successCount (Sports.currentStats env w')
  = Sports.successCount (Sports.currentStats env w) /\
  Sports.errorCount (Sports.currentStats env w')
  = Sports.errorCount (Sports.currentStats env w).
Proof.
  unfold Sports.currentStats. intros ->.
  destruct (Sports.statsFile w); repeat split; reflexivity.
Qed.

(** [querySportsDB] returns and leaves the stats file alone. *)
Lemma querySportsDB_file (env : Sports.Env) (teamName : option Sports.Name)
      (date_ : string) (w : Sports.World) :
  exists db w',
    Sports.querySportsDB env teamName date_ w = (Ret db, w') /\
    Sports.statsFile w' = Sports.statsFile w.
Proof.
  unfold Sports.querySportsDB, bind.
  unfold Sports.httpGet at 1.
  destruct (Sports.searchteams env _ (Sports.now w))
    as [[[| team0 teams] |] | status msg];
    try (eexists; eexists; split; reflexivity).
  unfold Sports.httpGet.
  cbn [Sports.statsFile Sports.now Sports.trace].
  destruct (Sports.eventslast env _ _) as [[results |] | status msg];
    [destruct (find _ results) as [event |] | |];
    eexists; eexists; split; reflexivity.
Qed.

(** [verifyResult] leaves the stats file alone, whether it returns or
    throws. *)
Lemma verifyResult_file (env : Sports.Env) (q : Sports.VerifyQuery)
      (w : Sports.World) :
  Sports.statsFile (snd (Sports.verifyResult env q w)) = Sports.statsFile w.
Proof.
  unfold Sports.verifyResult, bind.
  destruct (querySportsDB_file env (Sports.q_team q) (Sports.q_date q) w)
    as (db & w1 & Hrun & Hfile).
  rewrite Hrun. unfold gets.
  destruct (Sports.optTruthy (Sports.db_error db)); [exact Hfile |].
  destruct (Sports.q_opponent q) as [[opp | key] |]; cbn [ret throw snd];
    [| exact Hfile | exact Hfile].
  destruct (truthy opp); cbn [ret snd]; [| exact Hfile].
  destruct (Sports.db_homeTeam db); cbn [ret throw snd]; [| exact Hfile].
  destruct (includes _ _); cbn [ret snd]; [exact Hfile |].
  destruct (Sports.db_awayTeam db); cbn [ret throw snd]; exact Hfile.
Qed.

Lemma firstn_50_cons {A : Type} (x : A) (l : list A) :
  firstn 50 (x :: l) = x :: firstn 49 l.
Proof. reflexivity. Qed.

Lemma sports_logged_once (env : Sports.Env) (r : Sports.VerificationResult)
      (w w1 : Sports.World) :
  Sports.statsFile w1 = Sports.statsFile w ->
  Props.recordedOnce env w (snd (Sports.logQuery env r w1)) r.
Proof.
  intros Hfile. rewrite sports_logQuery_world. unfold Props.recordedOnce.
  destruct (sports_total_of_file env w w1 Hfile) as (Ht & _).
  cbn [snd Sports.currentStats Sports.statsFile].
  unfold Sports.record. cbn [Sports.totalQueries Sports.recentQueries].
  split; [rewrite Ht; reflexivity |].
  rewrite firstn_50_cons. eexists; eexists. split; [reflexivity |].
  repeat split.
Qed.

(** X5.  A call of the sports [askOracle] that passes the pre-check and
    returns has recorded its result exactly once: one more query in the
    total and the result's flag, confidence and error at the head of the
    log.  A call that the pre-check rejects changes nothing, and a call
    that throws (an opponent was named and the provider's event lacks a
    team name) leaves the stats file as it was: that query is not
    counted at all. *)
Theorem sports_askOracle_records_once :
  forall (env : Sports.Env) (question : string) (w : Sports.World),
    match Sports.askOracle env question w with
    | (Ret r, w') =>
        if Sports.safe (Sports.checkStats (Sports.currentStats env w))
        then Props.recordedOnce env w w' r
        else w' = w
    | (Throw _, w') => Sports.statsFile w' = Sports.statsFile w
    end.
Proof.
  intros env question w.
  unfold Sports.askOracle, Sports.checkSafetyLimits, Sports.loadStats.
  unfold bind at 1 2 3. unfold gets at 1 2. cbn [ret].
  destruct (Sports.safe (Sports.checkStats (Sports.currentStats env w)));
    cbn [negb]; [| reflexivity].
  destruct (Sports.optNameTruthy _); cbn [negb].
  2: { unfold bind, ret.
       pose proof (@sports_logged_once env
                     (Sports.noTeamResult (Sports.now w)
                        (Sports.normalizeQuery
                           (Sports.parseQuestion env (Sports.now w) question)))
                     w w eq_refl) as H.
       rewrite sports_logQuery_world in *. exact H. }
  unfold bind at 1.
  pose proof (verifyResult_file env
                (Sports.normalizeQuery
                   (Sports.parseQuestion env (Sports.now w) question)) w)
    as Hfile.
  destruct (Sports.verifyResult env _ w) as [[r0 | e] w1]; cbn [snd] in Hfile;
    [| exact Hfile].
  unfold bind, ret.
  match goal with
  | |- context [Sports.logQuery env ?r w1] =>
      pose proof (@sports_logged_once env r w w1 Hfile) as H;
      rewrite sports_logQuery_world in *; exact H
  end.
Qed.

(** A question that makes [askOracle] throw after two outbound calls:
    nothing is recorded. *)
Example sports_askOracle_can_throw :
  exists w',
    Sports.askOracle
      {| Sports.tz := 0;
         Sports.legacyDateParse := fun _ => None;
         Sports.searchteams :=
           fun _ _ => HttpOk (Some [ {| Sports.idTeam := "134867" |} ]);
         Sports.eventslast :=
           fun _ _ =>
             HttpOk (Some [ {| Sports.dateEvent := Some "2026-01-19"%string;
                               Sports.intHomeScore := Some "110"%string;
                               Sports.intAwayScore := Some "93"%string;
                               Sports.strHomeTeam := None;
                               Sports.strAwayTeam := None;
                               Sports.strLeague := Some "NBA"%string;
                               Sports.idEvent := Some "2274913"%string |} ]);
         Sports.latency := fun _ _ => 35%Z |}
      "Did the Lakers beat the Celtics on 2026-01-19?"
      Fixtures.freshSports
    = (Throw Sports.typeErrorLower, w') /\
    Sports.statsFile w' = None /\
    List.length (Sports.trace w') = 2%nat.
Proof. eexists; split; [vm_compute; reflexivity | split; reflexivity]. Qed.

(* ------------------------------------------------------------------ *)
(** * The stats store over a run of recordings                         *)
(* ------------------------------------------------------------------ *)

Lemma firstn_app_firstn {A : Type} (a b : list A) :
  forall n m, (n <= m)%nat ->
              firstn n (a ++ firstn m b) = firstn n (a ++ b).
Proof.
  induction a as [| x a IH]; intros n m Hle; simpl.
  - rewrite firstn_firstn. f_equal. lia.
  - destruct n as [| n]; [reflexivity |]. simpl. f_equal. apply IH. lia.
Qed.

Lemma countFlag_cons (b v : bool) (flags : list bool) :
  Journal.countFlag b (v :: flags)
  = ((if Bool.eqb b v then 1 else 0) + Journal.countFlag b flags)%Z.
Proof.
  unfold Journal.countFlag. cbn [filter].
  destruct (Bool.eqb b v); cbn [List.length]; lia.
Qed.

Lemma sports_record_counters (env : Sports.Env) (t : Z)
      (r : Sports.VerificationResult) (s : Sports.Stats) :
  Sports.totalQueries (Sports.record env t r s)
  = (Sports.totalQueries s + 1)%Z /\
  Sports.successCount (Sports.record env t r s)
  = (Sports.successCount s + (if Sports.verified r then 1 else 0))%Z /\
  Sports.errorCount (Sports.record env t r s)
  = (Sports.errorCount s + (if Sports.verified r then 0 else 1))%Z /\
  map Sports.e_verified (Sports.recentQueries (Sports.record env t r s))
  = firstn 50 (Sports.verified r
               :: map Sports.e_verified (Sports.recentQueries s)).
Proof.
  unfold Sports.record.
  cbn [Sports.totalQueries Sports.successCount Sports.errorCount
       Sports.recentQueries].
  split; [reflexivity |].
  split; [destruct (Sports.verified r); lia |].
  split; [destruct (Sports.verified r); lia |].
  rewrite <- firstn_map. reflexivity.
Qed.

(** The stats after one recording that follows a pause. *)
Lemma sports_step_stats (env : Sports.Env) (elapsed : Z)
      (r : Sports.VerificationResult) (w : Sports.World) :
  exists t s0,
    Sports.currentStats env
      (snd (Sports.logQuery env r (Sports.advance elapsed w)))
    = Sports.record env t r s0 /\
    Sports.totalQueries s0 = Sports.totalQueries (Sports.currentStats env w) /\
    Sports.successCount s0 = Sports.successCount (Sports.currentStats env w) /\
    Sports.errorCount s0 = Sports.errorCount (Sports.currentStats env w) /\
    Sports.recentQueries s0
    = Sports.recentQueries (Sports.currentStats env w).
Proof.
  rewrite sports_logQuery_world. cbn [snd Sports.currentStats Sports.statsFile].
  eexists; eexists. split; [reflexivity |].
  unfold Sports.currentStats, Sports.advance. cbn [Sports.statsFile].
  destruct (Sports.statsFile w); repeat split; reflexivity.
Qed.

Lemma sports_journal_invariant (env : Sports.Env) :
  forall (entries : list (Z * Sports.VerificationResult)) (w : Sports.World),
    Sports.totalQueries
      (Sports.currentStats env (Journal.sportsLogAll env entries w))
    = (Sports.totalQueries (Sports.currentStats env w)
       + Z.of_nat (List.length entries))%Z /\
    Sports.successCount
      (Sports.currentStats env (Journal.sportsLogAll env entries w))
    = (Sports.successCount (Sports.currentStats env w)
       + Journal.countFlag true
           (map (fun e => Sports.verified (snd e)) entries))%Z /\
    Sports.errorCount
      (Sports.currentStats env (Journal.sportsLogAll env entries w))
    = (Sports.errorCount (Sports.currentStats env w)
       + Journal.countFlag false
           (map (fun e => Sports.verified (snd e)) entries))%Z /\
    firstn 50
      (map Sports.e_verified
         (Sports.recentQueries
            (Sports.currentStats env (Journal.sportsLogAll env entries w))))
    = firstn 50
        (rev (map (fun e => Sports.verified (snd e)) entries)
         ++ map Sports.e_verified
                (Sports.recentQueries (Sports.currentStats env w)))%list.
Proof.
  induction entries as [| [elapsed r] rest IH]; intros w.
  - cbn [Journal.sportsLogAll List.length map rev app].
    unfold Journal.countFlag. cbn [filter List.length Z.of_nat].
    repeat split; lia.
  - cbn [Journal.sportsLogAll].
    destruct (IH (snd (Sports.logQuery env r (Sports.advance elapsed w))))
      as (Ht & Hs & He & Hl).
    destruct (sports_step_stats env elapsed r w)
      as (t & s0 & Hstep & Ht0 & Hs0 & He0 & Hl0).
    rewrite Hstep in Ht, Hs, He, Hl.
    destruct (sports_record_counters env t r s0) as (Rt & Rs & Re & Rl).
    rewrite Rt in Ht. rewrite Rs in Hs. rewrite Re in He. rewrite Rl in Hl.
    rewrite Ht0 in Ht. rewrite Hs0 in Hs. rewrite He0 in He. rewrite Hl0 in Hl.
    cbn [map snd rev List.length]. rewrite !countFlag_cons.
    split; [rewrite Ht; lia |].
    split; [rewrite Hs; destruct (Sports.verified r); cbn [Bool.eqb]; lia |].
    split; [rewrite He; destruct (Sports.verified r); cbn [Bool.eqb]; lia |].
    rewrite Hl. rewrite firstn_app_firstn by lia.
    rewrite <- app_assoc. reflexivity.
Qed.

Lemma sports_journal_bounded (env : Sports.Env) :
  forall (entries : list (Z * Sports.VerificationResult)) (w : Sports.World),
    entries <> [] ->
    (List.length
       (Sports.recentQueries
          (Sports.currentStats env (Journal.sportsLogAll env entries w)))
     <= 50)%nat.
Proof.
  induction entries as [| [elapsed r] rest IH]; intros w Hne;
    [congruence |].
  cbn [Journal.sportsLogAll]. destruct rest as [| e rest].
  - cbn [Journal.sportsLogAll].
    destruct (sports_step_stats env elapsed r w) as (t & s0 & Hstep & _).
    rewrite Hstep. unfold Sports.record. cbn [Sports.recentQueries].
    apply firstn_le_length.
  - apply IH. discriminate.
Qed.

(** X6.  Over any run of recordings of the sports oracle, whatever the
    time between them: the total grows by the number of results, the
    success and error counts by the numbers of verified and of failed
    results, and after at least one recording the log holds at most 50
    entries, whose outcomes are those of the run, newest first, followed
    by the older ones, cut to 50. *)
Theorem sports_journal_counts :
  forall (env : Sports.Env)
         (entries : list (Z * Sports.VerificationResult))
         (w : Sports.World),
    Sports.totalQueries
      (Sports.currentStats env (Journal.sportsLogAll env entries w))
    = (Sports.totalQueries (Sports.currentStats env w)
       + Z.of_nat (List.length entries))%Z /\
    Sports.successCount
      (Sports.currentStats env (Journal.sportsLogAll env entries w))
    = (Sports.successCount (Sports.currentStats env w)
       + Journal.countFlag true
           (map (fun e => Sports.verified (snd e)) entries))%Z /\
    Sports.errorCount
      (Sports.currentStats env (Journal.sportsLogAll env entries w))
    = (Sports.errorCount (Sports.currentStats env w)
       + Journal.countFlag false
           (map (fun e => Sports.verified (snd e)) entries))%Z /\
    (entries <> [] ->
     (List.length
        (Sports.recentQueries
           (Sports.currentStats env (Journal.sportsLogAll env entries w)))
      <= 50)%nat /\
     map Sports.e_verified
         (Sports.recentQueries
            (Sports.currentStats env (Journal.sportsLogAll env entries w)))
     = firstn 50
         (rev (map (fun e => Sports.verified (snd e)) entries)
          ++ map Sports.e_verified
                 (Sports.recentQueries (Sports.currentStats env w)))%list).
Proof.
  intros env entries w.
  destruct (sports_journal_invariant env entries w) as (Ht & Hs & He & Hl).
  split; [exact Ht |]. split; [exact Hs |]. split; [exact He |].
  intros Hne. pose proof (sports_journal_bounded env w Hne) as Hlen.
  split; [exact Hlen |].
  rewrite <- Hl. symmetry. apply firstn_all2. rewrite length_map. exact Hlen.
Qed.

(** Fifty-two recordings on an empty store: the two oldest fall out. *)
Example sports_journal_window :
  map Sports.e_verified
      (Sports.recentQueries
         (Sports.currentStats Fixtures.sportsEnv
            (Journal.sportsLogAll Fixtures.sportsEnv
               ((0, Sports.noTeamResult Fixtures.t0
                      (Sports.normalizeQuery
                         (Sports.parseQuestion Fixtures.sportsEnv Fixtures.t0
                                               "who won?")))
                :: repeat (1000, Fixtures.lakersWin) 51)%Z
               Fixtures.freshSports)))
  = repeat true 50.
Proof. vm_compute. reflexivity. Qed.

(** ** The hourly histogram *)

Lemma incrAt_length (h : nat) :
  forall l, (h < List.length l)%nat ->
            List.length (incrAt h l) = List.length l.
Proof.
  induction h as [| h IH]; intros [| x l] Hlt; simpl in *; try lia.
  rewrite IH; lia.
Qed.

Lemma incrAt_sum (h : nat) :
  forall l, (h < List.length l)%nat ->
            Journal.sumSlots (incrAt h l) = (Journal.sumSlots l + 1)%Z.
Proof.
  induction h as [| h IH]; intros [| x l] Hlt;
    cbn [incrAt Journal.sumSlots incrSlot List.length] in *; try lia.
  - destruct x; lia.
  - destruct x; rewrite IH; lia.
Qed.

Lemma dailyStep_consistent (tz t : Z) (before after : Spec.Daily) :
  Spec.dailyStep tz t before after ->
  Props.dailyConsistent (Spec.d_today before) (Spec.d_hourly before) ->
  Props.dailyConsistent (Spec.d_today after) (Spec.d_hourly after).
Proof.
  unfold Spec.dailyStep, Props.dailyConsistent.
  intros (Hhour & Hreset & Hsame) (Hlen & Hsum).
  assert (Hh : (Z.to_nat (getHours tz t) < 24)%nat) by lia.
  destruct (string_dec (Spec.d_lastReset before) (toDateString tz t))
    as [Heq | Hne].
  - destruct (Hsame Heq) as (Ht & Hh' & _). rewrite Ht, Hh'.
    rewrite incrAt_length, incrAt_sum by (rewrite Hlen; exact Hh).
    split; [exact Hlen | lia].
  - destruct (Hreset Hne) as (Ht & Hh' & _). rewrite Ht, Hh'.
    rewrite incrAt_length, incrAt_sum by (rewrite repeat_length; exact Hh).
    split; [apply repeat_length | reflexivity].
Qed.

Lemma sports_advance_consistent (env : Sports.Env) (elapsed : Z)
      (w : Sports.World) :
  Props.dailyConsistent (Sports.todayQueries (Sports.currentStats env w))
                  (Sports.hourlyData (Sports.currentStats env w)) ->
  Props.dailyConsistent
    (Sports.todayQueries
       (Sports.currentStats env (Sports.advance elapsed w)))
    (Sports.hourlyData
       (Sports.currentStats env (Sports.advance elapsed w))).
Proof.
  unfold Sports.currentStats, Sports.advance. cbn [Sports.statsFile].
  destruct (Sports.statsFile w); [trivial |]. intros _. split; reflexivity.
Qed.

(** X7.  Recording keeps the histogram of the sports store in step with
    the daily count: if the store has its 24 buckets and they add up to
    [todayQueries], so it is after any run of recordings, across resets
    at date changes and whatever the time between the recordings.  The
    store [loadStats] starts from when the file is missing is such a
    store. *)
Theorem sports_histogram_matches_today :
  forall (env : Sports.Env)
         (entries : list (Z * Sports.VerificationResult))
         (w : Sports.World),
    Props.dailyConsistent (Sports.todayQueries (Sports.currentStats env w))
                    (Sports.hourlyData (Sports.currentStats env w)) ->
    Props.dailyConsistent
      (Sports.todayQueries
         (Sports.currentStats env (Journal.sportsLogAll env entries w)))
      (Sports.hourlyData
         (Sports.currentStats env (Journal.sportsLogAll env entries w))).
Proof.
  intros env entries. induction entries as [| [elapsed r] rest IH];
    intros w Hw; [exact Hw |].
  cbn [Journal.sportsLogAll]. apply IH.
  apply (sports_advance_consistent env elapsed) in Hw.
  rewrite sports_logQuery_world. cbn [snd Sports.currentStats Sports.statsFile].
  exact (dailyStep_consistent
           (sports_record_daily env (Sports.now (Sports.advance elapsed w)) r
                                (Sports.currentStats env (Sports.advance elapsed w)))
           Hw).
Qed.

(** [sports_histogram_matches_today] from a missing file: three
    recordings, the last one a day later. *)
Lemma sports_histogram_matches_today_witness :
  Props.dailyConsistent
    (Sports.todayQueries
       (Sports.currentStats Fixtures.sportsEnv
          (Journal.sportsLogAll Fixtures.sportsEnv
             [(0, Fixtures.lakersWin); (3600000, Fixtures.lakersWin);
              (86400000, Fixtures.lakersWin)]%Z
             Fixtures.freshSports)))
    (Sports.hourlyData
       (Sports.currentStats Fixtures.sportsEnv
          (Journal.sportsLogAll Fixtures.sportsEnv
             [(0, Fixtures.lakersWin); (3600000, Fixtures.lakersWin);
              (86400000, Fixtures.lakersWin)]%Z
             Fixtures.freshSports))).
Proof.
  apply (@sports_histogram_matches_today Fixtures.sportsEnv
           [(0, Fixtures.lakersWin); (3600000, Fixtures.lakersWin);
            (86400000, Fixtures.lakersWin)]%Z
           Fixtures.freshSports).
  split; reflexivity.
Defined.

(* ------------------------------------------------------------------ *)
(** * The reddit adapters and their pacing                             *)
(* ------------------------------------------------------------------ *)

Lemma enforceRateLimit_exact (w : Reddit.World) :
  Reddit.enforceRateLimit w = (Ret tt, Props.afterWait w).
Proof.
  unfold Reddit.enforceRateLimit, bind, gets, modify, Reddit.sleep,
    Props.afterWait, Props.sendTime, Props.waitOf.
  cbn [fst snd].
  destruct (Z.ltb_spec (Reddit.now w - Reddit.lastRequestTime w)
                       Reddit.requestDelayMs) as [Hlt | Hge];
    cbn [Reddit.now Reddit.trace Reddit.statsFile Reddit.lastRequestTime].
  - replace (Z.max (Reddit.now w)
                   (Reddit.lastRequestTime w + Reddit.requestDelayMs))
      with (Reddit.now w
            + (Reddit.requestDelayMs
               - (Reddit.now w - Reddit.lastRequestTime w)))%Z by lia.
    reflexivity.
  - replace (Z.max (Reddit.now w)
                   (Reddit.lastRequestTime w + Reddit.requestDelayMs))
      with (Reddit.now w) by lia.
    rewrite app_nil_r. reflexivity.
Qed.

(** An adapter: the wait, one request, and a decoding of the answer that
    neither throws nor touches the world. *)
Lemma paced_call (env : Reddit.Env) (D : Type)
      (respond : Request -> Z -> Http D) (req : Request)
      (decode : Http D -> M Reddit.World Reddit.Data) (w : Reddit.World) :
  (forall response w1, exists d, decode response w1 = (Ret d, w1)) ->
  exists d,
    (Reddit.enforceRateLimit ;;;
     response <- Reddit.httpGet env respond req ;; decode response)%eff w
    = (Ret d, Props.afterCall env req w).
Proof.
  intros Hdecode. unfold bind at 1. rewrite enforceRateLimit_exact.
  unfold bind, Reddit.httpGet.
  cbn [Props.afterWait Reddit.now Reddit.trace Reddit.statsFile
       Reddit.lastRequestTime].
  match goal with
  | |- context [decode ?response ?w1] =>
      destruct (Hdecode response w1) as (d & Hd); rewrite Hd
  end.
  exists d. unfold Props.afterCall. rewrite <- app_assoc. reflexivity.
Qed.

Lemma fetchSubreddit_world (env : Reddit.Env) (sub sort : string) (lim : Z)
      (w : Reddit.World) :
  exists d,
    Reddit.fetchSubreddit env sub sort lim w
    = (Ret d,
       Props.afterCall env
         (Reddit.redditGet ("https://www.reddit.com/r/" ++ sub ++ "/" ++ sort
                            ++ ".json?limit=" ++ showZ lim)) w).
Proof.
  unfold Reddit.fetchSubreddit. apply paced_call.
  intros [[[posts after] |] | status msg] w1; try (eexists; reflexivity).
  repeat match goal with
         | |- context [if ?b then _ else _] => destruct b
         end; eexists; reflexivity.
Qed.

Lemma fetchPost_world (env : Reddit.Env) (sub id : string)
      (w : Reddit.World) :
  exists d,
    Reddit.fetchPost env sub id w
    = (Ret d,
       Props.afterCall env
         (Reddit.redditGet ("https://www.reddit.com/r/" ++ sub ++ "/comments/"
                            ++ id ++ ".json")) w).
Proof.
  unfold Reddit.fetchPost. apply paced_call.
  intros [[[[post |] cs] |] | status msg] w1; eexists; reflexivity.
Qed.

Lemma searchSubreddit_world (env : Reddit.Env) (sub q : string) (lim : Z)
      (w : Reddit.World) :
  exists d,
    Reddit.searchSubreddit env sub q lim w
    = (Ret d,
       Props.afterCall env
         (Reddit.redditGet ("https://www.reddit.com/r/" ++ sub
                            ++ "/search.json?q=" ++ encodeURIComponent q
                            ++ "&restrict_sr=on&limit=" ++ showZ lim)) w).
Proof.
  unfold Reddit.searchSubreddit. apply paced_call.
  intros [[posts |] | status msg] w1; eexists; reflexivity.
Qed.

(** X8.  Each of the three reddit adapters, whatever reddit answers:
    never throws; waits only when less than [requestDelayMs] have passed
    since the noted time of the previous call, and then for exactly the
    time that is missing; sends exactly one request, to the address of
    its arguments, with the user agent and the 10 s timeout; notes the
    moment of sending as the time of the last call; and leaves the stats
    file alone. *)
Theorem reddit_adapters_send_one_paced_request :
  forall (env : Reddit.Env) (sub sort id q : string) (lim : Z)
         (w : Reddit.World),
    (exists d,
        Reddit.fetchSubreddit env sub sort lim w
        = (Ret d,
           Props.afterCall env
             (Reddit.redditGet ("https://www.reddit.com/r/" ++ sub ++ "/"
                                ++ sort ++ ".json?limit=" ++ showZ lim)) w)) /\
    (exists d,
        Reddit.fetchPost env sub id w
        = (Ret d,
           Props.afterCall env
             (Reddit.redditGet ("https://www.reddit.com/r/" ++ sub
                                ++ "/comments/" ++ id ++ ".json")) w)) /\
    (exists d,
        Reddit.searchSubreddit env sub q lim w
        = (Ret d,
           Props.afterCall env
             (Reddit.redditGet ("https://www.reddit.com/r/" ++ sub
                                ++ "/search.json?q=" ++ encodeURIComponent q
                                ++ "&restrict_sr=on&limit=" ++ showZ lim))
             w)) /\
    (Reddit.lastRequestTime w + Reddit.requestDelayMs <= Props.sendTime w)%Z /\
    (Reddit.now w <= Props.sendTime w)%Z /\
    (Props.waitOf w = [] <->
     (Reddit.lastRequestTime w + Reddit.requestDelayMs <= Reddit.now w)%Z).
Proof.
  intros env sub sort id q lim w.
  split; [apply fetchSubreddit_world |].
  split; [apply fetchPost_world |].
  split; [apply searchSubreddit_world |].
  unfold Props.sendTime, Props.waitOf.
  split; [lia |]. split; [lia |].
  destruct (Z.ltb_spec (Reddit.now w - Reddit.lastRequestTime w)
                       Reddit.requestDelayMs); split;
    try discriminate; try reflexivity; lia.
Qed.

(** ** One call of the reddit [askOracle] *)

Lemma reddit_giveUp_world (env : Reddit.Env) (err hint : string)
      (p : Reddit.Parsed) (w : Reddit.World) :
  Reddit.giveUp env err hint p w
  = (Ret (Reddit.parseFailure (Reddit.now w) err hint p),
     {| Reddit.now := Reddit.now w;
        Reddit.statsFile :=
          Some (Reddit.record env (Reddit.now w)
                  (Reddit.parseFailure (Reddit.now w) err hint p)
                  (Reddit.currentStats env w));
        Reddit.lastRequestTime := Reddit.lastRequestTime w;
        Reddit.trace := Reddit.trace w |}).
Proof. reflexivity. Qed.

Lemma reddit_conclude_world (env : Reddit.Env) (p : Reddit.Parsed)
      (sub : string) (c : Q) (d : Reddit.Data) (w : Reddit.World) :
  exists r,
    Reddit.conclude env p sub c d w
    = (Ret r,
       {| Reddit.now := Reddit.now w;
          Reddit.statsFile :=
            Some (Reddit.record env (Reddit.now w) r
                    (Reddit.currentStats env w));
          Reddit.lastRequestTime := Reddit.lastRequestTime w;
          Reddit.trace := Reddit.trace w |}) /\
    Reddit.safetyTriggered r = false /\
    Reddit.timestamp r = toISOString (Reddit.now w).
Proof.
  unfold Reddit.conclude, bind, gets. cbn [fst snd].
  eexists. split; [reflexivity |].
  destruct (Reddit.optTruthy (Reddit.d_error d)); split; reflexivity.
Qed.

(** What one call does: it is rejected and changes nothing, or it
    records its result once, after at most one adapter call. *)
Lemma reddit_askOracle_step (env : Reddit.Env) (question : string)
      (w : Reddit.World) :
  exists r w',
    Reddit.askOracle env question w = (Ret r, w') /\
    ((Reddit.safe (Reddit.checkStats (Reddit.currentStats env w)) = false /\
      w' = w /\ Reddit.safetyTriggered r = true) \/
     (Reddit.safe (Reddit.checkStats (Reddit.currentStats env w)) = true /\
      Reddit.safetyTriggered r = false /\
      Reddit.timestamp r = toISOString (Reddit.now w') /\
      Reddit.statsFile w'
      = Some (Reddit.record env (Reddit.now w') r
                (Props.redditStatsAt env w (Reddit.now w'))) /\
      ((Reddit.now w' = Reddit.now w /\
        Reddit.lastRequestTime w' = Reddit.lastRequestTime w /\
        Reddit.trace w' = Reddit.trace w /\
        Reddit.success r = false) \/
       (exists u,
           Reddit.now w'
           = Reddit.now (Props.afterCall env (Reddit.redditGet u) w) /\
           Reddit.lastRequestTime w' = Props.sendTime w /\
           Reddit.trace w'
           = Reddit.trace (Props.afterCall env (Reddit.redditGet u) w))))).
Proof.
  unfold Reddit.askOracle, Reddit.checkSafetyLimits, Reddit.loadStats.
  unfold bind at 1 2 3. unfold gets at 1 2. cbn [ret].
  destruct (Reddit.safe (Reddit.checkStats (Reddit.currentStats env w)))
    eqn:Hsafe; cbn [negb].
  2: { eexists; eexists. split; [reflexivity |]. left.
       repeat split; reflexivity. }
  generalize (Reddit.parseQuestion question). intros p.
  assert (Hgive : forall err hint,
             exists r w',
               Reddit.giveUp env err hint p w = (Ret r, w') /\
               (true = false /\ w' = w /\ Reddit.safetyTriggered r = true \/
                true = true /\
                Reddit.safetyTriggered r = false /\
                Reddit.timestamp r = toISOString (Reddit.now w') /\
                Reddit.statsFile w'
                = Some (Reddit.record env (Reddit.now w') r
                          (Props.redditStatsAt env w (Reddit.now w'))) /\
                (Reddit.now w' = Reddit.now w /\
                 Reddit.lastRequestTime w' = Reddit.lastRequestTime w /\
                 Reddit.trace w' = Reddit.trace w /\
                 Reddit.success r = false \/
                 (exists u,
                     Reddit.now w'
                     = Reddit.now (Props.afterCall env (Reddit.redditGet u) w) /\
                     Reddit.lastRequestTime w' = Props.sendTime w /\
                     Reddit.trace w'
                     = Reddit.trace
                         (Props.afterCall env (Reddit.redditGet u) w))))).
  { intros err hint. rewrite reddit_giveUp_world.
    eexists; eexists. split; [reflexivity |]. right.
    cbn [Reddit.now Reddit.statsFile Reddit.lastRequestTime Reddit.trace].
    split; [reflexivity |]. split; [reflexivity |]. split; [reflexivity |].
    split; [reflexivity |]. left. repeat split; reflexivity. }
  assert (Hcall : forall (adapter : M Reddit.World Reddit.Data) c u,
             (exists d,
                 adapter w
                 = (Ret d, Props.afterCall env (Reddit.redditGet u) w)) ->
             exists r w',
               (data_ <- adapter ;; Reddit.conclude env p
                                      match orNull (Reddit.subreddit p) with
                                      | Some sub => sub
                                      | None => EmptyString
                                      end c data_)%eff w = (Ret r, w') /\
               (true = false /\ w' = w /\ Reddit.safetyTriggered r = true \/
                true = true /\
                Reddit.safetyTriggered r = false /\
                Reddit.timestamp r = toISOString (Reddit.now w') /\
                Reddit.statsFile w'
                = Some (Reddit.record env (Reddit.now w') r
                          (Props.redditStatsAt env w (Reddit.now w'))) /\
                (Reddit.now w' = Reddit.now w /\
                 Reddit.lastRequestTime w' = Reddit.lastRequestTime w /\
                 Reddit.trace w' = Reddit.trace w /\
                 Reddit.success r = false \/
                 (exists u,
                     Reddit.now w'
                     = Reddit.now (Props.afterCall env (Reddit.redditGet u) w) /\
                     Reddit.lastRequestTime w' = Props.sendTime w /\
                     Reddit.trace w'
                     = Reddit.trace
                         (Props.afterCall env (Reddit.redditGet u) w))))).
  { intros adapter c u (d & Hrun). unfold bind. rewrite Hrun.
    destruct (reddit_conclude_world env p
                match orNull (Reddit.subreddit p) with
                | Some sub => sub
                | None => EmptyString
                end c d (Props.afterCall env (Reddit.redditGet u) w))
      as (r & Hc & Hst & Hts).
    rewrite Hc. exists r. eexists. split; [reflexivity |]. right.
    cbn [Reddit.now Reddit.statsFile Reddit.lastRequestTime Reddit.trace
         Props.afterCall] in *.
    split; [reflexivity |]. split; [exact Hst |]. split; [exact Hts |].
    split; [reflexivity |]. right. exists u. repeat split; reflexivity. }
  destruct (orNull (Reddit.subreddit p)) as [sub |]; [| apply Hgive].
  destruct (Reddit.type p).
  - eapply Hcall. apply fetchSubreddit_world.
  - eapply Hcall. apply fetchSubreddit_world.
  - eapply Hcall. apply fetchSubreddit_world.
  - destruct (value_truthy (Reddit.postId p)); [| apply Hgive].
    eapply Hcall. apply fetchPost_world.
  - destruct (orNull (Reddit.keyword p)) as [kw |]; [| apply Hgive].
    eapply Hcall. apply searchSubreddit_world.
Qed.

(** X9.  One call of the reddit [askOracle], for a question that is a
    string and a stats file that is missing or holds a stats document.
    A call the pre-check rejects changes nothing at all.  Every other
    call that returns has recorded its own result exactly once, at the
    moment it returns: the stats file then holds the stats the call
    started from (a fresh document dated at that moment when there was
    no file) with that one result recorded, and the result's timestamp
    is that moment; time has not gone back.  A call that ends with an
    exception has recorded nothing. *)
Theorem reddit_askOracle_records_once :
  forall (env : Reddit.Env) (question : string) (w : Reddit.World),
    match Reddit.askOracle env question w with
    | (Ret r, w') =>
        (Reddit.now w <= Reddit.now w')%Z /\
        if Reddit.safe (Reddit.checkStats (Reddit.currentStats env w))
        then Reddit.safetyTriggered r = false /\
             Reddit.timestamp r = toISOString (Reddit.now w') /\
             Reddit.statsFile w'
             = Some (Reddit.record env (Reddit.now w') r
                       (Props.redditStatsAt env w (Reddit.now w')))
        else w' = w /\ Reddit.safetyTriggered r = true
    | (Throw _, w') => Reddit.statsFile w' = Reddit.statsFile w
    end.
Proof.
  intros env question w.
  destruct (reddit_askOracle_step env question w)
    as (r & w' & Hrun & [(Hsafe & Hw & Hst) | (Hsafe & Hst & Hts & Hfile & Hcall)]);
    rewrite Hrun, Hsafe.
  - subst w'. split; [lia |]. split; [reflexivity | exact Hst].
  - split; [| repeat split; assumption].
    destruct Hcall as [(Hnow & _) | (u & Hnow & _)]; rewrite Hnow; [lia |].
    unfold Props.afterCall, Props.sendTime. cbn [Reddit.now]. lia.
Qed.

(** A question the parser finds no subreddit in: the failure is
    recorded like any other result. *)
Example reddit_parse_failure_is_recorded :
  exists r w',
    Reddit.askOracle Fixtures.redditEnv "anything going on?"
                     Fixtures.freshReddit = (Ret r, w') /\
    Reddit.error r = Some "could_not_parse_subreddit"%string /\
    option_map Reddit.totalQueries (Reddit.statsFile w') = Some 1%Z /\
    Reddit.trace w' = [].
Proof.
  eexists; eexists. split; [vm_compute; reflexivity |].
  repeat split; reflexivity.
Qed.

(** ** Runs of reddit requests *)

Lemma ForallOrdPairs_snoc {A : Type} (R : A -> A -> Prop) (x : A) :
  forall l, ForallOrdPairs R l -> Forall (fun a => R a x) l ->
            ForallOrdPairs R (l ++ [x]).
Proof.
  induction l as [| a l IH]; intros Hl Hx; simpl.
  - repeat constructor.
  - inversion Hl as [| a' l' Ha Hrest]; subst.
    inversion Hx as [| a' l' Hax Hlx]; subst.
    constructor.
    + apply Forall_app. split; [exact Ha | constructor; [exact Hax | constructor]].
    + apply IH; assumption.
Qed.

Lemma sentAt_afterCall (env : Reddit.Env) (req : Request) (w : Reddit.World) :
  Props.sentAt (Reddit.trace (Props.afterCall env req w))
  = (Props.sentAt (Reddit.trace w) ++ [Props.sendTime w])%list.
Proof.
  unfold Props.sentAt, Props.afterCall, Props.waitOf. cbn [Reddit.trace].
  rewrite !filter_app, !map_app.
  destruct (_ <? _)%Z; reflexivity.
Qed.

Lemma wellFormed_afterCall (env : Reddit.Env) (u : string) (w : Reddit.World) :
  Forall Props.wellFormed (Reddit.trace w) ->
  Forall Props.wellFormed
         (Reddit.trace (Props.afterCall env (Reddit.redditGet u) w)).
Proof.
  intros H. unfold Props.afterCall, Props.waitOf. cbn [Reddit.trace].
  apply Forall_app. split; [exact H |].
  apply Forall_app. split.
  - destruct (_ <? _)%Z; repeat constructor.
  - repeat constructor.
Qed.

Lemma courteous_step (env : Reddit.Env) (question : string)
      (w : Reddit.World) :
  Props.courteous w ->
  Props.courteous (snd (Reddit.askOracle env question w)).
Proof.
  intros (Hgap & Hlast & Hreq).
  destruct (reddit_askOracle_step env question w)
    as (r & w' & Hrun & [(_ & Hw & _) | (_ & _ & _ & _ & Hcall)]);
    rewrite Hrun; cbn [snd].
  - subst w'. repeat split; assumption.
  - destruct Hcall as [(_ & Hl & Ht & _) | (u & _ & Hl & Ht)];
      unfold Props.courteous; rewrite Hl, Ht.
    + repeat split; assumption.
    + rewrite sentAt_afterCall.
      split; [| split].
      * apply ForallOrdPairs_snoc; [exact Hgap |].
        eapply Forall_impl; [| exact Hlast].
        intros t Ht'. cbv beta in Ht' |- *. unfold Props.sendTime. lia.
      * apply Forall_app. split.
        -- eapply Forall_impl; [| exact Hlast].
           intros t Ht'. cbv beta in Ht' |- *.
           unfold Props.sendTime, Reddit.requestDelayMs. lia.
        -- repeat constructor. lia.
      * apply wellFormed_afterCall. exact Hreq.
Qed.

(** X10.  Over any run of reddit requests, whatever the questions, the
    time between them and the answers of reddit: if so far every two
    outbound requests were sent at least [requestDelayMs] apart, none
    after the noted time of the last call, each with the user agent and
    the 10 s timeout, then the same holds at the end of the run.  A
    world in which nothing was sent yet is such a world. *)
Theorem reddit_requests_are_spaced :
  forall (env : Reddit.Env) (requests : list (Z * string))
         (w : Reddit.World),
    Props.courteous w ->
    Props.courteous (snd (Reddit.serveAll env requests w)).
Proof.
  intros env requests. induction requests as [| [elapsed question] rest IH];
    intros w Hw; [exact Hw |].
  cbn [Reddit.serveAll].
  assert (Hadv : Props.courteous (Reddit.advance elapsed w)) by exact Hw.
  apply (courteous_step env question) in Hadv.
  destruct (Reddit.askOracle env question (Reddit.advance elapsed w))
    as [r w1]. cbn [snd] in Hadv.
  specialize (IH w1 Hadv).
  destruct (Reddit.serveAll env rest w1) as [rs w2]. exact IH.
Qed.

(** [reddit_requests_are_spaced] at work: three questions in quick
    succession to a world in which nothing was sent yet. *)
Lemma reddit_requests_are_spaced_witness :
  Props.courteous
    (snd (Reddit.serveAll Fixtures.redditEnv
            [(0, Fixtures.wsbQuestion); (10, "What is new on r/rust?");
             (500, "search r/coq for tactics")]%Z
            Fixtures.freshReddit)).
Proof.
  apply (@reddit_requests_are_spaced Fixtures.redditEnv
           [(0, Fixtures.wsbQuestion); (10, "What is new on r/rust?");
            (500, "search r/coq for tactics")]%Z
           Fixtures.freshReddit).
  unfold Props.courteous. cbn.
  split; [constructor | split; constructor].
Defined.

(** The run of the witness: three requests, 2000 ms apart although the
    questions came 10 ms and 500 ms after the answers. *)
Example reddit_spacing_at_work :
  Props.sentAt
    (Reddit.trace
       (snd (Reddit.serveAll Fixtures.redditEnv
               [(0, Fixtures.wsbQuestion); (10, "What is new on r/rust?");
                (500, "search r/coq for tactics")]%Z
               Fixtures.freshReddit)))
  = [Fixtures.t0; Fixtures.t0 + 2000; Fixtures.t0 + 4000]%Z.
Proof. vm_compute. reflexivity. Qed.

Lemma admitted_cons (a : Res Reddit.VerificationResult)
      (answers : list (Res Reddit.VerificationResult)) :
  Props.admitted (a :: answers)
  = ((match a with
      | Ret r => if Reddit.safetyTriggered r then 0 else 1
      | Throw _ => 0
      end) + Props.admitted answers)%Z.
Proof.
  unfold Props.admitted. cbn [filter].
  destruct a as [r | e]; [destruct (Reddit.safetyTriggered r) |];
    cbn [negb List.length]; lia.
Qed.

(** X11.  The accounting of the reddit oracle over any run of requests,
    each a string, from a stats file that is missing or holds a stats
    document: the total number of queries in the stats grows by exactly
    the number of answers that are results and no rejection of the
    pre-check.  A rejected request is not counted, and neither is one
    that ends with an exception. *)
Theorem reddit_total_counts_admitted_requests :
  forall (env : Reddit.Env) (requests : list (Z * string))
         (w : Reddit.World),
    Reddit.totalQueries
      (Reddit.currentStats env (snd (Reddit.serveAll env requests w)))
    = (Reddit.totalQueries (Reddit.currentStats env w)
       + Props.admitted (fst (Reddit.serveAll env requests w)))%Z.
Proof.
  intros env requests. induction requests as [| [elapsed question] rest IH];
    intros w.
  - cbn. lia.
  - cbn [Reddit.serveAll].
    destruct (reddit_askOracle_step env question (Reddit.advance elapsed w))
      as (r & w1 & Hrun & Hcases).
    rewrite Hrun. specialize (IH w1).
    destruct (Reddit.serveAll env rest w1) as [rs w2].
    cbn [fst snd] in IH |- *.
    rewrite IH, admitted_cons.
    assert (Hadv : Reddit.totalQueries
                     (Reddit.currentStats env (Reddit.advance elapsed w))
                   = Reddit.totalQueries (Reddit.currentStats env w)).
    { unfold Reddit.currentStats, Reddit.advance. cbn [Reddit.statsFile].
      destruct (Reddit.statsFile w); reflexivity. }
    destruct Hcases as [(_ & Hw & Hst) | (_ & Hst & _ & Hfile & _)];
      rewrite Hst.
    + subst w1. rewrite Hadv. lia.
    + unfold Reddit.currentStats at 1. rewrite Hfile.
      unfold Reddit.record. cbn [Reddit.totalQueries].
      unfold Props.redditStatsAt, Reddit.advance. cbn [Reddit.statsFile].
      unfold Reddit.currentStats.
      destruct (Reddit.statsFile w); cbn [Reddit.totalQueries Reddit.initialStats]; lia.
Qed.

(** Three requests to a store one query short of the daily limit: the
    first is counted, the two after it are rejected and are not. *)
Example reddit_counts_one_of_three :
  Props.admitted
    (fst (Reddit.serveAll Fixtures.redditEnv
            [(0, Fixtures.wsbQuestion); (10, Fixtures.wsbQuestion);
             (10, Fixtures.wsbQuestion)]%Z
            Props.redditNearQuota)) = 1%Z /\
  option_map Reddit.totalQueries
    (Reddit.statsFile
       (snd (Reddit.serveAll Fixtures.redditEnv
               [(0, Fixtures.wsbQuestion); (10, Fixtures.wsbQuestion);
                (10, Fixtures.wsbQuestion)]%Z
               Props.redditNearQuota))) = Some 500%Z.
Proof. split; vm_compute; reflexivity. Qed.

(* ------------------------------------------------------------------ *)
(** * A rejecting pre-check stays                                      *)
(* ------------------------------------------------------------------ *)

Lemma sports_unsafe_stored (env : Sports.Env) (w : Sports.World) :
  Sports.safe (Sports.checkStats (Sports.currentStats env w)) = false ->
  exists stats, Sports.statsFile w = Some stats.
Proof.
  unfold Sports.currentStats. destruct (Sports.statsFile w) as [stats |].
  - intros _. exists stats. reflexivity.
  - discriminate.
Qed.

Lemma reddit_unsafe_stored (env : Reddit.Env) (w : Reddit.World) :
  Reddit.safe (Reddit.checkStats (Reddit.currentStats env w)) = false ->
  exists stats, Reddit.statsFile w = Some stats.
Proof.
  unfold Reddit.currentStats. destruct (Reddit.statsFile w) as [stats |].
  - intros _. exists stats. reflexivity.
  - discriminate.
Qed.

(** Once the pre-check rejects, a run of requests changes neither the
    stats file nor the trace, and each answer is the same rejection. *)
Lemma sports_serveAll_rejected (env : Sports.Env) :
  forall requests w,
    Sports.safe (Sports.checkStats (Sports.currentStats env w)) = false ->
    Sports.statsFile (snd (Sports.serveAll env requests w))
    = Sports.statsFile w /\
    Sports.trace (snd (Sports.serveAll env requests w)) = Sports.trace w /\
    Forall (fun out =>
              exists r, out = Ret r /\ Sports.safetyTriggered r = true /\
                        Sports.verified r = false /\
                        Sports.error r
                        = Sports.reason
                            (Sports.checkStats (Sports.currentStats env w)))
           (fst (Sports.serveAll env requests w)).
Proof.
  induction requests as [| [elapsed question] rest IH]; intros w Hunsafe.
  - simpl. repeat split; constructor.
  - destruct (sports_unsafe_stored env w Hunsafe) as [stats Hfile].
    assert (Hcur : Sports.currentStats env (Sports.advance elapsed w)
                   = Sports.currentStats env w).
    { unfold Sports.currentStats, Sports.advance. cbn [Sports.statsFile].
      rewrite Hfile. reflexivity. }
    assert (Hunsafe' :
              Sports.safe (Sports.checkStats
                (Sports.currentStats env (Sports.advance elapsed w))) = false)
      by (rewrite Hcur; exact Hunsafe).
    cbn [Sports.serveAll].
    rewrite sports_askOracle_rejected by exact Hunsafe'.
    specialize (IH (Sports.advance elapsed w) Hunsafe').
    destruct (Sports.serveAll env rest (Sports.advance elapsed w)) as [rs w2].
    cbn [fst snd] in IH |- *. destruct IH as (Hf & Ht & Hall).
    rewrite Hcur in Hall.
    split; [rewrite Hf; reflexivity |].
    split; [rewrite Ht; reflexivity |].
    constructor; [| exact Hall].
    eexists. split; [reflexivity |]. rewrite Hcur.
    repeat split; reflexivity.
Qed.

Lemma reddit_serveAll_rejected (env : Reddit.Env) :
  forall requests w,
    Reddit.safe (Reddit.checkStats (Reddit.currentStats env w)) = false ->
    Reddit.statsFile (snd (Reddit.serveAll env requests w))
    = Reddit.statsFile w /\
    Reddit.trace (snd (Reddit.serveAll env requests w)) = Reddit.trace w /\
    Forall (fun out =>
              exists r, out = Ret r /\ Reddit.safetyTriggered r = true /\
                        Reddit.success r = false /\
                        Reddit.error r
                        = Reddit.reason
                            (Reddit.checkStats (Reddit.currentStats env w)))
           (fst (Reddit.serveAll env requests w)).
Proof.
  induction requests as [| [elapsed question] rest IH]; intros w Hunsafe.
  - simpl. repeat split; constructor.
  - destruct (reddit_unsafe_stored env w Hunsafe) as [stats Hfile].
    assert (Hcur : Reddit.currentStats env (Reddit.advance elapsed w)
                   = Reddit.currentStats env w).
    { unfold Reddit.currentStats, Reddit.advance. cbn [Reddit.statsFile].
      rewrite Hfile. reflexivity. }
    assert (Hunsafe' :
              Reddit.safe (Reddit.checkStats
                (Reddit.currentStats env (Reddit.advance elapsed w))) = false)
      by (rewrite Hcur; exact Hunsafe).
    cbn [Reddit.serveAll].
    rewrite reddit_askOracle_rejected by exact Hunsafe'.
    specialize (IH (Reddit.advance elapsed w) Hunsafe').
    destruct (Reddit.serveAll env rest (Reddit.advance elapsed w)) as [rs w2].
    cbn [fst snd] in IH |- *. destruct IH as (Hf & Ht & Hall).
    rewrite Hcur in Hall.
    split; [rewrite Hf; reflexivity |].
    split; [rewrite Ht; reflexivity |].
    constructor; [| exact Hall].
    eexists. split; [reflexivity |]. rewrite Hcur.
    repeat split; reflexivity.
Qed.

Lemma sports_limit_unsafe (stats : Sports.Stats) :
  Sports.reason (Sports.checkStats stats) = Props.dailyLimitReached ->
  Sports.safe (Sports.checkStats stats) = false.
Proof.
  unfold Sports.checkStats, Props.dailyLimitReached.
  destruct (_ && _)%bool; [reflexivity |].
  destruct (_ <=? _)%Z; [reflexivity | discriminate].
Qed.

Lemma reddit_limit_unsafe (stats : Reddit.Stats) :
  Reddit.reason (Reddit.checkStats stats) = Props.dailyLimitReached ->
  Reddit.safe (Reddit.checkStats stats) = false.
Proof.
  unfold Reddit.checkStats, Props.dailyLimitReached.
  destruct (_ && _)%bool; [reflexivity |].
  destruct (_ <=? _)%Z; [reflexivity | discriminate].
Qed.

(** X12.  The daily limit of the sports oracle outlasts the day.  The
    count of the day is reset by [logQuery] alone, and a rejected
    request is not logged: once the pre-check answers
    [daily_limit_reached], every later request is rejected with that
    error, however much time passes between the requests, the stats
    file stays as it is and no outbound call is made. *)
Theorem sports_daily_limit_outlasts_the_day :
  forall (env : Sports.Env) (requests : list (Z * string))
         (w : Sports.World),
    Sports.reason (Sports.checkStats (Sports.currentStats env w))
    = Props.dailyLimitReached ->
    Sports.statsFile (snd (Sports.serveAll env requests w))
    = Sports.statsFile w /\
    Sports.trace (snd (Sports.serveAll env requests w)) = Sports.trace w /\
    Forall (fun out =>
              exists r, out = Ret r /\ Sports.safetyTriggered r = true /\
                        Sports.verified r = false /\
                        Sports.error r = Props.dailyLimitReached)
           (fst (Sports.serveAll env requests w)).
Proof.
  intros env requests w Hlimit.
  destruct (@sports_serveAll_rejected env requests w
              (sports_limit_unsafe _ Hlimit)) as (Hf & Ht & Hall).
  rewrite Hlimit in Hall. repeat split; assumption.
Qed.

(** [sports_daily_limit_outlasts_the_day] at work: the limit was reached
    on 2 November; questions asked one and two days later. *)
Lemma sports_daily_limit_outlasts_the_day_witness :
  Sports.statsFile
    (snd (Sports.serveAll Fixtures.sportsEnv
            [(Props.day, Fixtures.lakersQuestion);
             (Props.day, Fixtures.lakersQuestion)]
            Props.sportsAtQuota))
  = Sports.statsFile Props.sportsAtQuota /\
  Sports.trace
    (snd (Sports.serveAll Fixtures.sportsEnv
            [(Props.day, Fixtures.lakersQuestion);
             (Props.day, Fixtures.lakersQuestion)]
            Props.sportsAtQuota))
  = Sports.trace Props.sportsAtQuota /\
  Forall (fun out =>
            exists r, out = Ret r /\ Sports.safetyTriggered r = true /\
                      Sports.verified r = false /\
                      Sports.error r = Props.dailyLimitReached)
         (fst (Sports.serveAll Fixtures.sportsEnv
                 [(Props.day, Fixtures.lakersQuestion);
                  (Props.day, Fixtures.lakersQuestion)]
                 Props.sportsAtQuota)).
Proof.
  apply (@sports_daily_limit_outlasts_the_day Fixtures.sportsEnv
           [(Props.day, Fixtures.lakersQuestion);
            (Props.day, Fixtures.lakersQuestion)]
           Props.sportsAtQuota).
  vm_compute. reflexivity.
Defined.

(** The second answer of that run is given on 4 November. *)
Example sports_rejected_two_days_later :
  map (fun out => match out with
                  | Ret r => (Sports.error r, Sports.timestamp r)
                  | Throw e => (None, e)
                  end)
      (fst (Sports.serveAll Fixtures.sportsEnv
              [(Props.day, Fixtures.lakersQuestion);
               (Props.day, Fixtures.lakersQuestion)]
              Props.sportsAtQuota))
  = [(Props.dailyLimitReached, "2026-11-03T19:24:00.123Z"%string);
     (Props.dailyLimitReached, "2026-11-04T19:24:00.123Z"%string)].
Proof. vm_compute. reflexivity. Qed.

(** X13.  The daily limit of the reddit oracle outlasts the day in the
    same way: once the pre-check answers [daily_limit_reached], every
    later request is rejected with that error, whatever the time between
    the requests; the stats file stays as it is and nothing is sent. *)
Theorem reddit_daily_limit_outlasts_the_day :
  forall (env : Reddit.Env) (requests : list (Z * string))
         (w : Reddit.World),
    Reddit.reason (Reddit.checkStats (Reddit.currentStats env w))
    = Props.dailyLimitReached ->
    Reddit.statsFile (snd (Reddit.serveAll env requests w))
    = Reddit.statsFile w /\
    Reddit.trace (snd (Reddit.serveAll env requests w)) = Reddit.trace w /\
    Forall (fun out =>
              exists r, out = Ret r /\ Reddit.safetyTriggered r = true /\
                        Reddit.success r = false /\
                        Reddit.error r = Props.dailyLimitReached)
           (fst (Reddit.serveAll env requests w)).
Proof.
  intros env requests w Hlimit.
  destruct (@reddit_serveAll_rejected env requests w
              (reddit_limit_unsafe _ Hlimit)) as (Hf & Ht & Hall).
  rewrite Hlimit in Hall. repeat split; assumption.
Qed.

Lemma reddit_daily_limit_outlasts_the_day_witness :
  Reddit.statsFile
    (snd (Reddit.serveAll Fixtures.redditEnv
            [(Props.day, Fixtures.wsbQuestion);
             (Props.day, Fixtures.wsbQuestion)]
            Props.redditAtQuota))
  = Reddit.statsFile Props.redditAtQuota /\
  Reddit.trace
    (snd (Reddit.serveAll Fixtures.redditEnv
            [(Props.day, Fixtures.wsbQuestion);
             (Props.day, Fixtures.wsbQuestion)]
            Props.redditAtQuota))
  = Reddit.trace Props.redditAtQuota /\
  Forall (fun out =>
            exists r, out = Ret r /\ Reddit.safetyTriggered r = true /\
                      Reddit.success r = false /\
                      Reddit.error r = Props.dailyLimitReached)
         (fst (Reddit.serveAll Fixtures.redditEnv
                 [(Props.day, Fixtures.wsbQuestion);
                  (Props.day, Fixtures.wsbQuestion)]
                 Props.redditAtQuota)).
Proof.
  apply (@reddit_daily_limit_outlasts_the_day Fixtures.redditEnv
           [(Props.day, Fixtures.wsbQuestion);
            (Props.day, Fixtures.wsbQuestion)]
           Props.redditAtQuota).
  vm_compute. reflexivity.
Defined.

(* ------------------------------------------------------------------ *)
(** * The server past the payment gate                                 *)
(* ------------------------------------------------------------------ *)

Section Paid.
Variables W R : Type.
Variable payments : Server.Facilitator.
Variable config : Server.Config W R.

(** A request with a credential and a question. *)
Lemma verified_request (req : Server.IncomingMessage) (w : Server.World W)
      (token question : string) :
  orNull (Server.x402Token (Server.headers req)) = Some token ->
  Server.body req = Server.BodyQuestion question ->
  truthy question = true ->
  Server.verifyPermissions payments (Server.paymentRequiredOf config) token 1
  = Server.Verified true ->
  Server.handleOracleRequest payments req config w
  = Server.processAndSettle payments config
      (Server.paymentRequiredOf config) token question
      {| Server.oracleWorld := Server.oracleWorld w;
         Server.paymentCalls :=
           (Server.paymentCalls w ++ [Server.VerifyCall token 1])%list |}.
Proof.
  intros Htoken Hbody Hq Hverify.
  unfold Server.handleOracleRequest. rewrite Htoken, Hbody, Hq.
  cbn [negb]. unfold bind at 1. unfold Server.callVerify.
  fold (Server.paymentRequiredOf config). rewrite Hverify. reflexivity.
Qed.

End Paid.

(** X14.  When the credential is verified and the oracle throws, the
    request is answered with 500 [oracle_error], the message of the
    exception in [details]; the facilitator was asked to verify once and
    is not asked to settle, so the query is not charged; what the oracle
    did before it threw stays done. *)
Theorem oracle_failure_is_answered_500_unsettled :
  forall (W R : Type) (payments : Server.Facilitator)
         (config : Server.Config W R) (req : Server.IncomingMessage)
         (w : Server.World W) (token question msg : string) (ow : W),
    orNull (Server.x402Token (Server.headers req)) = Some token ->
    Server.body req = Server.BodyQuestion question ->
    truthy question = true ->
    Server.verifyPermissions payments (Server.paymentRequiredOf config) token 1
    = Server.Verified true ->
    Server.oracle config question (Server.oracleWorld w) = (Throw msg, ow) ->
    Server.handleOracleRequest payments req config w
    = (Ret {| Server.statusCode := 500;
              Server.json :=
                Server.ErrorBody R "oracle_error" "Failed to process query"
                                 None (Some msg) |},
       {| Server.oracleWorld := ow;
          Server.paymentCalls :=
            (Server.paymentCalls w ++ [Server.VerifyCall token 1])%list |}).
Proof.
  intros W R payments config req w token question msg ow
         Htoken Hbody Hq Hverify Horacle.
  rewrite (@verified_request _ _ payments config req w token question
             Htoken Hbody Hq Hverify).
  unfold Server.processAndSettle, bind, tryCatch, Server.runOracle.
  cbn [Server.oracleWorld Server.paymentCalls]. rewrite Horacle.
  reflexivity.
Qed.

(** [oracle_failure_is_answered_500_unsettled] at work: the provider's
    event has no team names and the question names an opponent, so the
    sports [askOracle] throws after its two outbound calls. *)
Lemma oracle_failure_is_answered_500_unsettled_witness :
  exists ow,
    Sports.askOracle Props.namelessEnv Props.celticsQuestion
                     Fixtures.freshSports
    = (Throw Sports.typeErrorLower, ow) /\
    List.length (Sports.trace ow) = 2%nat /\
    Server.handleOracleRequest Props.settling
      (Fixtures.withToken (Server.BodyQuestion Props.celticsQuestion))
      Props.namelessConfig Fixtures.serverWorld
    = (Ret {| Server.statusCode := 500;
              Server.json :=
                Server.ErrorBody Sports.VerificationResult
                  "oracle_error" "Failed to process query"
                  None (Some Sports.typeErrorLower) |},
       {| Server.oracleWorld := ow;
          Server.paymentCalls := [Server.VerifyCall "tok_123" 1] |}).
Proof.
  eexists. split; [vm_compute; reflexivity |]. split; [reflexivity |].
  apply (@oracle_failure_is_answered_500_unsettled _ _
           Props.settling Props.namelessConfig
           (Fixtures.withToken (Server.BodyQuestion Props.celticsQuestion))
           Fixtures.serverWorld
           "tok_123" Props.celticsQuestion Sports.typeErrorLower _
           eq_refl eq_refl eq_refl eq_refl
           ltac:(vm_compute; reflexivity)).
Defined.

(** X15.  When the credential is verified and the oracle returns, the
    credit is settled whatever the result says: a failed verification or
    a rejection by the safety pre-check is charged like a success.  The
    answer is 200 with the result and a payment record of one credit,
    stamped with the clock after the oracle's work; the facilitator was
    asked to verify once and then to settle once. *)
Theorem every_returned_result_is_charged :
  forall (W R : Type) (payments : Server.Facilitator)
         (config : Server.Config W R) (req : Server.IncomingMessage)
         (w : Server.World W) (token question : string)
         (tx : option string) (r : R) (ow : W),
    orNull (Server.x402Token (Server.headers req)) = Some token ->
    Server.body req = Server.BodyQuestion question ->
    truthy question = true ->
    Server.verifyPermissions payments (Server.paymentRequiredOf config) token 1
    = Server.Verified true ->
    Server.oracle config question (Server.oracleWorld w) = (Ret r, ow) ->
    Server.settlePermissions payments (Server.paymentRequiredOf config) token 1
    = Server.Settled tx ->
    Server.handleOracleRequest payments req config w
    = (Ret {| Server.statusCode := 200;
              Server.json :=
                Server.ResultBody r
                  {| Server.creditsUsed := 1;
                     Server.txHash := tx;
                     Server.p_timestamp :=
                       Some (toISOString (Server.clock config ow));
                     Server.p_error := None;
                     Server.p_message := None |} |},
       {| Server.oracleWorld := ow;
          Server.paymentCalls :=
            (Server.paymentCalls w ++
             [Server.VerifyCall token 1; Server.SettleCall token 1])%list |}).
Proof.
  intros W R payments config req w token question tx r ow
         Htoken Hbody Hq Hverify Horacle Hsettle.
  rewrite (@verified_request _ _ payments config req w token question
             Htoken Hbody Hq Hverify).
  unfold Server.processAndSettle, bind, tryCatch, Server.runOracle.
  cbn [Server.oracleWorld Server.paymentCalls]. rewrite Horacle.
  unfold Server.callSettle, gets. cbn [fst snd Server.paymentCalls].
  fold (Server.paymentRequiredOf config). rewrite Hsettle.
  cbn. rewrite <- app_assoc. reflexivity.
Qed.

(** [every_returned_result_is_charged] at work: the reddit breaker is
    tripped, the oracle does nothing, and the caller pays one credit for
    the rejection. *)
Lemma every_returned_result_is_charged_witness :
  exists r,
    Reddit.error r = Spec.tripped /\
    Server.handleOracleRequest Props.settling
      (Fixtures.withToken (Server.BodyQuestion Fixtures.wsbQuestion))
      Props.redditConfig Props.trippedRedditServer
    = (Ret {| Server.statusCode := 200;
              Server.json :=
                Server.ResultBody r
                  {| Server.creditsUsed := 1;
                     Server.txHash := Some "0x5e771e"%string;
                     Server.p_timestamp := Some "2026-11-02T19:24:00.123Z"%string;
                     Server.p_error := None;
                     Server.p_message := None |} |},
       {| Server.oracleWorld := Fixtures.trippedReddit;
          Server.paymentCalls :=
            [Server.VerifyCall "tok_123" 1; Server.SettleCall "tok_123" 1] |}).
Proof.
  eexists. split; [| apply (@every_returned_result_is_charged _ _
           Props.settling Props.redditConfig
           (Fixtures.withToken (Server.BodyQuestion Fixtures.wsbQuestion))
           Props.trippedRedditServer
           "tok_123" Fixtures.wsbQuestion (Some "0x5e771e"%string) _ _
           eq_refl eq_refl eq_refl eq_refl
           ltac:(vm_compute; reflexivity) eq_refl)].
  reflexivity.
Defined.

(** ** The credential *)

Lemma replaceFirst_unfold (pat by_ s : string) :
  replaceFirst pat by_ s
  = if prefix pat s
    then (by_ ++ substring (String.length pat)
                           (String.length s - String.length pat) s)%string
    else match s with
         | EmptyString => EmptyString
         | String c s' => String c (replaceFirst pat by_ s')
         end.
Proof. destruct s; reflexivity. Qed.

Lemma prefix_append (pat s : string) : prefix pat (pat ++ s)%string = true.
Proof.
  induction pat as [| c pat IH]; simpl.
  - destruct s; reflexivity.
  - destruct (ascii_dec c c) as [_ | Hne]; [exact IH | congruence].
Qed.

Lemma substring_whole (s : string) : substring 0 (String.length s) s = s.
Proof. induction s as [| c s IH]; simpl; [reflexivity | rewrite IH; reflexivity]. Qed.

Lemma substring_append (pat s : string) :
  substring (String.length pat)
            (String.length (pat ++ s)%string - String.length pat)
            (pat ++ s)%string = s.
Proof.
  induction pat as [| c pat IH]; simpl.
  - rewrite Nat.sub_0_r. apply substring_whole.
  - exact IH.
Qed.

(** The first occurrence at the very start. *)
Lemma replaceFirst_prefix (pat by_ s : string) :
  replaceFirst pat by_ (pat ++ s)%string = (by_ ++ s)%string.
Proof.
  rewrite replaceFirst_unfold, prefix_append, substring_append. reflexivity.
Qed.

(** No occurrence: the text is returned as it is. *)
Lemma replaceFirst_absent (pat by_ : string) :
  forall s, includes pat s = false -> replaceFirst pat by_ s = s.
Proof.
  induction s as [| c s IH]; intros Hno; rewrite replaceFirst_unfold;
    cbn [includes] in Hno; apply Bool.orb_false_iff in Hno;
    destruct Hno as (Hp & Hrest).
  - rewrite Hp. reflexivity.
  - rewrite Hp. rewrite IH by exact Hrest. reflexivity.
Qed.

(** X16.  Where the handler takes the credential from.  A non-empty
    [payment-signature] header is the credential, whatever
    [authorization] holds.  Otherwise it is the [authorization] header
    with its first [Bearer ] removed: the rest after a leading
    [Bearer ], and the whole header when it has none.  A header that is
    [Bearer ] and nothing else, like a missing one, leaves the request
    without a credential. *)
Theorem x402Token_sources :
  forall (h : Server.Headers),
    (forall sig, Server.paymentSignature h = Some sig -> truthy sig = true ->
                 Server.x402Token h = Some sig) /\
    (orNull (Server.paymentSignature h) = None ->
     (forall rest, Server.authorization h = Some ("Bearer " ++ rest)%string ->
                   Server.x402Token h = Some rest /\
                   (rest = EmptyString ->
                    orNull (Server.x402Token h) = None)) /\
     (forall auth, Server.authorization h = Some auth ->
                   includes "Bearer " auth = false ->
                   Server.x402Token h = Some auth) /\
     (Server.authorization h = None -> Server.x402Token h = None)).
Proof.
  intros h. unfold Server.x402Token. split.
  - intros sig Hsig Ht. rewrite Hsig. unfold orNull. rewrite Ht. reflexivity.
  - intros Hnone. rewrite Hnone. split; [| split].
    + intros rest Hauth. rewrite Hauth. cbn [option_map].
      rewrite replaceFirst_prefix. cbn [append]. split; [reflexivity |].
      intros ->. reflexivity.
    + intros auth Hauth Hno. rewrite Hauth. cbn [option_map].
      rewrite replaceFirst_absent by exact Hno. reflexivity.
    + intros Hauth. rewrite Hauth. reflexivity.
Qed.

(** The first occurrence is removed wherever it is. *)
Example bearer_inside_the_header :
  Server.x402Token
    {| Server.paymentSignature := Some EmptyString;
       Server.authorization := Some "Token Bearer abc"%string |}
  = Some "Token abc"%string.
Proof. reflexivity. Qed.

(* ------------------------------------------------------------------ *)
(** * The routes                                                       *)
(* ------------------------------------------------------------------ *)

(** X17.  [handleRequest] reaches an oracle endpoint only by a POST to
    [/api/verify] or [/api/reddit].  No other request touches the world:
    no facilitator call, no oracle call.  Such a request is answered by
    the router itself, with 204, the health report, the API description
    or 404, when its method is OPTIONS or its target can be read as a
    URL.  When the target cannot be read and the method is not OPTIONS,
    [new URL] throws outside every [try]: [handleRequest] ends with that
    exception and the request is not answered. *)
Theorem only_post_reaches_an_oracle :
  forall (W R : Type) (payments : Server.Facilitator)
         (settings : Router.Settings)
         (sportsOracle redditOracle : string -> M W R) (clock : W -> Z)
         (req : Router.Incoming) (w : Server.World W),
    Router.method req <> "POST"%string \/
    (Router.pathname req <> Some "/api/verify"%string /\
     Router.pathname req <> Some "/api/reddit"%string) ->
    snd (Router.handleRequest payments settings sportsOracle redditOracle
                              clock req w) = w /\
    (Router.method req = "OPTIONS"%string \/ Router.pathname req <> None ->
     exists reply,
       fst (Router.handleRequest payments settings sportsOracle redditOracle
                                 clock req w) = Ret reply /\
       Props.ownReply reply = true) /\
    (Router.method req <> "OPTIONS"%string -> Router.pathname req = None ->
     fst (Router.handleRequest payments settings sportsOracle redditOracle
                               clock req w) = Throw Router.invalidUrl).
Proof.
  intros W R payments settings sportsOracle redditOracle clock req w Hroute.
  unfold Router.handleRequest.
  destruct (String.eqb_spec (Router.method req) "OPTIONS") as [Hopt | Hopt].
  { split; [reflexivity |]. split; [| intros Hno; congruence].
    intros _. eexists; split; reflexivity. }
  destruct (Router.pathname req) as [path |] eqn:Epath.
  2: { split; [reflexivity |]. split; [| reflexivity].
       intros [Hm | Hp]; congruence. }
  assert (Hv : (String.eqb path "/api/verify" &&
                String.eqb (Router.method req) "POST")%bool = false).
  { apply Bool.andb_false_iff.
    destruct Hroute as [Hm | (Hp & _)]; [right | left];
      apply String.eqb_neq; congruence. }
  assert (Hr : (String.eqb path "/api/reddit" &&
                String.eqb (Router.method req) "POST")%bool = false).
  { apply Bool.andb_false_iff.
    destruct Hroute as [Hm | (_ & Hp)]; [right | left];
      apply String.eqb_neq; congruence. }
  rewrite Hv, Hr.
  destruct (String.eqb path "/health");
    [| destruct (String.eqb path "/openapi.json")];
    (split; [reflexivity |]);
    (split; [intros _; eexists; split; reflexivity | intros _ Hno; discriminate]).
Qed.

(** [only_post_reaches_an_oracle] at work: a GET of [/api/verify] that
    carries a credential and a question is answered with 404. *)
Lemma only_post_reaches_an_oracle_witness :
  Router.handleRequest Props.settling Props.sportsOnly
    (Sports.askOracle Fixtures.sportsEnv)
    (Sports.askOracle Fixtures.sportsEnv) Sports.now
    {| Router.method := "GET"; Router.pathname := Some "/api/verify"%string;
       Router.message :=
         Fixtures.withToken (Server.BodyQuestion Fixtures.lakersQuestion) |}
    Fixtures.serverWorld
  = (Ret (Router.NotFound Sports.VerificationResult), Fixtures.serverWorld).
Proof.
  destruct (@only_post_reaches_an_oracle _ _ Props.settling Props.sportsOnly
              (Sports.askOracle Fixtures.sportsEnv)
              (Sports.askOracle Fixtures.sportsEnv) Sports.now
              {| Router.method := "GET";
                 Router.pathname := Some "/api/verify"%string;
                 Router.message :=
                   Fixtures.withToken
                     (Server.BodyQuestion Fixtures.lakersQuestion) |}
              Fixtures.serverWorld)
    as (Hworld & _ & _).
  - left. discriminate.
  - apply injective_projections; [reflexivity | exact Hworld].
Defined.

(** A target that is no URL: the request is not answered. *)
Example unreadable_target_is_not_answered :
  Router.handleRequest Props.settling Props.sportsOnly
    (Sports.askOracle Fixtures.sportsEnv)
    (Sports.askOracle Fixtures.sportsEnv) Sports.now
    {| Router.method := "GET"; Router.pathname := None;
       Router.message := Fixtures.withoutToken Server.BodyNoQuestion |}
    Fixtures.serverWorld
  = (Throw "Invalid URL"%string, Fixtures.serverWorld).
Proof. reflexivity. Qed.

(** X18.  The reddit route when the reddit oracle is not registered: a
    POST to [/api/reddit] without a credential is answered with 402, and
    the plan, the agent and the purchase address it is given are those
    of the sports oracle. *)
Theorem unregistered_reddit_route_sells_the_sports_plan :
  forall (W R : Type) (payments : Server.Facilitator)
         (settings : Router.Settings)
         (sportsOracle redditOracle : string -> M W R) (clock : W -> Z)
         (req : Router.Incoming) (w : Server.World W),
    Router.method req = "POST"%string ->
    Router.pathname req = Some "/api/reddit"%string ->
    orNull (Server.x402Token (Server.headers (Router.message req))) = None ->
    orNull (Router.REDDIT_PLAN_ID settings) = None ->
    orNull (Router.REDDIT_AGENT_ID settings) = None ->
    Router.handleRequest payments settings sportsOracle redditOracle clock
                         req w
    = (Ret (Router.FromOracle
              {| Server.statusCode := 402;
                 Server.json :=
                   Server.PaymentRequiredBody R "payment_required"
                     "This API requires Nevermined credits. Include x402 access token in payment-signature header."
                     (Router.SPORTS_PLAN_ID settings)
                     (Router.SPORTS_AGENT_ID settings) "$0.05"
                     (Server.purchaseUrlOf
                        (Router.SPORTS_AGENT_ID settings)) |}),
       w).
Proof.
  intros W R payments settings sportsOracle redditOracle clock req w
         Hm Hp Htoken Hplan Hagent.
  unfold Router.handleRequest. rewrite Hm, Hp. cbn [String.eqb Ascii.eqb Bool.eqb andb].
  unfold bind, Server.handleOracleRequest. rewrite Htoken.
  unfold Router.redditConfig, Router.orDefault. rewrite Hplan, Hagent.
  reflexivity.
Qed.

Lemma unregistered_reddit_route_sells_the_sports_plan_witness :
  Router.handleRequest Props.settling Props.sportsOnly
    (Sports.askOracle Fixtures.sportsEnv)
    (Sports.askOracle Fixtures.sportsEnv) Sports.now
    {| Router.method := "POST"; Router.pathname := Some "/api/reddit"%string;
       Router.message :=
         Fixtures.withoutToken (Server.BodyQuestion Fixtures.wsbQuestion) |}
    Fixtures.serverWorld
  = (Ret (Router.FromOracle
            {| Server.statusCode := 402;
               Server.json :=
                 Server.PaymentRequiredBody Sports.VerificationResult
                   "payment_required"
                   "This API requires Nevermined credits. Include x402 access token in payment-signature header."
                   "plan-sports" "agent-sports" "$0.05"
                   "https://nevermined.app/agents/agent-sports" |}),
     Fixtures.serverWorld).
Proof.
  apply (@unregistered_reddit_route_sells_the_sports_plan _ _
           Props.settling Props.sportsOnly
           (Sports.askOracle Fixtures.sportsEnv)
           (Sports.askOracle Fixtures.sportsEnv) Sports.now
           {| Router.method := "POST"; Router.pathname := Some "/api/reddit"%string;
              Router.message :=
                Fixtures.withoutToken
                  (Server.BodyQuestion Fixtures.wsbQuestion) |}
           Fixtures.serverWorld); reflexivity.
Defined.

(* ------------------------------------------------------------------ *)
(** * The observation log                                              *)
(* ------------------------------------------------------------------ *)

Lemma getCount_setCount (key k : string) (n : Z) :
  forall counts,
    MetaEvolution.getCount k (MetaEvolution.setCount key n counts)
    = if String.eqb key k then n else MetaEvolution.getCount k counts.
Proof.
  induction counts as [| [k0 m] counts IH]; cbn [MetaEvolution.setCount].
  - cbn [MetaEvolution.getCount]. reflexivity.
  - destruct (String.eqb k0 key) eqn:E0; cbn [MetaEvolution.getCount].
    + apply String.eqb_eq in E0. subst k0.
      destruct (String.eqb key k); reflexivity.
    + rewrite IH. destruct (String.eqb k0 k) eqn:E1; [| reflexivity].
      apply String.eqb_eq in E1. subst k0. rewrite String.eqb_sym in E0.
      rewrite E0. reflexivity.
Qed.

Lemma occurrences_snoc (k item : string) (arr : list string) :
  Props.occurrences k (arr ++ [item])
  = (Props.occurrences k arr + (if String.eqb k item then 1 else 0))%Z.
Proof.
  unfold Props.occurrences. rewrite filter_app, length_app. cbn [filter].
  destruct (String.eqb k item); cbn [List.length]; lia.
Qed.

Lemma occurrences_nonneg (k : string) (arr : list string) :
  (0 <= Props.occurrences k arr)%Z.
Proof. unfold Props.occurrences. lia. Qed.

Lemma occurrences_in (k : string) (arr : list string) :
  In k arr -> (1 <= Props.occurrences k arr)%Z.
Proof.
  unfold Props.occurrences. intros Hin.
  assert (Hf : In k (filter (String.eqb k) arr))
    by (apply filter_In; split; [exact Hin | apply String.eqb_refl]).
  destruct (filter (String.eqb k) arr); [destruct Hf | cbn [List.length]; lia].
Qed.

Section Tally.
Variable first : option string.

Lemma tallied_step (seen : list string) (st : MetaEvolution.Tally)
      (item : string) :
  Props.tallied first seen st ->
  Props.tallied first (seen ++ [item]) (MetaEvolution.tally st item).
Proof.
  intros (Hcount & Hmax & Hres). unfold MetaEvolution.tally. cbv zeta.
  assert (Hold : (MetaEvolution.max st = 0%Z /\
                  MetaEvolution.result st = first) \/
                 (exists x, MetaEvolution.result st = Some x /\
                            MetaEvolution.inherited x = false /\
                            In x (seen ++ [item]) /\
                            (MetaEvolution.max st
                             <= Props.occurrences x (seen ++ [item]))%Z)).
  { destruct Hres as [H0 | (x & Hx & Hix & Hin & Hle)]; [left; exact H0 |].
    right. exists x. split; [exact Hx |]. split; [exact Hix |].
    split; [apply in_or_app; left; exact Hin |].
    rewrite occurrences_snoc. destruct (String.eqb x item); lia. }
  destruct (MetaEvolution.inherited item) eqn:Hitem.
  - assert (Hother : forall k, MetaEvolution.inherited k = false ->
                               String.eqb k item = false).
    { intros k Hk. apply String.eqb_neq. intros ->. congruence. }
    split; [| split; [| exact Hold]].
    + intros k Hk. rewrite occurrences_snoc, (Hother k Hk), Hcount by exact Hk.
      lia.
    + intros k Hk. rewrite occurrences_snoc, (Hother k Hk).
      specialize (Hmax k Hk). lia.
  - pose proof (Hcount item Hitem) as Hc.
    pose proof (occurrences_nonneg item seen) as Hnn.
    assert (Hnew : Props.occurrences item (seen ++ [item])
                   = (MetaEvolution.getCount item (MetaEvolution.counts st)
                      + 1)%Z).
    { rewrite occurrences_snoc, String.eqb_refl, Hc. reflexivity. }
    destruct (Z.ltb_spec (MetaEvolution.max st)
                (MetaEvolution.getCount item (MetaEvolution.counts st) + 1))
      as [Hlt | Hge]; unfold Props.tallied;
      cbn [MetaEvolution.counts MetaEvolution.max MetaEvolution.result].
    + split; [| split].
      * intros k Hk. rewrite getCount_setCount, occurrences_snoc.
        rewrite (String.eqb_sym k item).
        destruct (String.eqb item k) eqn:E.
        -- apply String.eqb_eq in E. subst k. rewrite Hc. reflexivity.
        -- rewrite Hcount by exact Hk. lia.
      * intros k Hk. rewrite occurrences_snoc.
        destruct (String.eqb k item) eqn:E.
        -- apply String.eqb_eq in E. subst k. rewrite Hc. lia.
        -- specialize (Hmax k Hk). lia.
      * right. exists item. split; [reflexivity |]. split; [exact Hitem |].
        split; [apply in_or_app; right; left; reflexivity |].
        rewrite Hnew. lia.
    + split; [| split].
      * intros k Hk. rewrite getCount_setCount, occurrences_snoc.
        rewrite (String.eqb_sym k item).
        destruct (String.eqb item k) eqn:E.
        -- apply String.eqb_eq in E. subst k. rewrite Hc. reflexivity.
        -- rewrite Hcount by exact Hk. lia.
      * intros k Hk. rewrite occurrences_snoc.
        destruct (String.eqb k item) eqn:E.
        -- apply String.eqb_eq in E. subst k. rewrite Hc in Hge. lia.
        -- specialize (Hmax k Hk). lia.
      * destruct Hold as [(H0 & _) | Hx]; [lia | right; exact Hx].
Qed.

Lemma tallied_fold :
  forall (rest seen : list string) (st : MetaEvolution.Tally),
    Props.tallied first seen st ->
    Props.tallied first (seen ++ rest)
                  (fold_left MetaEvolution.tally rest st).
Proof.
  induction rest as [| item rest IH]; intros seen st Hst; cbn [fold_left].
  - rewrite app_nil_r. exact Hst.
  - replace (seen ++ item :: rest)%list with ((seen ++ [item]) ++ rest)%list
      by (rewrite <- app_assoc; reflexivity).
    apply IH. apply tallied_step. exact Hst.
Qed.

End Tally.

Lemma findMostCommon_tallied (arr : list string) :
  Props.tallied (hd_error arr) arr
          (fold_left MetaEvolution.tally arr
             {| MetaEvolution.counts := [];
                MetaEvolution.max := 0;
                MetaEvolution.result := hd_error arr |}).
Proof.
  apply (@tallied_fold (hd_error arr) arr []).
  split; [| split].
  - intros k _. reflexivity.
  - intros k _. cbn. lia.
  - left. split; reflexivity.
Qed.

(** X19.  [findMostCommon] on a list of strings.  It returns nothing
    exactly on the empty list.  What it returns occurs in the list, and
    occurs at least as often as every item that is not the name of a
    property objects inherit ([constructor], [toString], ...): for such
    a name the count never becomes a number, so it is never chosen by
    the loop, and it is returned only as the first item of a list that
    holds nothing but such names. *)
Theorem findMostCommon_is_a_mode :
  forall (arr : list string),
    (MetaEvolution.findMostCommon arr = None <-> arr = []) /\
    (forall x,
        MetaEvolution.findMostCommon arr = Some x ->
        In x arr /\
        (forall y, MetaEvolution.inherited y = false ->
                   (Props.occurrences y arr <= Props.occurrences x arr)%Z) /\
        (MetaEvolution.inherited x = true ->
         hd_error arr = Some x /\
         Forall (fun y => MetaEvolution.inherited y = true) arr)).
Proof.
  intros arr. unfold MetaEvolution.findMostCommon.
  destruct (findMostCommon_tallied arr) as (_ & Hmax & Hres).
  split.
  - split.
    + intros Hnone. destruct Hres as [(_ & Hr) | (x & Hx & _)].
      * rewrite Hr in Hnone. destruct arr; [reflexivity | discriminate].
      * rewrite Hx in Hnone. discriminate.
    + intros ->. reflexivity.
  - intros x Hx. destruct Hres as [(H0 & Hr) | (x' & Hx' & Hix & Hin & Hle)].
    + rewrite Hr in Hx.
      assert (Hall : Forall (fun y => MetaEvolution.inherited y = true) arr).
      { apply Forall_forall. intros y Hy.
        destruct (MetaEvolution.inherited y) eqn:E; [reflexivity |].
        pose proof (Hmax y E). pose proof (occurrences_in y arr Hy). lia. }
      split; [| split].
      * destruct arr as [| a arr']; [discriminate |].
        inversion Hx. left. reflexivity.
      * intros y Hy. pose proof (Hmax y Hy).
        pose proof (occurrences_nonneg x arr). lia.
      * intros _. split; [exact Hx | exact Hall].
    + rewrite Hx' in Hx. inversion Hx. subst x'.
      split; [exact Hin |]. split.
      * intros y Hy. pose proof (Hmax y Hy). lia.
      * intros Hinh. congruence.
Qed.

(** One timeout and an inherited name seen three times: the inherited
    name is not counted.  A list of inherited names gives its first.  Of
    two items seen equally often, the first to reach that count wins. *)
Example findMostCommon_skips_inherited_names :
  MetaEvolution.findMostCommon
    ["timeout"; "toString"; "toString"; "toString"]%string
  = Some "timeout"%string /\
  MetaEvolution.findMostCommon ["valueOf"; "toString"; "toString"]%string
  = Some "valueOf"%string /\
  MetaEvolution.findMostCommon
    ["team_not_found"; "no_events"; "no_events"; "team_not_found"]%string
  = Some "no_events"%string.
Proof. repeat split; reflexivity. Qed.

(** ** [logObservation] over time *)

Lemma lastN_length {A : Type} (n : nat) (l : list A) :
  (List.length (MetaEvolution.lastN n l) <= n)%nat.
Proof. unfold MetaEvolution.lastN. rewrite length_skipn. lia. Qed.

Lemma lastN_app_lastN {A : Type} (n : nat) (a b : list A) :
  MetaEvolution.lastN n (MetaEvolution.lastN n a ++ b)
  = MetaEvolution.lastN n (a ++ b).
Proof.
  unfold MetaEvolution.lastN.
  rewrite !length_app, length_skipn, !skipn_app, skipn_skipn, length_skipn.
  f_equal; f_equal; lia.
Qed.

Lemma logObservation_stored {P : Type} (t : Z) (o : P)
      (file : MetaEvolution.ObservationsFile (MetaEvolution.Stamped P)) :
  file <> MetaEvolution.NotAList ->
  MetaEvolution.logObservation t o file
  = MetaEvolution.Stored
      (MetaEvolution.lastN 100 (Props.storedIn file ++ [Props.stamp t o])).
Proof.
  destruct file; intros Hfile; try reflexivity. congruence.
Qed.

Lemma logAll_stored {P : Type} :
  forall (observations : list (Z * P))
         (file : MetaEvolution.ObservationsFile (MetaEvolution.Stamped P)),
    observations <> [] ->
    file <> MetaEvolution.NotAList ->
    Props.logAll observations file
    = MetaEvolution.Stored
        (MetaEvolution.lastN 100
           (Props.storedIn file
            ++ map (fun o => Props.stamp (fst o) (snd o)) observations)).
Proof.
  induction observations as [| [t o] rest IH]; intros file Hne Hfile;
    [congruence |].
  cbn [Props.logAll map fst snd].
  rewrite (logObservation_stored t o Hfile).
  destruct rest as [| next rest]; [reflexivity |].
  rewrite IH by discriminate. cbn [Props.storedIn].
  rewrite lastN_app_lastN, <- app_assoc. reflexivity.
Qed.

Lemma logAll_not_a_list {P : Type} :
  forall (observations : list (Z * P)),
    Props.logAll observations MetaEvolution.NotAList
    = MetaEvolution.NotAList.
Proof.
  induction observations as [| [t o] rest IH]; [reflexivity | exact IH].
Qed.

(** X20.  The observation log over any number of calls of
    [logObservation].  From a missing, unreadable or well-formed file,
    it holds the observations in the order they were logged, each with
    the source name and the time of its logging, after those that were
    stored before, cut to the newest 100.  A file that holds JSON which
    is no array is never repaired: every observation is dropped and the
    file stays as it is. *)
Theorem observation_log_keeps_newest_100 :
  forall (P : Type) (observations : list (Z * P))
         (file : MetaEvolution.ObservationsFile (MetaEvolution.Stamped P)),
    (file = MetaEvolution.NotAList ->
     Props.logAll observations file = MetaEvolution.NotAList) /\
    (file <> MetaEvolution.NotAList -> observations <> [] ->
     Props.logAll observations file
     = MetaEvolution.Stored
         (MetaEvolution.lastN 100
            (Props.storedIn file
             ++ map (fun o => Props.stamp (fst o) (snd o)) observations)) /\
     (List.length (Props.storedIn (Props.logAll observations file))
      <= 100)%nat).
Proof.
  intros P observations file. split.
  - intros ->. apply logAll_not_a_list.
  - intros Hfile Hne. rewrite (logAll_stored Hne Hfile).
    split; [reflexivity |]. cbn [Props.storedIn]. apply lastN_length.
Qed.

(** A hundred and two observations into a missing file: the first two
    are gone. *)
Example observation_log_window :
  match Props.logAll (map (fun n => (Fixtures.t0 + Z.of_nat n, n)%Z)
                          (seq 0 102))
                     MetaEvolution.Missing with
  | MetaEvolution.Stored l =>
      map (fun o => MetaEvolution.payload o) l = seq 2 100
  | _ => False
  end.
Proof. vm_compute. reflexivity. Qed.

(* ------------------------------------------------------------------ *)
(** * The sports oracle with and without its safety rails              *)
(* ------------------------------------------------------------------ *)

Lemma setConfidence_same (r : Sports.VerificationResult) :
  Sports.setConfidence (Sports.confidence r) r = r.
Proof. destruct r; reflexivity. Qed.

Lemma sports_askOracle_admitted (env : Sports.Env) (question : string)
      (w : Sports.World) :
  Sports.safe (Sports.checkStats (Sports.currentStats env w)) = true ->
  Sports.askOracle env question w
  = (if negb (Sports.optNameTruthy
                (Sports.q_team
                   (Sports.normalizeQuery
                      (Sports.parseQuestion env (Sports.now w) question))))
     then
       (Sports.logQuery env
          (Sports.noTeamResult (Sports.now w)
             (Sports.normalizeQuery
                (Sports.parseQuestion env (Sports.now w) question))) ;;;
        ret (Sports.noTeamResult (Sports.now w)
               (Sports.normalizeQuery
                  (Sports.parseQuestion env (Sports.now w) question))))%eff
     else
       (r0 <- Sports.verifyResult env
                (Sports.normalizeQuery
                   (Sports.parseQuestion env (Sports.now w) question)) ;;
        Sports.logQuery env
          (if (Sports.verified r0 && Qltb 0 (Sports.confidence r0))%bool
           then Sports.setConfidence
                  (Sports.applyConfidenceFloor (Sports.confidence r0)) r0
           else r0) ;;;
        ret (if (Sports.verified r0 && Qltb 0 (Sports.confidence r0))%bool
             then Sports.setConfidence
                    (Sports.applyConfidenceFloor (Sports.confidence r0)) r0
             else r0))%eff) w.
Proof.
  intros Hsafe.
  unfold Sports.askOracle, Sports.checkSafetyLimits, Sports.loadStats.
  unfold bind at 1 2 3. unfold gets at 1 2. cbn [ret]. rewrite Hsafe.
  cbn [negb]. destruct (negb _); reflexivity.
Qed.

Lemma plain_askOracle_unfold (env : Sports.Env) (question : string)
      (w : Sports.World) :
  Oracle.askOracle env question w
  = if negb (Sports.optTruthy
               (Sports.team (Sports.parseQuestion env (Sports.now w) question)))
    then (Ret (Sports.noTeamResult (Sports.now w)
                 (Sports.ofQuery
                    (Sports.parseQuestion env (Sports.now w) question))), w)
    else Sports.verifyResult env
           (Sports.ofQuery
              (Sports.parseQuestion env (Sports.now w) question)) w.
Proof.
  unfold Oracle.askOracle, bind, gets. cbn [fst snd].
  destruct (negb _); reflexivity.
Qed.

(** The floor changes nothing in what [verifyResult] returns. *)
Lemma floor_keeps_verifyResult (env : Sports.Env)
      (q : Sports.VerifyQuery) :
  Spec.returns (Sports.verifyResult env q)
    (fun r0 =>
       (if (Sports.verified r0 && Qltb 0 (Sports.confidence r0))%bool
        then Sports.setConfidence
               (Sports.applyConfidenceFloor (Sports.confidence r0)) r0
        else r0) = r0).
Proof.
  intros w. generalize (verifyResult_cases env q w).
  destruct (fst (Sports.verifyResult env q w)) as [r0 | e]; [| trivial].
  intros [[Hv Hc] | [Hv Hc]]; rewrite Hv; cbn [andb]; [reflexivity |].
  assert (Hfloor : Sports.applyConfidenceFloor (Sports.confidence r0)
                   = Sports.confidence r0).
  { apply applyConfidenceFloor_above.
    destruct Hc as [Hc | Hc]; rewrite Hc; unfold Qle; simpl; lia. }
  rewrite Hfloor, setConfidence_same.
  destruct (Qltb 0 (Sports.confidence r0)); reflexivity.
Qed.

(** X21.  The sports oracle with safety rails against the plain one of
    [src/oracle.js].  When the pre-check passes and normalising leaves
    the parser's names as they are (they are no aliases, and no names of
    inherited properties such as Constructor), both give the same
    outcome (the same result, or the same exception), make the same
    outbound calls and take the same time: the confidence floor changes
    nothing that [verifyResult] returns.  They differ in the stats file
    alone, which the plain oracle never touches. *)
Theorem safety_rails_agree_with_plain_oracle :
  forall (env : Sports.Env) (question : string) (w : Sports.World),
    Sports.safe (Sports.checkStats (Sports.currentStats env w)) = true ->
    Sports.normalizeQuery (Sports.parseQuestion env (Sports.now w) question)
    = Sports.ofQuery (Sports.parseQuestion env (Sports.now w) question) ->
    fst (Sports.askOracle env question w)
    = fst (Oracle.askOracle env question w) /\
    Sports.trace (snd (Sports.askOracle env question w))
    = Sports.trace (snd (Oracle.askOracle env question w)) /\
    Sports.now (snd (Sports.askOracle env question w))
    = Sports.now (snd (Oracle.askOracle env question w)) /\
    Sports.statsFile (snd (Oracle.askOracle env question w))
    = Sports.statsFile w.
Proof.
  intros env question w Hsafe Hnorm.
  rewrite (sports_askOracle_admitted env question w Hsafe), Hnorm.
  rewrite plain_askOracle_unfold.
  generalize dependent (Sports.parseQuestion env (Sports.now w) question).
  intros p _.
  assert (Ht : Sports.optNameTruthy (Sports.q_team (Sports.ofQuery p))
               = Sports.optTruthy (Sports.team p))
    by (destruct p as [[team_ |] opp d q]; reflexivity).
  rewrite Ht.
  destruct (negb (Sports.optTruthy (Sports.team p))).
  - unfold bind. rewrite sports_logQuery_world. cbn [fst snd ret].
    repeat split; reflexivity.
  - unfold bind.
    pose proof (floor_keeps_verifyResult env (Sports.ofQuery p) w) as Hfloor.
    pose proof (verifyResult_file env (Sports.ofQuery p) w) as Hfile.
    destruct (Sports.verifyResult env (Sports.ofQuery p) w)
      as [[r0 | e] w1];
      cbn [fst snd] in Hfloor, Hfile |- *.
    + rewrite Hfloor, sports_logQuery_world. cbn [fst snd ret Sports.trace Sports.now].
      repeat split; try reflexivity. exact Hfile.
    + repeat split; try reflexivity. exact Hfile.
Qed.

(** [safety_rails_agree_with_plain_oracle] on a fresh store, for a team
    that has no alias. *)
Lemma safety_rails_agree_with_plain_oracle_witness :
  fst (Sports.askOracle Fixtures.sportsEnv Props.arsenalQuestion
                        Fixtures.freshSports)
  = fst (Oracle.askOracle Fixtures.sportsEnv Props.arsenalQuestion
                          Fixtures.freshSports) /\
  Sports.trace (snd (Sports.askOracle Fixtures.sportsEnv Props.arsenalQuestion
                                      Fixtures.freshSports))
  = Sports.trace (snd (Oracle.askOracle Fixtures.sportsEnv
                                        Props.arsenalQuestion
                                        Fixtures.freshSports)) /\
  Sports.now (snd (Sports.askOracle Fixtures.sportsEnv Props.arsenalQuestion
                                    Fixtures.freshSports))
  = Sports.now (snd (Oracle.askOracle Fixtures.sportsEnv
                                      Props.arsenalQuestion
                                      Fixtures.freshSports)) /\
  Sports.statsFile (snd (Oracle.askOracle Fixtures.sportsEnv
                                          Props.arsenalQuestion
                                          Fixtures.freshSports))
  = Sports.statsFile Fixtures.freshSports.
Proof.
  apply (@safety_rails_agree_with_plain_oracle Fixtures.sportsEnv
           Props.arsenalQuestion Fixtures.freshSports).
  - reflexivity.
  - vm_compute. reflexivity.
Defined.

(** With an alias the two differ: the plain oracle asks the provider for
    the name as written, the railed one for the full name. *)
Example alias_changes_the_outbound_call :
  map (fun e => option_map url (requestOf e))
      (firstn 1 (Sports.trace
                   (snd (Oracle.askOracle Fixtures.sportsEnv
                           Fixtures.lakersQuestion Fixtures.freshSports))))
  = [Some "https://www.thesportsdb.com/api/v1/json/3/searchteams.php?t=Lakers"%string]
  /\
  map (fun e => option_map url (requestOf e))
      (firstn 1 (Sports.trace
                   (snd (Sports.askOracle Fixtures.sportsEnv
                           Fixtures.lakersQuestion Fixtures.freshSports))))
  = [Some "https://www.thesportsdb.com/api/v1/json/3/searchteams.php?t=Los%20Angeles%20Lakers"%string].
Proof. split; vm_compute; reflexivity. Qed.

(* ------------------------------------------------------------------ *)
(** * The kind of a reddit question                                    *)
(* ------------------------------------------------------------------ *)

(** X22.  How the reddit parser decides the kind of a question.  The
    listing words are looked for first, as substrings of the lower-cased
    question: any of hot, trending, popular makes it a hot listing; a
    question is a search only if it holds none of the eight listing
    words, and a post query only if it holds no listing word and no
    search word.  A keyword is only ever set for a search, a post id
    only for a post query, and the limit is never above 100. *)
Theorem reddit_query_type_precedence :
  forall (question : string),
    let p := Reddit.parseQuestion question in
    let q := toLowerCase question in
    let hot := Reddit.anyIncluded ["hot"; "trending"; "popular"]%string q in
    let new := Reddit.anyIncluded ["new"; "latest"; "recent"]%string q in
    let top := Reddit.anyIncluded ["top"; "best"]%string q in
    let search :=
      Reddit.anyIncluded ["search"; "find"; "looking for"]%string q in
    (hot = true -> Reddit.type p = Reddit.HOT) /\
    (Reddit.type p = Reddit.NEW -> hot = false /\ new = true) /\
    (Reddit.type p = Reddit.TOP -> hot = false /\ new = false /\ top = true) /\
    (Reddit.type p = Reddit.SEARCH ->
     hot = false /\ new = false /\ top = false /\ search = true) /\
    (Reddit.type p = Reddit.POST ->
     hot = false /\ new = false /\ top = false /\ search = false /\
     includes "post" q = true /\
     matchRe Reddit.longTokenPattern question <> None) /\
    (Reddit.keyword p <> None -> Reddit.type p = Reddit.SEARCH) /\
    (Reddit.postId p <> VNull -> Reddit.type p = Reddit.POST) /\
    (Reddit.limit p <= 100)%Z.
Proof.
  intros question. unfold Reddit.parseQuestion.
  generalize (matchRe Reddit.searchPattern question)
             (matchRe Reddit.urlPattern question)
             (matchRe Reddit.idPattern question)
             (matchRe Reddit.longTokenPattern question)
             (matchRe Reddit.limitPattern question)
             (Reddit.firstGroup Reddit.subredditPatterns question).
  intros ms mu mi ml mlim sub. cbv zeta.
  assert (Hlim : (match mlim with
                  | Some m =>
                      match group 1 m with
                      | Some digits =>
                          match parseInt10 digits with
                          | Some n => Z.min n 100
                          | None => 10
                          end
                      | None => 10
                      end
                  | None => 10
                  end <= 100)%Z).
  { destruct mlim as [m |]; [| lia].
    destruct (group 1 m) as [digits |]; [| lia].
    destruct (parseInt10 digits); lia. }
  destruct (Reddit.anyIncluded ["hot"; "trending"; "popular"] _) eqn:Ehot.
  { cbn. repeat split; try congruence; exact Hlim. }
  destruct (Reddit.anyIncluded ["new"; "latest"; "recent"] _) eqn:Enew.
  { cbn. repeat split; try congruence; exact Hlim. }
  destruct (Reddit.anyIncluded ["top"; "best"] _) eqn:Etop.
  { cbn. repeat split; try congruence; exact Hlim. }
  destruct (Reddit.anyIncluded ["search"; "find"; "looking for"] _) eqn:Esearch.
  { cbn. repeat split; try congruence; exact Hlim. }
  destruct (includes "post" _) eqn:Epost; cbn [andb].
  - destruct ml as [m |].
    + cbn. repeat split; try congruence; exact Hlim.
    + cbn. repeat split; try congruence; exact Hlim.
  - cbn. repeat split; try congruence; exact Hlim.
Qed.

(** A search for lenses on r/photography: the word photography holds
    hot, so the question is read as a hot listing and the search term is
    lost. *)
Example photography_is_hot :
  Reddit.type (Reddit.parseQuestion "search r/photography for lenses")
  = Reddit.HOT /\
  Reddit.keyword (Reddit.parseQuestion "search r/photography for lenses")
  = None /\
  Reddit.type (Reddit.parseQuestion "search r/cameras for lenses")
  = Reddit.SEARCH /\
  Reddit.keyword (Reddit.parseQuestion "search r/cameras for lenses")
  = Some "r/cameras for lenses"%string.
Proof. repeat split; vm_compute; reflexivity. Qed.

(** ** [processRedditResult] over time *)

Lemma processRedditResult_streak (t : Z) (r : Reddit.VerificationResult)
      (st : MetaEvolution.Patterns) :
  (List.length
     (MetaEvolution.errors
        (fst (MetaEvolution.processRedditResult t r st))) <= 2)%nat.
Proof.
  unfold MetaEvolution.processRedditResult. cbv zeta.
  destruct (negb (Reddit.success r)); [| cbn; lia].
  destruct (Nat.leb_spec MetaEvolution.consecutiveErrors
              (List.length
                 (MetaEvolution.errors st ++
                  [ {| MetaEvolution.n_error := Reddit.error r;
                       MetaEvolution.n_subreddit :=
                         Some match orNull (Reddit.r_subreddit r) with
                              | Some s => s
                              | None => "unknown"%string
                              end;
                       MetaEvolution.n_timestamp := toISOString t |} ])))
    as [Hge | Hlt]; cbn [fst MetaEvolution.errors]; [cbn; lia |].
  unfold MetaEvolution.consecutiveErrors in Hlt. lia.
Qed.

(** One failure: what it adds to the streak and to the log. *)
Lemma processRedditResult_failure (t : Z) (r : Reddit.VerificationResult)
      (st : MetaEvolution.Patterns) :
  Reddit.success r = false ->
  (List.length (MetaEvolution.errors st) <= 2)%nat ->
  let out := MetaEvolution.processRedditResult t r st in
  Forall Props.countsThree (snd out) /\
  if (List.length (MetaEvolution.errors st) =? 2)%nat
  then MetaEvolution.errors (fst out) = [] /\
       List.length (filter Props.isErrorPattern (snd out)) = 1%nat
  else List.length (MetaEvolution.errors (fst out))
       = S (List.length (MetaEvolution.errors st)) /\
       List.length (filter Props.isErrorPattern (snd out)) = 0%nat.
Proof.
  intros Hfail Hstreak. unfold MetaEvolution.processRedditResult.
  cbv zeta. rewrite Hfail. cbn [negb]. rewrite length_app.
  cbn [List.length]. unfold MetaEvolution.consecutiveErrors.
  destruct (Nat.eqb_spec (List.length (MetaEvolution.errors st)) 2)
    as [Htwo | Hless].
  - rewrite Htwo. cbn [Nat.add Nat.leb fst snd MetaEvolution.errors].
    rewrite filter_app, length_app.
    destruct (_ =? MetaEvolution.newPatternCount)%Z;
      cbn [filter Props.isErrorPattern List.length app];
      repeat split; repeat constructor.
  - destruct (Nat.leb_spec 3 (List.length (MetaEvolution.errors st) + 1))
      as [Hge | Hlt]; [lia |].
    cbn [fst snd MetaEvolution.errors]. rewrite length_app.
    cbn [List.length].
    destruct (_ =? MetaEvolution.newPatternCount)%Z;
      cbn [filter Props.isErrorPattern List.length];
      repeat split; repeat constructor; lia.
Qed.

Lemma failures_reported :
  forall (results : list (Z * Reddit.VerificationResult))
         (st : MetaEvolution.Patterns),
    Forall (fun e => Reddit.success (snd e) = false) results ->
    (List.length (MetaEvolution.errors st) <= 2)%nat ->
    List.length
      (filter Props.isErrorPattern (snd (Props.processAllReddit results st)))
    = ((List.length (MetaEvolution.errors st) + List.length results) / 3)%nat /\
    List.length (MetaEvolution.errors (fst (Props.processAllReddit results st)))
    = ((List.length (MetaEvolution.errors st) + List.length results) mod 3)%nat /\
    Forall Props.countsThree (snd (Props.processAllReddit results st)).
Proof.
  induction results as [| [t r] rest IH]; intros st Hall Hstreak.
  - cbn [Props.processAllReddit fst snd filter List.length].
    rewrite Nat.add_0_r, Nat.div_small, Nat.mod_small by lia.
    repeat split; constructor.
  - inversion Hall as [| e l Hfail Hrest]; subst. cbn [snd] in Hfail.
    cbn [Props.processAllReddit].
    pose proof (processRedditResult_failure t r st Hfail Hstreak) as Hstep.
    pose proof (processRedditResult_streak t r st) as Hnext.
    cbv zeta in Hstep.
    destruct (MetaEvolution.processRedditResult t r st) as [st1 logged].
    cbn [fst snd] in Hstep, Hnext.
    specialize (IH st1 Hrest Hnext).
    destruct (Props.processAllReddit rest st1) as [st2 later].
    cbn [fst snd] in IH |- *.
    destruct Hstep as (Hthree & Hstep). destruct IH as (Hcount & Hleft & Hall3).
    rewrite filter_app, length_app, Hcount, Hleft.
    cbn [List.length].
    split; [| split; [| apply Forall_app; split; assumption]].
    + destruct (Nat.eqb_spec (List.length (MetaEvolution.errors st)) 2)
        as [Htwo | Hless]; destruct Hstep as (Herr & Hlog); rewrite Hlog.
      * rewrite Herr, Htwo. cbn [List.length Nat.add].
        replace (S (S (S (List.length rest))))
          with (1 * 3 + List.length rest)%nat by lia.
        rewrite Nat.div_add_l by lia. reflexivity.
      * rewrite Herr. cbn [Nat.add]. f_equal. lia.
    + destruct (Nat.eqb_spec (List.length (MetaEvolution.errors st)) 2)
        as [Htwo | Hless]; destruct Hstep as (Herr & Hlog).
      * rewrite Herr, Htwo. cbn [List.length Nat.add].
        replace (S (S (S (List.length rest))))
          with (List.length rest + 1 * 3)%nat by lia.
        rewrite Nat.Div0.mod_add. reflexivity.
      * rewrite Herr. f_equal. lia.
Qed.

(** X23.  [processRedditResult] reports an error pattern at every third
    failure in a row.  After any call the streak of noted errors is at
    most two long.  Over a run of failed results that starts with a
    streak of at most two, the number of [error_pattern] observations
    logged is the length of the streak and the run together, divided by
    three; each reports a count of three; and what is left of the
    streak is the remainder. *)
Theorem reddit_error_pattern_every_third_failure :
  forall (results : list (Z * Reddit.VerificationResult))
         (st : MetaEvolution.Patterns),
    Forall (fun e => Reddit.success (snd e) = false) results ->
    (List.length (MetaEvolution.errors st) <= 2)%nat ->
    List.length
      (filter Props.isErrorPattern (snd (Props.processAllReddit results st)))
    = ((List.length (MetaEvolution.errors st) + List.length results) / 3)%nat /\
    List.length (MetaEvolution.errors (fst (Props.processAllReddit results st)))
    = ((List.length (MetaEvolution.errors st) + List.length results) mod 3)%nat /\
    Forall Props.countsThree (snd (Props.processAllReddit results st)) /\
    (forall t r st0,
        (List.length
           (MetaEvolution.errors
              (fst (MetaEvolution.processRedditResult t r st0))) <= 2)%nat).
Proof.
  intros results st Hall Hstreak.
  destruct (failures_reported st Hall Hstreak) as (Hcount & Hleft & Hthree).
  repeat split; try assumption.
  intros t r st0. apply processRedditResult_streak.
Qed.

(** [reddit_error_pattern_every_third_failure] at work: seven failures
    on one subreddit give two error patterns and leave a streak of
    one. *)
Lemma reddit_error_pattern_every_third_failure_witness :
  List.length
    (filter Props.isErrorPattern
       (snd (Props.processAllReddit
               (repeat (Fixtures.t0, Props.rateLimited) 7)
               Props.noPatterns)))
  = 2%nat /\
  List.length
    (MetaEvolution.errors
       (fst (Props.processAllReddit
               (repeat (Fixtures.t0, Props.rateLimited) 7)
               Props.noPatterns)))
  = 1%nat.
Proof.
  destruct (@reddit_error_pattern_every_third_failure
              (repeat (Fixtures.t0, Props.rateLimited) 7) Props.noPatterns)
    as (Hcount & Hleft & _).
  - repeat constructor.
  - cbn. lia.
  - split; [exact Hcount | exact Hleft].
Defined.

(** The same run logs the subreddit as popular once, at its fifth
    query, between the first and the second error pattern. *)
Example reddit_observations_of_seven_failures :
  snd (Props.processAllReddit
         (repeat (Fixtures.t0, Props.rateLimited) 7) Props.noPatterns)
  = [ MetaEvolution.ErrorPattern (Some "rate_limited"%string) 3;
      MetaEvolution.PopularSubreddit "wallstreetbets" 5;
      MetaEvolution.ErrorPattern (Some "rate_limited"%string) 3 ].
Proof. vm_compute. reflexivity. Qed.

(** ** [logRevenueMilestone] *)

(** X24.  Which revenue amounts [logRevenueMilestone] reports.  A
    milestone [m] is found exactly when [m] is one of 1, 10, 50, 100,
    500, 1000 and the amount lies in the band from [m] up to, not
    including, twice [m]; the bands do not overlap, so the milestone is
    the only one of that kind.  Nothing is found, and nothing logged,
    for an amount below 1, from 2 up to 10, from 20 up to 50, from 200
    up to 500, and from 2000 on. *)
Theorem revenue_milestone_bands :
  forall (amount : Q),
    (forall m, MetaEvolution.milestoneOf amount = Some m <->
               In m MetaEvolution.milestones /\
               (inject_Z m <= amount)%Q /\ (amount < inject_Z (m * 2))%Q) /\
    (MetaEvolution.milestoneOf amount = None <->
     (amount < 1)%Q \/ (2 <= amount /\ amount < 10)%Q \/
     (20 <= amount /\ amount < 50)%Q \/ (200 <= amount /\ amount < 500)%Q \/
     (2000 <= amount)%Q).
Proof.
  intros [n d]. unfold MetaEvolution.milestoneOf, MetaEvolution.milestones.
  unfold Qle, Qlt, Qltb, Qle_bool. cbn [find Qnum Qden inject_Z In].
  repeat match goal with
         | |- context [(?a <=? ?b)%Z] =>
             destruct (Z.leb_spec a b); cbn [andb negb]; try (exfalso; lia)
         end;
    (split;
     [ intros m; split;
       [ intros Hm; inversion Hm; subst; cbn [In]; lia
       | intros (Hin & Hle & Hlt);
         repeat match goal with
                | H : _ \/ _ |- _ => destruct H
                | H : False |- _ => destruct H
                end; subst; try reflexivity; exfalso; lia ]
     | split; intros Hm; try discriminate; try reflexivity; try lia;
       exfalso; lia ]).
Qed.

(** 150 dollars are a milestone of 100; 250 dollars are none. *)
Example revenue_milestones_at_work :
  MetaEvolution.milestoneOf (150 # 1) = Some 100%Z /\
  MetaEvolution.milestoneOf (250 # 1) = None /\
  MetaEvolution.milestoneOf (3999 # 2) = Some 1000%Z.
Proof. repeat split; reflexivity. Qed.

(* ------------------------------------------------------------------ *)
(** * The team names of a sports question                              *)
(* ------------------------------------------------------------------ *)

Lemma collectTeams_filtered (question : string) :
  forall (fuel lastIndex : nat),
    Forall (fun s => existsb (String.eqb s) Sports.stoplist = false)
           (Sports.collectTeams fuel question lastIndex).
Proof.
  induction fuel as [| fuel IH]; intros lastIndex;
    cbn [Sports.collectTeams]; [constructor |].
  destruct (execAt Sports.teamPattern question lastIndex) as [m |];
    [| constructor].
  apply Forall_app. split; [| apply IH].
  destruct (existsb _ Sports.stoplist) eqn:E; repeat constructor. exact E.
Qed.

Lemma teamsOf_no_stop_word (question s : string) :
  In s (Sports.teamsOf question) -> ~ In s Sports.stoplist.
Proof.
  intros Hin Hstop.
  pose proof (collectTeams_filtered question (2 + String.length question) 0)
    as Hall.
  rewrite Forall_forall in Hall. specialize (Hall s Hin).
  assert (Hex : existsb (String.eqb s) Sports.stoplist = true).
  { apply existsb_exists. exists s. split; [exact Hstop |].
    apply String.eqb_refl. }
  congruence.
Qed.

(** X25.  The sports [parseQuestion] never returns one of the six
    question words (Who, What, Did, The, How, When) as team or as
    opponent, for any question and at any time.  The words are dropped
    as whole candidates only: a capitalised phrase that merely starts
    with one of them is kept. *)
Theorem parsed_teams_are_no_stop_words :
  forall (env : Sports.Env) (t : Z) (question : string),
    (forall s, Sports.team (Sports.parseQuestion env t question) = Some s ->
               ~ In s Sports.stoplist) /\
    (forall s, Sports.opponent (Sports.parseQuestion env t question) = Some s ->
               ~ In s Sports.stoplist) /\
    Forall (fun s => ~ In s Sports.stoplist) (Sports.teamsOf question).
Proof.
  intros env t question. unfold Sports.parseQuestion.
  cbn [Sports.team Sports.opponent].
  split; [| split].
  - intros s Hs. apply orNull_some in Hs. destruct Hs as (Hs & _).
    apply nth_error_In in Hs. exact (@teamsOf_no_stop_word question s Hs).
  - intros s Hs. apply orNull_some in Hs. destruct Hs as (Hs & _).
    apply nth_error_In in Hs. exact (@teamsOf_no_stop_word question s Hs).
  - apply Forall_forall. intros s Hs. exact (@teamsOf_no_stop_word question s Hs).
Qed.

(** A question that starts with two capitalised words: the first is a
    question word, and the pair is taken as the team. *)
Example question_word_inside_a_team :
  Sports.teamsOf "Did Lakers win on 2026-01-19?" = ["Did Lakers"]%string /\
  Sports.teamsOf "Did the Lakers win on 2026-01-19?" = ["Lakers"]%string.
Proof. split; vm_compute; reflexivity. Qed.

(* ------------------------------------------------------------------ *)
(** * A body that is [null]                                            *)
(* ------------------------------------------------------------------ *)

(** X26.  A POST to an oracle route that carries a credential and the
    JSON body [null] is never answered: reading [question] of the body
    throws outside every [try], so [handleRequest] ends with that
    exception instead of a reply, before the facilitator or an oracle is
    called; the world is as before. *)
Theorem null_body_is_never_answered :
  forall (W R : Type) (payments : Server.Facilitator)
         (settings : Router.Settings)
         (sportsOracle redditOracle : string -> M W R) (clock : W -> Z)
         (req : Router.Incoming) (w : Server.World W),
    Router.method req = "POST"%string ->
    Router.pathname req = Some "/api/verify"%string \/
    Router.pathname req = Some "/api/reddit"%string ->
    orNull (Server.x402Token (Server.headers (Router.message req))) <> None ->
    Server.body (Router.message req) = Server.BodyNull ->
    Router.handleRequest payments settings sportsOracle redditOracle clock
                         req w
    = (Throw "Cannot read properties of null (reading 'question')"%string, w).
Proof.
  intros W R payments settings sportsOracle redditOracle clock req w
         Hm Hp Htoken Hbody.
  unfold Router.handleRequest. rewrite Hm.
  destruct Hp as [Hp | Hp]; rewrite Hp;
    cbn [String.eqb Ascii.eqb Bool.eqb andb];
    unfold bind, Server.handleOracleRequest;
    destruct (orNull (Server.x402Token (Server.headers (Router.message req))))
      as [token |]; try congruence;
    rewrite Hbody; reflexivity.
Qed.

Lemma null_body_is_never_answered_witness :
  Router.handleRequest Props.settling Props.sportsOnly
    (Sports.askOracle Fixtures.sportsEnv)
    (Sports.askOracle Fixtures.sportsEnv) Sports.now
    {| Router.method := "POST"; Router.pathname := Some "/api/verify"%string;
       Router.message := Fixtures.withToken Server.BodyNull |}
    Fixtures.serverWorld
  = (Throw "Cannot read properties of null (reading 'question')"%string,
     Fixtures.serverWorld).
Proof.
  apply (@null_body_is_never_answered _ _ Props.settling Props.sportsOnly
           (Sports.askOracle Fixtures.sportsEnv)
           (Sports.askOracle Fixtures.sportsEnv) Sports.now
           {| Router.method := "POST"; Router.pathname := Some "/api/verify"%string;
              Router.message := Fixtures.withToken Server.BodyNull |}
           Fixtures.serverWorld).
  - reflexivity.
  - left. reflexivity.
  - discriminate.
  - reflexivity.
Defined.
